(** * Personal finance dashboard (app1.py): a shallow embedding

    The script loads a table of transactions, brings it to a fixed schema,
    optionally appends one transaction typed into the sidebar form, filters
    the table by category, gender and date range, and shows KPIs, a top-5
    table and a CSV download of the filtered rows.

    The embedding follows the script top to bottom: one run of the script is
    the function [run] from the values of the widgets to what the page
    holds.  A pandas [DataFrame] is a list of named columns, a column
    ([Series]) a list of cells; Python operations that can raise return a
    [result].  Styling and the plotly figures are left out. *)

From Stdlib Require Import List String Ascii Bool Arith ZArith QArith Lia.
From Stdlib Require Import Qreduction.
From Stdlib Require Qcanon.
From Stdlib Require Import Strings.Byte.
From Stdlib Require Import Permutation Sorted.
Import ListNotations.

Local Close Scope Q_scope.
Local Open Scope string_scope.
Local Open Scope list_scope.

(** ** Python strings

    A [str] is modelled as a [string] whose characters are the code points
    U+0000 to U+00FF. *)

Module Py.

(** [str.isspace] on one character, for the code points below 256:
    TAB..CR, FS..US, SPACE, NEL (U+0085) and NBSP (U+00A0). *)
Definition isspace (c : ascii) : bool :=
  let n := nat_of_ascii c in
  (((9 <=? n) && (n <=? 13)) || ((28 <=? n) && (n <=? 32))
   || (n =? 133) || (n =? 160))%nat.

Fixpoint lstrip (s : string) : string :=
  match s with
  | EmptyString => EmptyString
  | String c s' => if isspace c then lstrip s' else s
  end.

(** [rstrip]: a character is dropped when it is white and everything after
    it has been dropped. *)
Fixpoint rstrip (s : string) : string :=
  match s with
  | EmptyString => EmptyString
  | String c s' =>
      match rstrip s' with
      | EmptyString => if isspace c then EmptyString else String c EmptyString
      | r => String c r
      end
  end.

(** [s.strip()] *)
Definition strip (s : string) : string := rstrip (lstrip s).

(** [sep.join(l)] *)
Fixpoint join (sep : string) (l : list string) : string :=
  match l with
  | [] => EmptyString
  | [x] => x
  | x :: rest => x ++ sep ++ join sep rest
  end.

(** Truthiness of a [str] and of a list: empty is false. *)
Definition truthy_str (s : string) : bool :=
  match s with EmptyString => false | _ => true end.

Definition truthy_list {A} (l : list A) : bool :=
  match l with [] => false | _ => true end.

(** [a or b] on strings. *)
Definition or_str (a b : string) : string := if truthy_str a then a else b.

(** Last character of a string, if any. *)
Fixpoint last_char (s : string) : option ascii :=
  match s with
  | EmptyString => None
  | String c EmptyString => Some c
  | String _ s' => last_char s'
  end.

End Py.

(** ** Results of operations that may raise *)

Inductive pyerror : Type :=
| KeyError (key : string)
| ValueError (msg : string)
| TypeError (msg : string)
| AttributeError (msg : string).

Inductive result (A : Type) : Type :=
| Ok (a : A)
| Raise (e : pyerror).

Arguments Ok {A} a.
Arguments Raise {A} e.

Definition bind {A B} (m : result A) (k : A -> result B) : result B :=
  match m with
  | Ok a => k a
  | Raise e => Raise e
  end.

Notation "x <- m ;; k" := (bind m (fun x => k))
  (at level 61, m at next level, right associativity).

Notation "' pat <- m ;; k" := (bind m (fun x => match x with pat => k end))
  (at level 61, pat pattern, m at next level, right associativity).

(** ** Numbers

    A float64 is a rational, an infinity, or NaN.  The finite values of the
    format (IEEE 754 binary64) are the rationals [m * 2^e] with
    [|m| < 2^53] and [-1074 <= e <= 971]; an arithmetic result is rounded to
    the nearest of them, to the one with the even [m] when two are equally
    near, and to an infinity when that would be 2^1024 or more.  The sign of
    a zero is not modelled.  A column of integers (int64) is modelled by the
    float64 column of the same values; the two have the same sums as long as
    these stay below 2^53 in absolute value. *)

Inductive float64 : Type :=
| Fin (q : Q)
| PInf
| NInf
| NaN.

(** [p / d / 2^e] as a fraction, for [0 < d]. *)
Definition scaled (p d e : Z) : Z * Z :=
  (if 0 <=? e then (p, d * 2 ^ e) else (p * 2 ^ (- e), d))%Z.

(** The integer nearest to [n / d], the even one of two that are equally
    near; for [0 <= n] and [0 < d]. *)
Definition round_half_even (nd : Z * Z) : Z :=
  (let '(n, d) := nd in
   let fl := n / d in
   match 2 * (n mod d) ?= d with
   | Lt => fl
   | Gt => fl + 1
   | Eq => if Z.even fl then fl else fl + 1
   end)%Z.

(** The [k] with [2^k <= p / d < 2^(k+1)], for [0 < p] and [0 < d]. *)
Definition ilog2 (p d : Z) : Z :=
  (let l := Z.log2 p - Z.log2 d in
   let '(n, m) := scaled p d l in
   if m <=? n then l else l - 1)%Z.

(** The binary64 nearest to [p / d], for [0 < p] and [0 < d]: its
    significand [m] and its exponent [e], the value being [m * 2^e]; [None]
    when that value is 2^1024 or more.  Below 2^-1022 the exponent stays at
    -1074 (the subnormal numbers). *)
Definition round_mag (p d : Z) : option (Z * Z) :=
  (let e := Z.max (ilog2 p d - 52) (-1074) in
   let m := round_half_even (scaled p d e) in
   if (971 <? e) || ((e =? 971) && (m =? 2 ^ 53)) then None
   else Some (m, e))%Z.

(** [m * 2^e] as a rational in lowest terms. *)
Definition grid (m e : Z) : Q :=
  Qred (if (0 <=? e)%Z then inject_Z (m * 2 ^ e)
        else Qmake m (Z.to_pos (2 ^ (- e)))).

(** Rounding to binary64: to nearest, ties to even. *)
Definition round64 (q : Q) : float64 :=
  let r := Qred q in
  match Qnum r with
  | Z0 => Fin 0%Q
  | Zpos p =>
      match round_mag (Zpos p) (Zpos (Qden r)) with
      | Some (m, e) => Fin (grid m e)
      | None => PInf
      end
  | Zneg p =>
      match round_mag (Zpos p) (Zpos (Qden r)) with
      | Some (m, e) => Fin (grid (- m) e)
      | None => NInf
      end
  end.

Definition isnan (x : float64) : bool :=
  match x with NaN => true | _ => false end.

Definition fzero : float64 := Fin 0%Q.

(** IEEE addition: the sum, rounded. *)
Definition fadd (x y : float64) : float64 :=
  match x, y with
  | NaN, _ | _, NaN => NaN
  | PInf, NInf | NInf, PInf => NaN
  | PInf, _ | _, PInf => PInf
  | NInf, _ | _, NInf => NInf
  | Fin a, Fin b => round64 (a + b)%Q
  end.

(** Division of a float by a count of values: the quotient, rounded. *)
Definition fdiv_count (x : float64) (n : nat) : float64 :=
  match n with
  | O => NaN
  | S _ =>
      match x with
      | Fin a => round64 (a / inject_Z (Z.of_nat n))%Q
      | other => other
      end
  end.

(** [x <= y]; false as soon as one side is NaN. *)
Definition fle (x y : float64) : bool :=
  match x, y with
  | NaN, _ | _, NaN => false
  | NInf, _ => true
  | _, PInf => true
  | Fin a, Fin b => Qle_bool a b
  | _, _ => false
  end.

Definition flt (x y : float64) : bool := fle x y && negb (fle y x).

Definition fmax (x y : float64) : float64 := if fle x y then y else x.

(** ** Timestamps

    A [Timestamp] is a count of nanoseconds since the epoch; a calendar
    date ([datetime.date]) is a count of days. *)

Definition ns_per_day : Z := 86400000000000%Z.

(** [ts.date()] *)
Definition date_of (t : Z) : Z := (t / ns_per_day)%Z.

(** [pd.to_datetime(d)] for a [datetime.date]: midnight of that day. *)
Definition to_datetime_date (d : Z) : Z := (d * ns_per_day)%Z.

(** No time of day. *)
Definition is_date_only (t : Z) : bool := (t mod ns_per_day =? 0)%Z.

(** ** Cells, Series and DataFrames *)

Inductive cell : Type :=
| CStr (s : string)      (* a Python str in an object column *)
| CNum (x : float64)     (* a number; [CNum NaN] is the missing value *)
| CTime (t : Z)          (* a Timestamp *)
| CNaT.                  (* the missing Timestamp *)

Definition Series : Type := list cell.

(** Columns in their order; each column holds one cell per row. *)
Definition DataFrame : Type := list (string * Series).

Definition columns (df : DataFrame) : list string := map fst df.

(** [len(df)] *)
Definition len (df : DataFrame) : nat :=
  match df with
  | [] => 0%nat
  | (_, s) :: _ => List.length s
  end.

(** [df.empty] *)
Definition df_empty (df : DataFrame) : bool :=
  match df with
  | [] => true
  | _ => (len df =? 0)%nat
  end.

(** [col in df.columns] *)
Definition has_col (c : string) (df : DataFrame) : bool :=
  existsb (String.eqb c) (columns df).

Fixpoint lookup {A} (c : string) (l : list (string * A)) : option A :=
  match l with
  | [] => None
  | (k, v) :: rest => if String.eqb c k then Some v else lookup c rest
  end.

(** [df[col]], a [KeyError] when the column is missing. *)
Definition get_col (c : string) (df : DataFrame) : result Series :=
  match lookup c df with
  | Some s => Ok s
  | None => Raise (KeyError c)
  end.

(** [df[col] = series]: in place when the column exists, else appended
    as the last column. *)
Fixpoint set_col (c : string) (s : Series) (df : DataFrame) : DataFrame :=
  match df with
  | [] => [(c, s)]
  | (k, v) :: rest =>
      if String.eqb c k then (k, s) :: rest else (k, v) :: set_col c s rest
  end.

(** [df[col] = scalar]: the scalar on every row. *)
Definition set_col_scalar (c : string) (v : cell) (df : DataFrame) : DataFrame :=
  set_col c (repeat v (len df)) df.

(** Rows of a Series picked by a boolean mask. *)
Fixpoint select {A} (mask : list bool) (s : list A) : list A :=
  match mask, s with
  | b :: mask', x :: s' => if b then x :: select mask' s' else select mask' s'
  | _, _ => []
  end.

(** [df.loc[mask]] *)
Definition loc (mask : list bool) (df : DataFrame) : DataFrame :=
  map (fun '(c, s) => (c, select mask s)) df.

(** Rows picked by position, in the order of the positions. *)
Definition take_series (idx : list nat) (s : Series) : Series :=
  map (fun i => nth i s (CNum NaN)) idx.

Definition take (idx : list nat) (df : DataFrame) : DataFrame :=
  map (fun '(c, s) => (c, take_series idx s)) df.

(** [df[[c1, ..., cn]]], a [KeyError] on the first missing column. *)
Fixpoint project (cs : list string) (df : DataFrame) : result DataFrame :=
  match cs with
  | [] => Ok []
  | c :: cs' =>
      s <- get_col c df ;;
      rest <- project cs' df ;;
      Ok ((c, s) :: rest)
  end.

(** [pd.concat([df, pd.DataFrame([row])], ignore_index=True)]: the columns
    of [df] first, then the keys of [row] that [df] lacks; a value missing
    on either side is NaN. *)
Definition concat_row (df : DataFrame) (row : list (string * cell)) : DataFrame :=
  map (fun '(c, s) =>
         (c, s ++ [match lookup c row with Some v => v | None => CNum NaN end]))
      df
  ++ map (fun '(c, v) => (c, repeat (CNum NaN) (len df) ++ [v]))
      (filter (fun '(c, _) => negb (has_col c df)) row).

(** The i-th row as the list of its cells, column by column. *)
Definition row_at (i : nat) (df : DataFrame) : list (string * cell) :=
  map (fun '(c, s) => (c, nth i s (CNum NaN))) df.

Definition rows (df : DataFrame) : list (list (string * cell)) :=
  map (fun i => row_at i df) (seq 0 (len df)).

(** Every column has one cell per row, and no name occurs twice. *)
Definition wf (df : DataFrame) : Prop :=
  NoDup (columns df) /\ Forall (fun cs => List.length (snd cs) = len df) df.

(** ** Calendar and date formatting *)

(** Year, month and day of a day count (proleptic Gregorian calendar). *)
Definition civil_from_days (days : Z) : Z * Z * Z :=
  (let z := days + 719468 in
   let era := z / 146097 in
   let doe := z - era * 146097 in
   let yoe := (doe - doe / 1460 + doe / 36524 - doe / 146096) / 365 in
   let y := yoe + era * 400 in
   let doy := doe - (365 * yoe + yoe / 4 - yoe / 100) in
   let mp := (5 * doy + 2) / 153 in
   let d := doy - (153 * mp + 2) / 5 + 1 in
   let m := if mp <? 10 then mp + 3 else mp - 9 in
   (if m <=? 2 then y + 1 else y, m, d))%Z.

Definition digit (n : Z) : ascii := ascii_of_nat (48 + Z.to_nat (n mod 10)).

Definition pad2 (n : Z) : string :=
  String (digit (n / 10)) (String (digit n) EmptyString).

Definition pad4 (n : Z) : string :=
  String (digit (n / 1000)) (String (digit (n / 100)) (pad2 n)).

(** A day written YYYY-MM-DD, for the years 0 to 9999. *)
Definition ymd_of_day (day : Z) : string :=
  let '(y, m, d) := civil_from_days day in
  pad4 y ++ "-" ++ pad2 m ++ "-" ++ pad2 d.

(** [ts.strftime("%Y-%m-%d")]; a Timestamp lies between 1677 and 2262. *)
Definition strftime_ymd (t : Z) : string := ymd_of_day (date_of t).

(** [str(ts.to_period("M"))] *)
Definition period_month (t : Z) : string :=
  let '(y, m, _) := civil_from_days (date_of t) in
  pad4 y ++ "-" ++ pad2 m.

Definition is_digit (c : ascii) : bool :=
  let n := nat_of_ascii c in ((48 <=? n) && (n <=? 57))%nat.

(** The shape YYYY-MM-DD. *)
Definition is_ymd (s : string) : bool :=
  match s with
  | String y1 (String y2 (String y3 (String y4 (String h1
      (String m1 (String m2 (String h2 (String d1 (String d2 EmptyString))))))))) =>
      forallb is_digit [y1; y2; y3; y4; m1; m2; d1; d2]
      && Ascii.eqb h1 "-"%char && Ascii.eqb h2 "-"%char
  | _ => false
  end.

(** Days a Timestamp can fall on: 1677-09-21 to 2262-04-11. *)
Definition ts_min_day : Z := (-106752)%Z.
Definition ts_max_day : Z := 106751%Z.

Definition in_ts_range (t : Z) : Prop :=
  (ts_min_day <= date_of t <= ts_max_day)%Z.

(** ** UTF-8 *)

(** [s.encode("utf-8")] for code points below 256: one byte below 128,
    otherwise two. *)
Fixpoint encode_utf8 (s : string) : list byte :=
  match s with
  | EmptyString => []
  | String c s' =>
      let n := nat_of_ascii c in
      if (n <? 128)%nat then byte_of_ascii c :: encode_utf8 s'
      else byte_of_ascii (ascii_of_nat (192 + n / 64))
           :: byte_of_ascii (ascii_of_nat (128 + n mod 64))
           :: encode_utf8 s'
  end.

(** ** Series operations *)

Definition is_missing (c : cell) : bool :=
  match c with
  | CNum x => isnan x
  | CNaT => true
  | _ => false
  end.

(** [s.dropna()] *)
Definition dropna (s : Series) : Series :=
  filter (fun c => negb (is_missing c)) s.

(** [s.empty] *)
Definition series_empty (s : Series) : bool :=
  match s with [] => true | _ => false end.

(** [s.notna()] *)
Definition notna (s : Series) : list bool :=
  map (fun c => negb (is_missing c)) s.

(** [s.fillna(v)] *)
Definition fillna (v : cell) (s : Series) : Series :=
  map (fun c => if is_missing c then v else c) s.

(** [s.replace(a, b)] on a column of strings: whole values equal to [a]. *)
Definition replace (a b : string) (l : list string) : list string :=
  map (fun x => if String.eqb x a then b else x) l.

(** [s.isin(values)] *)
Definition isin (values : list string) (l : list string) : list bool :=
  map (fun x => existsb (String.eqb x) values) l.

(** [s.between(lo, hi)], both ends included; a missing date gives False. *)
Definition between (lo hi : Z) (s : Series) : list bool :=
  map (fun c => match c with
                | CTime t => ((lo <=? t) && (t <=? hi))%Z
                | _ => false
                end) s.

(** [a & b] on boolean Series over the same index. *)
Fixpoint band (a b : list bool) : list bool :=
  match a, b with
  | x :: a', y :: b' => (x && y) :: band a' b'
  | _, _ => []
  end.

(** [s.unique()]: first occurrences, in order. *)
Fixpoint unique (l : list string) : list string :=
  match l with
  | [] => []
  | x :: l' => x :: filter (fun y => negb (String.eqb y x)) (unique l')
  end.

(** [sorted(l)] on strings: ascending by code points, stable. *)
Fixpoint insert_sorted (x : string) (l : list string) : list string :=
  match l with
  | [] => [x]
  | y :: l' => if String.leb x y then x :: y :: l' else y :: insert_sorted x l'
  end.

Definition sorted (l : list string) : list string :=
  fold_right insert_sorted [] l.

(** The Timestamps of a column, missing values skipped. *)
Definition timestamps (s : Series) : list Z :=
  flat_map (fun c => match c with CTime t => [t] | _ => [] end) s.

(** [s.min()] and [s.max()] on a datetime column, missing dates skipped.
    On a column without any date pandas gives NaT, which is no date to take
    the day of; the script asks for them only when there is a date. *)
Definition series_min_ts (s : Series) : result Z :=
  match timestamps s with
  | [] => Raise (ValueError "NaT")
  | t :: ts => Ok (fold_left Z.min ts t)
  end.

Definition series_max_ts (s : Series) : result Z :=
  match timestamps s with
  | [] => Raise (ValueError "NaT")
  | t :: ts => Ok (fold_left Z.max ts t)
  end.

(** The values of a numeric column; [nlargest] and the numeric reductions
    refuse a column that holds anything else. *)
Fixpoint series_values (s : Series) : result (list float64) :=
  match s with
  | [] => Ok []
  | CNum x :: s' => xs <- series_values s' ;; Ok (x :: xs)
  | _ :: _ => Raise (TypeError "dtype object")
  end.

(** [s.sum()], [s.mean()], [s.max()]: NaN values are skipped.  The sum adds
    the values in the order of the rows, rounding each addition.  numpy and
    pandas choose the order of the additions of a long column themselves;
    the result is the same wherever no addition rounds, and the theorems
    that give the value of a sum assume amounts for which none does. *)
Definition skipna (xs : list float64) : list float64 :=
  filter (fun x => negb (isnan x)) xs.

Definition nansum (xs : list float64) : float64 :=
  fold_left fadd (skipna xs) fzero.

Definition nanmean (xs : list float64) : float64 :=
  fdiv_count (nansum xs) (List.length (skipna xs)).

Definition nanmax (xs : list float64) : float64 :=
  match skipna xs with
  | [] => NaN
  | x :: rest => fold_left fmax rest x
  end.

(** [s.nlargest(n)] with [keep="first"], as positions: the values that are
    not NaN in descending order, equal values in their original order, then
    the NaN rows; the first [n] of those. *)
Fixpoint insert_desc (x : nat * float64) (l : list (nat * float64))
  : list (nat * float64) :=
  match l with
  | [] => [x]
  | y :: l' =>
      if flt (snd x) (snd y) then y :: insert_desc x l' else x :: y :: l'
  end.

Definition sort_desc (l : list (nat * float64)) : list (nat * float64) :=
  fold_right insert_desc [] l.

Definition nlargest_idx (n : nat) (xs : list float64) : list nat :=
  let ix := combine (seq 0 (List.length xs)) xs in
  let kept := filter (fun p => negb (isnan (snd p))) ix in
  let nans := filter (fun p => isnan (snd p)) ix in
  firstn n (map fst (sort_desc kept ++ nans)).

(** [df.nlargest(n, col)] *)
Definition nlargest (n : nat) (col : string) (df : DataFrame) : result DataFrame :=
  s <- get_col col df ;;
  xs <- series_values s ;;
  Ok (take (nlargest_idx n xs) df).

(** ** The script *)

Definition REQUIRED : list string :=
  ["Date"; "Category"; "Amount"; "Notes"; "Gender"].

Inductive data_source : Type :=
| LoadSample     (* "Load sample (recommended)" *)
| UploadFile.    (* "Upload file" *)

(** What the file uploader and the reader gave. *)
Inductive upload : Type :=
| NoFile
| Unreadable (e : string)        (* the reader raised; [e] is [str(e)] *)
| Readable (df : DataFrame).

(** The sidebar form. *)
Record Form : Type := {
  f_gender : string;
  f_cat : string;
  f_date : Z;              (* [st.date_input]: a day *)
  f_amount : Q;            (* [st.number_input(min_value=0.0)] *)
  f_notes : string;
  f_tags : list string
}.

(** The widgets' values in one run of the script.  A selection is [None]
    while the user leaves the widget at its default. *)
Record Widgets : Type := {
  w_source : data_source;
  w_upload : upload;
  w_sample_file : option DataFrame;   (* [None]: FileNotFoundError *)
  w_submit : option Form;             (* [Some] when the form is submitted *)
  w_cats : option (list string);
  w_genders : option (list string);
  w_dates : option (list Z);          (* the date range picked so far *)
  w_today : Z
}.

(** The numbers of the KPI cards. *)
Record Kpis : Type := {
  kpi_total : float64;
  kpi_avg : float64;
  kpi_count : nat;
  kpi_max : float64
}.

Record Download : Type := {
  dl_data : list byte;
  dl_file_name : string;
  dl_mime : string
}.

(** What one run leaves on the page. *)
Record Page : Type := {
  pg_errors : list string;        (* [st.sidebar.error] *)
  pg_success : bool;              (* [st.sidebar.success] shown *)
  pg_df : DataFrame;              (* the table after the form handler *)
  pg_selected_cats : list string;
  pg_selected_genders : list string;
  pg_range : Z * Z;
  pg_dff : DataFrame;             (* the filtered table *)
  pg_kpis : Kpis;
  pg_download : Download;
  pg_top5 : option DataFrame;     (* the five largest *)
  pg_top5_shown : option DataFrame   (* the same, as the page shows them *)
}.

Definition tag_options : list string :=
  ["food"; "monthly"; "one-time"; "refund"; "family"].

Definition fallback_data : DataFrame :=
  [ ("Date", [CStr "2025-01-05"; CStr "2025-01-07"; CStr "2025-02-02"]);
    ("Category", [CStr "Groceries"; CStr "Transport"; CStr "Utility"]);
    ("Amount", [CNum (Fin 1200); CNum (Fin 60); CNum (Fin 2100)]);
    ("Notes", [CStr "Big bazaar"; CStr "Auto"; CStr "Electricity Bill"]);
    ("Gender", [CStr "Not specified"; CStr "Not specified"; CStr "Not specified"]) ].

(** [load_sample_df] *)
Definition load_sample_df (sample_file : option DataFrame) : DataFrame :=
  let df := match sample_file with
            | Some df => df
            | None => fallback_data
            end in
  if negb (has_col "Gender" df)
  then set_col_scalar "Gender" (CStr "Not specified") df
  else df.

(** Lines 77-90: the table read from the chosen source, if any, and the
    error shown in the sidebar. *)
Definition load_data (w : Widgets) : option DataFrame * list string :=
  match w_source w with
  | UploadFile =>
      match w_upload w with
      | NoFile => (None, [])
      | Unreadable e => (None, [("Error reading file: " ++ e)%string])
      | Readable df => (Some df, [])
      end
  | LoadSample => (Some (load_sample_df (w_sample_file w)), [])
  end.

(** [pd.DataFrame(columns=[...])] *)
Definition empty_frame (cols : list string) : DataFrame :=
  map (fun c => (c, [])) cols.

(** Lines 97-99: the body of the loop, and the loop. *)
Definition add_if_missing (df : DataFrame) (col : string) : DataFrame :=
  if negb (has_col col df)
  then set_col_scalar col
         (if negb (String.eqb col "Amount") then CStr "" else CNum (Fin 0))
         df
  else df.

Definition add_missing_columns (df : DataFrame) : DataFrame :=
  fold_left add_if_missing ["Category"; "Amount"; "Notes"; "Gender"] df.

(** Lines 126-135: the row built from the form. *)
Definition new_row (f : Form) : list (string * cell) :=
  let notes := Py.or_str (f_notes f) "" in
  let notes :=
    if Py.truthy_list (f_tags f)
    then Py.strip (notes ++ " | Tags: " ++ Py.join ", " (f_tags f))%string
    else notes in
  [ ("Date", CTime (to_datetime_date (f_date f)));
    ("Category", CStr (f_cat f));
    ("Amount", CNum (Fin (f_amount f)));
    ("Notes", CStr notes);
    ("Gender", CStr (f_gender f)) ].

(** Lines 126-138. *)
Definition add_transaction (submit : option Form) (df : DataFrame)
  : DataFrame * bool :=
  match submit with
  | Some f => (concat_row df (new_row f), true)
  | None => (df, false)
  end.

(** [start_date, end_date = dr] *)
Definition unpack2 (dr : list Z) : result (Z * Z) :=
  match dr with
  | [a; b] => Ok (a, b)
  | _ => Raise (ValueError "unpack")
  end.

(** [if n] for a number. *)
Definition truthy_nat (n : nat) : bool := negb (n =? 0)%nat.

(** Lines 191-193 and 198. *)
Definition kpis (dff : DataFrame) : result Kpis :=
  amount <- get_col "Amount" dff ;;
  xs <- series_values amount ;;
  let total := nansum xs in
  let avg := if truthy_nat (len dff) then nanmean xs else fzero in
  let count := len dff in
  let mx := if truthy_nat count then nanmax xs else fzero in
  Ok {| kpi_total := total; kpi_avg := avg; kpi_count := count;
        kpi_max := mx |}.

(** What pandas and Python do to single values is taken as given. *)
Class Pandas : Type := {
  (** [str(v)] of a value that is not a [str], as [astype(str)] gives it. *)
  py_str : cell -> string;
  (** The date parser of [pd.to_datetime(col, errors="coerce")] on the value
      at a position of a column; [None] where it finds no date. *)
  parse_datetime : Series -> nat -> option Z;
  (** The number parser of [pd.to_numeric(col, errors="coerce")] on a value
      that is not a number; NaN where it finds none. *)
  parse_number : cell -> float64;
  (** How [to_csv] writes a number, a time of day, and one record. *)
  fmt_number : float64 -> string;
  fmt_time : Z -> string;
  csv_line : list string -> string
}.

Section Script.

Context `{Pandas}.

(** [s.astype(str)] *)
Definition astype_str (s : Series) : list string :=
  map (fun c => match c with CStr x => x | other => py_str other end) s.

(** [pd.to_datetime(s, errors="coerce")]: dates stay, anything else is
    parsed, and what cannot be parsed becomes NaT. *)
Definition to_datetime (s : Series) : Series :=
  map (fun '(i, c) =>
         match c with
         | CTime t => CTime t
         | CNaT => CNaT
         | _ => match parse_datetime s i with
                | Some t => CTime t
                | None => CNaT
                end
         end)
      (combine (seq 0 (List.length s)) s).

(** [pd.to_numeric(s, errors="coerce")]: numbers stay, anything else is
    parsed, and what cannot be parsed becomes NaN. *)
Definition to_numeric (s : Series) : Series :=
  map (fun c => match c with
                | CNum x => CNum x
                | other => CNum (parse_number other)
                end) s.

(** [ensure_datetime_col] *)
Definition ensure_datetime_col (df : DataFrame) (col : string) : result DataFrame :=
  if has_col col df
  then s <- get_col col df ;; Ok (set_col col (to_datetime s) df)
  else Ok (set_col_scalar col CNaT df).

(** Lines 92-105: the table brought to the schema. *)
Definition normalize (loaded : option DataFrame) : result DataFrame :=
  let df := match loaded with
            | None => empty_frame REQUIRED
            | Some df => df
            end in
  let df := add_missing_columns df in
  df <- ensure_datetime_col df "Date" ;;
  amount <- get_col "Amount" df ;;
  Ok (set_col "Amount" (fillna (CNum (Fin 0)) (to_numeric amount)) df).

(** The labels the filters compare: lines 146, 148, 172, 173. *)
Definition filter_keys (empty_label : string) (s : Series) : list string :=
  replace "" empty_label (astype_str s).

(** Lines 146-158: the options of the filter widgets and their defaults. *)
Definition default_options (today : Z) (df : DataFrame)
  : result (list string * list string * (Z * Z)) :=
  cat <- get_col "Category" df ;;
  let cats_all := sorted (unique (filter_keys "(empty)" cat)) in
  gender <- get_col "Gender" df ;;
  let genders_all := sorted (unique (filter_keys "Not specified" gender)) in
  date <- get_col "Date" df ;;
  range <-
    (if negb (series_empty (dropna date))
     then lo <- series_min_ts date ;;
          hi <- series_max_ts date ;;
          Ok (date_of lo, date_of hi)
     else Ok (today, today)) ;;
  Ok (cats_all, genders_all, range).

(** Lines 166-179: the mask and the filtered table. *)
Definition filter_mask (cats genders : list string) (start_date end_date : Z)
    (df : DataFrame) : result (list bool) :=
  let start_ts := to_datetime_date start_date in
  let end_ts := to_datetime_date end_date in
  cat <- get_col "Category" df ;;
  let mask_cat := isin cats (filter_keys "(empty)" cat) in
  gender <- get_col "Gender" df ;;
  let mask_gender := isin genders (filter_keys "Not specified" gender) in
  date <- get_col "Date" df ;;
  let mask_date := between start_ts end_ts date in
  Ok (band (band mask_cat mask_gender) mask_date).

Definition apply_filters (cats genders : list string) (start_date end_date : Z)
    (df : DataFrame) : result DataFrame :=
  mask <- filter_mask cats genders start_date end_date df ;;
  Ok (loc mask df).

(** Lines 184-188: the Month column. *)
Definition month_of_cell (c : cell) : result cell :=
  match c with
  | CTime t => Ok (CStr (period_month t))
  | CNaT => Ok (CStr "NaT")
  | _ => Raise (AttributeError "dt")
  end.

Fixpoint map_result {A B} (f : A -> result B) (l : list A) : result (list B) :=
  match l with
  | [] => Ok []
  | x :: l' => y <- f x ;; ys <- map_result f l' ;; Ok (y :: ys)
  end.

(** [s.any()] on a boolean Series. *)
Definition any (l : list bool) : bool := existsb (fun b => b) l.

Definition add_month (dff : DataFrame) : result DataFrame :=
  some_date <-
    (if negb (df_empty dff)
     then date <- get_col "Date" dff ;; Ok (any (notna date))
     else Ok false) ;;
  if some_date
  then date <- get_col "Date" dff ;;
       months <- map_result month_of_cell date ;;
       Ok (set_col "Month" months dff)
  else Ok (set_col_scalar "Month" (CStr "") dff).

(** [df.to_csv(index=False)] as records: the header, then one record per
    row.  A datetime column without any time of day is written as
    YYYY-MM-DD; a missing value is the empty field. *)
Definition dates_only (s : Series) : bool :=
  forallb (fun c => match c with CTime t => is_date_only t | _ => true end) s.

Definition csv_field (short : bool) (c : cell) : string :=
  match c with
  | CStr x => x
  | CNum x => if isnan x then "" else fmt_number x
  | CTime t =>
      if short then strftime_ymd t
      else (strftime_ymd t ++ " " ++ fmt_time (t mod ns_per_day)%Z)%string
  | CNaT => ""
  end.

Definition csv_column (s : Series) : list string :=
  map (csv_field (dates_only s)) s.

Definition csv_records (df : DataFrame) : list (list string) :=
  columns df ::
  map (fun i => map (fun '(_, s) => nth i (csv_column s) "") df)
      (seq 0 (len df)).

Definition to_csv (df : DataFrame) : string :=
  String.concat "" (map csv_line (csv_records df)).

(** [to_csv_bytes] *)
Definition to_csv_bytes (df : DataFrame) : list byte :=
  encode_utf8 (to_csv df).

(** Lines 233-240: the five largest, as shown. *)
Definition strftime_cell (c : cell) : result cell :=
  match c with
  | CTime t => Ok (CStr (strftime_ymd t))
  | CNaT => Ok (CNum NaN)
  | _ => Raise (AttributeError "dt")
  end.

Definition top5_table (dff : DataFrame) : result (option DataFrame) :=
  if negb (df_empty dff)
  then big <- nlargest 5 "Amount" dff ;;
       top5 <- project REQUIRED big ;;
       Ok (Some top5)
  else Ok None.

Definition top5_display (top5 : DataFrame) : result DataFrame :=
  if has_col "Date" top5
  then date <- get_col "Date" top5 ;;
       shown <- map_result strftime_cell date ;;
       Ok (set_col "Date" (fillna (CStr "") shown) top5)
  else Ok top5.

(** One run of the script, top to bottom. *)
Definition run (w : Widgets) : result Page :=
  let '(loaded, errors) := load_data w in
  df <- normalize loaded ;;
  let '(df, success) := add_transaction (w_submit w) df in
  '(cats_all, genders_all, (min_date, max_date)) <- default_options (w_today w) df ;;
  let selected_cats := match w_cats w with Some l => l | None => cats_all end in
  let selected_genders :=
    match w_genders w with Some l => l | None => genders_all end in
  let dr := match w_dates w with Some l => l | None => [min_date; max_date] end in
  '(start_date, end_date) <- unpack2 dr ;;
  dff <- apply_filters selected_cats selected_genders start_date end_date df ;;
  dff <- ensure_datetime_col dff "Date" ;;
  dff <- add_month dff ;;
  cards <- kpis dff ;;
  let download := {| dl_data := to_csv_bytes dff;
                     dl_file_name := "filtered_expenses.csv";
                     dl_mime := "text/csv" |} in
  top5 <- top5_table dff ;;
  shown <- match top5 with
           | Some t => t' <- top5_display t ;; Ok (Some t')
           | None => Ok None
           end ;;
  Ok {| pg_errors := errors; pg_success := success; pg_df := df;
        pg_selected_cats := selected_cats;
        pg_selected_genders := selected_genders;
        pg_range := (start_date, end_date);
        pg_dff := dff; pg_kpis := cards; pg_download := download;
        pg_top5 := top5; pg_top5_shown := shown |}.

End Script.

(** ** Fixtures

    A date parser that reads YYYY-MM-DD and nothing else, a number parser
    that reads nothing, and plain formatters: one concrete choice of what
    the script takes from pandas, to run it on examples. *)

Module Fixture.

Definition days_from_civil (y m d : Z) : Z :=
  (let y' := if m <=? 2 then y - 1 else y in
   let era := y' / 400 in
   let yoe := y' - era * 400 in
   let mp := if m <=? 2 then m + 9 else m - 3 in
   let doy := (153 * mp + 2) / 5 + d - 1 in
   let doe := yoe * 365 + yoe / 4 - yoe / 100 + doy in
   era * 146097 + doe - 719468)%Z.

Definition digit_val (c : ascii) : option Z :=
  if is_digit c then Some (Z.of_nat (nat_of_ascii c) - 48)%Z else None.

Definition iso_date (s : string) : option Z :=
  match s with
  | String y1 (String y2 (String y3 (String y4 (String h1
      (String m1 (String m2 (String h2 (String d1 (String d2 EmptyString))))))))) =>
      match digit_val y1, digit_val y2, digit_val y3, digit_val y4,
            digit_val m1, digit_val m2, digit_val d1, digit_val d2 with
      | Some a, Some b, Some c, Some d, Some e, Some f, Some g, Some h =>
          if Ascii.eqb h1 "-"%char && Ascii.eqb h2 "-"%char
          then Some (to_datetime_date
                       (days_from_civil (a * 1000 + b * 100 + c * 10 + d)
                                        (e * 10 + f) (g * 10 + h))%Z)
          else None
      | _, _, _, _, _, _, _, _ => None
      end
  | _ => None
  end.

Definition iso_dates (s : Series) (i : nat) : option Z :=
  match nth i s CNaT with
  | CStr x => iso_date x
  | _ => None
  end.

Definition plain_str (c : cell) : string :=
  match c with
  | CStr x => x
  | CNum _ => "nan"
  | CTime t => strftime_ymd t
  | CNaT => "NaT"
  end.

Definition line (fields : list string) : string :=
  (Py.join "," fields ++ String (ascii_of_nat 10) EmptyString)%string.

Definition pandas : Pandas :=
  {| py_str := plain_str;
     parse_datetime := iso_dates;
     parse_number := fun _ => NaN;
     fmt_number := fun _ => "0.0";
     fmt_time := fun _ => "00:00:00";
     csv_line := line |}.

Definition normalize := normalize (H := pandas).
Definition default_options := default_options (H := pandas).
Definition filter_mask := filter_mask (H := pandas).
Definition apply_filters := apply_filters (H := pandas).
Definition csv_records := csv_records (H := pandas).
Definition run := run (H := pandas).

(** The sample data, nothing uploaded, nothing submitted, filters untouched. *)
Definition sample_run : Widgets :=
  {| w_source := LoadSample; w_upload := NoFile; w_sample_file := None;
     w_submit := None; w_cats := None; w_genders := None; w_dates := None;
     w_today := 20396%Z |}.

(** An upload that could not be read. *)
Definition unreadable_run : Widgets :=
  {| w_source := UploadFile; w_upload := Unreadable "bad file";
     w_sample_file := None; w_submit := None; w_cats := None;
     w_genders := None; w_dates := None; w_today := 20396%Z |}.

(** An upload that could not be read, with only one end of the date range
    picked so far. *)
Definition unreadable_half_range_run : Widgets :=
  {| w_source := UploadFile; w_upload := Unreadable "bad file";
     w_sample_file := None; w_submit := None; w_cats := None;
     w_genders := None; w_dates := Some [20093%Z]; w_today := 20396%Z |}.

(** An upload with an extra column and without a Date column. *)
Definition undated_upload : DataFrame :=
  [ ("Shop", [CStr "Corner store"]);
    ("Category", [CStr "Groceries"]);
    ("Amount", [CNum (Fin 10)]) ].

(** The sample data, with only one end of the date range picked so far. *)
Definition half_range_run : Widgets :=
  {| w_source := LoadSample; w_upload := NoFile; w_sample_file := None;
     w_submit := None; w_cats := None; w_genders := None;
     w_dates := Some [20093%Z]; w_today := 20396%Z |}.

Definition undated_run : Widgets :=
  {| w_source := UploadFile; w_upload := Readable undated_upload;
     w_sample_file := None; w_submit := None; w_cats := None;
     w_genders := None; w_dates := None; w_today := 20396%Z |}.

(** An upload with one record, dated with a time of day (13:45). *)
Definition timed_upload : DataFrame :=
  [ ("Date", [CTime (to_datetime_date 20093 + 49500000000000)%Z]);
    ("Category", [CStr "Groceries"]);
    ("Amount", [CNum (Fin 10)]);
    ("Notes", [CStr ""]);
    ("Gender", [CStr "Other"]) ].

(** An upload with a refund entered as a negative amount. *)
Definition refund_upload : DataFrame :=
  [ ("Date", [CTime (to_datetime_date 20093)]);
    ("Category", [CStr "Groceries"]);
    ("Amount", [CNum (Fin (-5))]);
    ("Notes", [CStr "returned item"]);
    ("Gender", [CStr "Other"]) ].

(** The sample data after the normalizer. *)
Definition sample_ledger : DataFrame :=
  [ ("Date", [CTime (to_datetime_date 20093); CTime (to_datetime_date 20095);
              CTime (to_datetime_date 20121)]);
    ("Category", [CStr "Groceries"; CStr "Transport"; CStr "Utility"]);
    ("Amount", [CNum (Fin 1200); CNum (Fin 60); CNum (Fin 2100)]);
    ("Notes", [CStr "Big bazaar"; CStr "Auto"; CStr "Electricity Bill"]);
    ("Gender", [CStr "Not specified"; CStr "Not specified";
                CStr "Not specified"]) ].

(** A form with tags and no notes. *)
Definition tags_only_form : Form :=
  {| f_gender := "Other"; f_cat := "Travel"; f_date := 20396%Z;
     f_amount := 80%Q; f_notes := ""; f_tags := ["refund"; "family"] |}.

(** The form of the lunch example. *)
Definition lunch_form : Form :=
  {| f_gender := "Prefer not to say"; f_cat := "Groceries"; f_date := 20396%Z;
     f_amount := 250%Q; f_notes := "lunch"; f_tags := ["food"; "monthly"] |}.

End Fixture.

(** ** Notions the properties are stated with *)

(** A string that ends in something else than white space. *)
Definition ends_black (s : string) : Prop :=
  exists c, Py.last_char s = Some c /\ Py.isspace c = false.

(** The notes of the row the form handler builds. *)
Definition stored_notes (f : Form) : option cell := lookup "Notes" (new_row f).

(** The table the normalizer starts from. *)
Definition start_table (loaded : option DataFrame) : DataFrame :=
  match loaded with
  | None => empty_frame REQUIRED
  | Some df => df
  end.

(** The columns of the input, then those of Category, Amount, Notes, Gender
    and Date that the input lacks. *)
Definition normalized_columns (cols : list string) : list string :=
  cols ++ filter (fun c => negb (existsb (String.eqb c) cols))
                 ["Category"; "Amount"; "Notes"; "Gender"; "Date"].

(** A number that is there: not NaN. *)
Definition is_number (c : cell) : Prop :=
  exists x, c = CNum x /\ isnan x = false.

(** A finite number that is not negative. *)
Definition nonneg_finite (c : cell) : Prop :=
  exists q, c = CNum (Fin q) /\ (0 <= q)%Q.

(** What the normalizer makes of one value of the Amount column: a number
    stays, anything else is parsed, and NaN becomes 0. *)
Definition coerce_amount `{Pandas} (c : cell) : cell :=
  let x := match c with
           | CNum x => x
           | other => parse_number other
           end in
  if isnan x then CNum (Fin 0) else CNum x.

(** The Amount column the normalizer reads: the one of the input, or the
    zeros it creates. *)
Definition amount_column (df : DataFrame) : Series :=
  match lookup "Amount" df with
  | Some s => s
  | None => repeat (CNum (Fin 0)) (len df)
  end.

(** The Date column the normalizer leaves: the one of the input parsed, or
    the missing dates it creates. *)
Definition date_column `{Pandas} (df : DataFrame) : Series :=
  match lookup "Date" df with
  | Some s => to_datetime s
  | None => repeat CNaT (len df)
  end.

(** A cell of a datetime column. *)
Definition datetime_cell (c : cell) : Prop :=
  match c with
  | CTime _ | CNaT => True
  | _ => False
  end.

(** The tables the script works on after the normalizer: rectangular, with
    the required columns, dates in Date and numbers in Amount. *)
Record ledger (df : DataFrame) : Prop := {
  ledger_wf : wf df;
  ledger_category : has_col "Category" df = true;
  ledger_notes : has_col "Notes" df = true;
  ledger_gender : has_col "Gender" df = true;
  ledger_date :
    exists s, lookup "Date" df = Some s /\ Forall datetime_cell s;
  ledger_amount :
    exists s, lookup "Amount" df = Some s /\ Forall is_number s
}.

(** The table a run loads is rectangular. *)
Definition input_wf (w : Widgets) : Prop :=
  match fst (load_data w) with
  | Some df => wf df
  | None => True
  end.

(** The date range widget holds a start and an end. *)
Definition range_picked (w : Widgets) : Prop :=
  match w_dates w with
  | None => True
  | Some l => exists a b, l = [a; b]
  end.

(** The positions a mask keeps, in order. *)
Definition kept (mask : list bool) : list nat :=
  select mask (seq 0 (List.length mask)).

(** The label a filter compares for one value: its text, with the empty
    text replaced. *)
Definition label `{Pandas} (empty_label : string) (c : cell) : string :=
  let s := match c with CStr x => x | other => py_str other end in
  if String.eqb s "" then empty_label else s.

(** A record passes a filter spec: its category label is selected, its
    gender label is selected, and it has a date that, as a Timestamp, lies
    between midnight of the start and midnight of the end of the range,
    both included. *)
Definition passes `{Pandas} (cats genders : list string) (start_date end_date : Z)
    (r : list (string * cell)) : Prop :=
  (exists c, lookup "Category" r = Some c /\ In (label "(empty)" c) cats)
  /\ (exists g, lookup "Gender" r = Some g
               /\ In (label "Not specified" g) genders)
  /\ (exists t, lookup "Date" r = Some (CTime t)
               /\ (to_datetime_date start_date <= t
                   <= to_datetime_date end_date)%Z).

(** The same with the date compared by its day: the record has a date whose
    day lies between the start and the end of the range, both included. *)
Definition passes_by_day `{Pandas} (cats genders : list string)
    (start_date end_date : Z) (r : list (string * cell)) : Prop :=
  (exists c, lookup "Category" r = Some c /\ In (label "(empty)" c) cats)
  /\ (exists g, lookup "Gender" r = Some g
               /\ In (label "Not specified" g) genders)
  /\ (exists t, lookup "Date" r = Some (CTime t)
               /\ (start_date <= date_of t <= end_date)%Z).

(** A record with a date. *)
Definition dated (r : list (string * cell)) : bool :=
  match lookup "Date" r with
  | Some (CTime _) => true
  | _ => false
  end.

(** A date cell without time of day, or no date. *)
Definition no_time_of_day (c : cell) : Prop :=
  match c with
  | CTime t => is_date_only t = true
  | _ => True
  end.

(** A cell that holds a date. *)
Definition has_date (c : cell) : bool :=
  match c with
  | CTime _ => true
  | _ => false
  end.

(** The default date range: from the day of the earliest date to the day of
    the latest, or today when there is no date. *)
Definition default_range (today : Z) (date : Series) : Z * Z :=
  match timestamps date with
  | [] => (today, today)
  | t :: ts => (date_of (fold_left Z.min ts t), date_of (fold_left Z.max ts t))
  end.

(** The Month of a date cell. *)
Definition month_label (c : cell) : cell :=
  match c with
  | CTime t => CStr (period_month t)
  | _ => CStr "NaT"
  end.

(** The order of [nlargest] on positions: [i] ranks before [j] when its
    value is larger, or when the values are equal and [i] comes first. *)
Definition ranks_before (xs : list float64) (i j : nat) : Prop :=
  let a := nth i xs NaN in
  let b := nth j xs NaN in
  flt b a = true \/ (fle a b = true /\ fle b a = true /\ i < j).

(** The same on pairs of a position and its value. *)
Definition pair_before (p q : nat * float64) : Prop :=
  flt (snd q) (snd p) = true
  \/ (fle (snd p) (snd q) = true /\ fle (snd q) (snd p) = true
      /\ fst p < fst q).

(** All positions of a column, from the largest value down. *)
Definition ranking (xs : list float64) : list nat :=
  map fst (sort_desc (combine (seq 0 (List.length xs)) xs)).

(** A whole number as a float64. *)
Definition whole (n : Z) : float64 := Fin (inject_Z n).

(** The sum of whole numbers, and the sum of their absolute values.  While
    the latter is below 2^53, every sum of some of the numbers is a float64
    value, so that adding them as float64 never rounds, in whatever order
    the additions are made. *)
Definition zsum (ns : list Z) : Z := fold_right Z.add 0%Z ns.

Definition abs_sum (ns : list Z) : Z := zsum (map Z.abs ns).


(** What a run that does not raise leaves on the page, step by step. *)
Record run_facts `{Pandas} (w : Widgets) (page : Page) : Prop := {
  rf_errors : pg_errors page = snd (load_data w);
  rf_df :
    exists df0,
      normalize (fst (load_data w)) = Ok df0
      /\ pg_df page = fst (add_transaction (w_submit w) df0);
  rf_ledger : ledger (pg_df page);
  rf_defaults :
    exists cats_all genders_all lo hi,
      default_options (w_today w) (pg_df page)
      = Ok (cats_all, genders_all, (lo, hi))
      /\ pg_selected_cats page
         = match w_cats w with Some l => l | None => cats_all end
      /\ pg_selected_genders page
         = match w_genders w with Some l => l | None => genders_all end
      /\ unpack2 match w_dates w with Some l => l | None => [lo; hi] end
         = Ok (pg_range page);
  rf_filter :
    exists dff0 months,
      apply_filters (pg_selected_cats page) (pg_selected_genders page)
        (fst (pg_range page)) (snd (pg_range page)) (pg_df page) = Ok dff0
      /\ List.length months = len dff0
      /\ pg_dff page = set_col "Month" months dff0;
  rf_filtered : ledger (pg_dff page);
  rf_kpis : kpis (pg_dff page) = Ok (pg_kpis page);
  rf_download :
    pg_download page
    = {| dl_data := to_csv_bytes (pg_dff page);
         dl_file_name := "filtered_expenses.csv";
         dl_mime := "text/csv" |};
  rf_top5 : top5_table (pg_dff page) = Ok (pg_top5 page);
  rf_top5_shown :
    match pg_top5 page with
    | Some t => exists t', top5_display t = Ok t' /\ pg_top5_shown page = Some t'
    | None => pg_top5_shown page = None
    end
}.

(** The year, month and day of a date are within bounds. *)
Definition civil_bounded (ymd : Z * Z * Z) (ylo yhi : Z) : Prop :=
  let '(y, m, d) := ymd in
  (ylo <= y <= yhi /\ 1 <= m <= 12 /\ 1 <= d <= 31)%Z.

(** The field of a record of the file under a column of the header. *)
Definition field_of (header record : list string) (col : string)
  : option string :=
  lookup col (combine header record).

(** ** More of the script: the form's category box, the trend chart and the
    raw data expander *)

Definition default_categories : list string :=
  ["Groceries"; "Transport"; "Entertainment"; "Utility"; "Health"; "Travel"].

(** Line 118: [sorted(set(categories + defaults))], the options of the
    form's category box.  A set holds each text once, and sorting makes the
    order in which the set is walked irrelevant. *)
Definition cat_options `{Pandas} (df : DataFrame) : result (list string) :=
  cat <- get_col "Category" df ;;
  Ok (sorted (unique (unique (astype_str cat) ++ default_categories))).

(** The texts of a column of strings.  The script reads the Month column
    this way, which lines 185-188 fill with strings; a cell of another kind
    is outside what is modelled. *)
Fixpoint strings_of (s : Series) : result (list string) :=
  match s with
  | [] => Ok []
  | CStr x :: s' => xs <- strings_of s' ;; Ok (x :: xs)
  | _ :: _ => Raise (TypeError "not a str")
  end.

(** [df.groupby(key, as_index=False)[val].sum()] for a key column of
    strings: one record per distinct key, keys ascending, the values of the
    key's rows summed with NaN skipped. *)
Definition groupby_sum (keys : list string) (xs : list float64)
  : list (string * float64) :=
  map (fun k => (k, nansum (select (map (String.eqb k) keys) xs)))
      (sorted (unique keys)).

(** [.sort_values(key)]: ascending by key.  Records with equal keys keep
    their order here; the keys of a groupby result are distinct, so no two
    of its records tie. *)
Fixpoint insert_by_key (r : string * float64) (l : list (string * float64))
  : list (string * float64) :=
  match l with
  | [] => [r]
  | r' :: l' =>
      if String.leb (fst r) (fst r') then r :: r' :: l'
      else r' :: insert_by_key r l'
  end.

Definition sort_values_key (l : list (string * float64))
  : list (string * float64) :=
  fold_right insert_by_key [] l.

(** Lines 226-231: the records of the monthly trend chart, or [None] where
    the page says that there is no trend data. *)
Definition monthly_trend (dff : DataFrame)
  : result (option (list (string * float64))) :=
  some_month <-
    (if negb (df_empty dff)
     then month <- get_col "Month" dff ;;
          texts <- strings_of month ;;
          Ok (any (map Py.truthy_str texts))
     else Ok false) ;;
  if some_month
  then month <- get_col "Month" dff ;;
       keys <- strings_of month ;;
       amount <- get_col "Amount" dff ;;
       xs <- series_values amount ;;
       Ok (Some (sort_values_key (groupby_sum keys xs)))
  else Ok None.

(** [df.head(n)] *)
Definition head (n : nat) (df : DataFrame) : DataFrame :=
  map (fun '(c, s) => (c, firstn n s)) df.

(** Lines 243-248: the table of the raw data expander, when the box is
    ticked. *)
Definition raw_data (show_raw : bool) (dff : DataFrame)
  : result (option DataFrame) :=
  if show_raw
  then df_show <-
         (if has_col "Date" dff
          then date <- get_col "Date" dff ;;
               shown <- map_result strftime_cell date ;;
               Ok (set_col "Date" (fillna (CStr "") shown) dff)
          else Ok dff) ;;
       Ok (Some (head 200 df_show))
  else Ok None.

(** ** More notions *)

(** Strictly ascending texts. *)
Definition ascending (l : list string) : Prop :=
  StronglySorted (fun a b => String.ltb a b = true) l.

(** The shape YYYY-MM. *)
Definition is_ym (s : string) : bool :=
  match s with
  | String y1 (String y2 (String y3 (String y4 (String h1
      (String m1 (String m2 EmptyString)))))) =>
      forallb is_digit [y1; y2; y3; y4; m1; m2] && Ascii.eqb h1 "-"%char
  | _ => false
  end.

(** The cell a date is shown as in a table: YYYY-MM-DD, or the empty text
    for a missing date. *)
Definition shown_date (c : cell) : cell :=
  match c with
  | CTime t => CStr (strftime_ymd t)
  | _ => CStr ""
  end.

(** The row the form handler appends, on the columns of a table. *)
Definition appended_row (cols : list string) (f : Form) : list (string * cell) :=
  map (fun c => (c, match lookup c (new_row f) with
                    | Some v => v
                    | None => CNum NaN
                    end)) cols.

(** The text of the Month of a date cell. *)
Definition month_text (c : cell) : string :=
  match c with
  | CTime t => period_month t
  | _ => "NaT"
  end.

(** The values of the rows whose key is [k]. *)
Definition pick {A} (k : string) (keys : list string) (xs : list A) : list A :=
  select (map (String.eqb k) keys) xs.

(** ** Strings: what [strip] leaves alone *)

Lemma last_char_cons c s :
  s <> EmptyString -> Py.last_char (String c s) = Py.last_char s.
Proof. destruct s; [congruence | reflexivity]. Qed.

Lemma last_char_app s t :
  t <> EmptyString -> Py.last_char (s ++ t) = Py.last_char t.
Proof.
  intros Ht. induction s as [|c s IH]; simpl; [reflexivity|].
  rewrite <- IH. destruct (s ++ t)%string eqn:E; [|reflexivity].
  destruct s; simpl in E; [congruence | discriminate].
Qed.

Lemma rstrip_fixed s c :
  Py.last_char s = Some c -> Py.isspace c = false -> Py.rstrip s = s.
Proof.
  induction s as [|a s IH]; intros Hl Hc; [discriminate|].
  destruct s as [|b s].
  - simpl in *. injection Hl as ->. now rewrite Hc.
  - rewrite last_char_cons in Hl by discriminate.
    specialize (IH Hl Hc).
    change (Py.rstrip (String a (String b s)))
      with (match Py.rstrip (String b s) with
            | EmptyString =>
                if Py.isspace a then EmptyString else String a EmptyString
            | r => String a r
            end).
    now rewrite IH.
Qed.

Lemma ends_black_nonempty s : ends_black s -> s <> EmptyString.
Proof. intros (c & H & _) ->. discriminate. Qed.

Lemma ends_black_app s t : ends_black t -> ends_black (s ++ t).
Proof.
  intros H. pose proof (ends_black_nonempty _ H) as Hne.
  destruct H as (c & Hl & Hc). exists c. now rewrite last_char_app.
Qed.

Lemma join_ends_black sep l :
  l <> [] -> Forall ends_black l -> ends_black (Py.join sep l).
Proof.
  induction l as [|x l IH]; intros Hne Hall; [congruence|].
  inversion Hall as [|? ? Hx Hl]; subst.
  destruct l as [|y l]; [exact Hx|].
  change (Py.join sep (x :: y :: l))
    with (x ++ sep ++ Py.join sep (y :: l))%string.
  apply ends_black_app, ends_black_app, IH; [discriminate | assumption].
Qed.

Lemma tag_options_end_black : Forall ends_black tag_options.
Proof.
  repeat constructor; eexists; (split; [reflexivity | reflexivity]).
Qed.

(** ** Columns of a table *)

Lemma has_col_lookup {c} {df : DataFrame} :
  has_col c df = true -> exists s, lookup c df = Some s.
Proof.
  unfold has_col, columns. induction df as [|[k v] df IH]; simpl; [discriminate|].
  destruct (String.eqb c k); [eauto | exact IH].
Qed.

Lemma lookup_has_col c (df : DataFrame) s :
  lookup c df = Some s -> has_col c df = true.
Proof.
  unfold has_col, columns. induction df as [|[k v] df IH]; simpl; [discriminate|].
  destruct (String.eqb c k); [reflexivity | exact IH].
Qed.

Lemma has_col_false_lookup c (df : DataFrame) :
  has_col c df = false -> lookup c df = None.
Proof.
  intros H. destruct (lookup c df) eqn:E; [|reflexivity].
  apply lookup_has_col in E. congruence.
Qed.

Lemma has_col_In c (df : DataFrame) :
  has_col c df = true <-> In c (columns df).
Proof.
  unfold has_col. rewrite existsb_exists. split.
  - intros (x & Hx & E). apply String.eqb_eq in E. now subst.
  - intros H. exists c. split; [assumption | apply String.eqb_refl].
Qed.

Lemma get_col_lookup c (df : DataFrame) s :
  get_col c df = Ok s <-> lookup c df = Some s.
Proof.
  unfold get_col. destruct (lookup c df); split; intros H; congruence.
Qed.

Lemma lookup_set_col_same c s (df : DataFrame) :
  lookup c (set_col c s df) = Some s.
Proof.
  induction df as [|[k v] df IH]; simpl.
  - now rewrite String.eqb_refl.
  - destruct (String.eqb c k) eqn:E; simpl; rewrite E; [reflexivity | exact IH].
Qed.

Lemma lookup_set_col_other c c' s (df : DataFrame) :
  c' <> c -> lookup c' (set_col c s df) = lookup c' df.
Proof.
  intros Hne. induction df as [|[k v] df IH]; simpl.
  - apply String.eqb_neq in Hne. now rewrite Hne.
  - destruct (String.eqb c k) eqn:E; simpl.
    + apply String.eqb_eq in E. subst k.
      apply String.eqb_neq in Hne. now rewrite Hne.
    + now rewrite IH.
Qed.

Lemma columns_set_col c s (df : DataFrame) :
  columns (set_col c s df)
  = if has_col c df then columns df else columns df ++ [c].
Proof.
  unfold has_col, columns.
  induction df as [|[k v] df IH]; simpl; [reflexivity|].
  destruct (String.eqb c k); simpl; [reflexivity|].
  rewrite IH. now destruct (existsb _ _).
Qed.

Lemma len_set_col c s (df : DataFrame) :
  List.length s = len df -> len (set_col c s df) = len df.
Proof.
  destruct df as [|[k v] df]; [trivial|]. intros Hs. simpl.
  destruct (String.eqb c k); simpl; [exact Hs | reflexivity].
Qed.

Lemma lookup_app_l {A} c (l1 l2 : list (string * A)) v :
  lookup c l1 = Some v -> lookup c (l1 ++ l2) = Some v.
Proof.
  induction l1 as [|[k x] l1 IH]; simpl; [discriminate|].
  destruct (String.eqb c k); [trivial | exact IH].
Qed.

Lemma lookup_concat_row c (df : DataFrame) row s :
  lookup c df = Some s ->
  lookup c (concat_row df row)
  = Some (s ++ [match lookup c row with Some v => v | None => CNum NaN end]).
Proof.
  intros H. unfold concat_row. apply lookup_app_l.
  induction df as [|[k x] df IH]; simpl in *; [discriminate|].
  destruct (String.eqb c k) eqn:E; [|exact (IH H)].
  apply String.eqb_eq in E. subst k. now injection H as ->.
Qed.

Lemma notes_after_add (df : DataFrame) f notes v :
  stored_notes f = Some v ->
  get_col "Notes" df = Ok notes ->
  get_col "Notes" (fst (add_transaction (Some f) df)) = Ok (notes ++ [v]).
Proof.
  intros Hv Hn. apply get_col_lookup in Hn. apply get_col_lookup. simpl.
  rewrite (lookup_concat_row _ _ _ _ Hn). unfold stored_notes in Hv.
  now rewrite Hv.
Qed.

(** C8. Submitting the form with notes "lunch" and the tags food and monthly
    appends a record whose notes are "lunch | Tags: food, monthly"; the notes
    of the records already there stay as they were. *)
Theorem add_lunch_with_tags (df : DataFrame) (f : Form) (notes : Series) :
  f_notes f = "lunch" ->
  f_tags f = ["food"; "monthly"] ->
  get_col "Notes" df = Ok notes ->
  get_col "Notes" (fst (add_transaction (Some f) df))
  = Ok (notes ++ [CStr "lunch | Tags: food, monthly"]).
Proof.
  intros Hn Ht. apply notes_after_add.
  unfold stored_notes, new_row. rewrite Hn, Ht. reflexivity.
Qed.

(** C10. With empty notes and at least one tag picked from the options, the
    stored notes are "| Tags: " followed by the tags joined with ", ":
    [strip] removes the blank that would otherwise lead. *)
Theorem add_tags_without_notes (df : DataFrame) (f : Form) (notes : Series) :
  f_notes f = "" ->
  f_tags f <> [] ->
  incl (f_tags f) tag_options ->
  get_col "Notes" df = Ok notes ->
  get_col "Notes" (fst (add_transaction (Some f) df))
  = Ok (notes ++ [CStr ("| Tags: " ++ Py.join ", " (f_tags f))]).
Proof.
  intros Hn Hne Hincl. apply notes_after_add.
  unfold stored_notes, new_row. rewrite Hn.
  destruct (f_tags f) as [|t ts] eqn:Et; [congruence|].
  cbn [Py.truthy_list Py.or_str Py.truthy_str lookup String.eqb Ascii.eqb
       Bool.eqb].
  do 2 f_equal. unfold Py.strip.
  change (Py.lstrip ("" ++ " | Tags: " ++ Py.join ", " (t :: ts)))
    with ("| Tags: " ++ Py.join ", " (t :: ts))%string.
  assert (Hb : ends_black ("| Tags: " ++ Py.join ", " (t :: ts))).
  { apply ends_black_app, join_ends_black; [discriminate|].
    apply Forall_forall. intros x Hx.
    exact (proj1 (Forall_forall _ _) tag_options_end_black x (Hincl x Hx)). }
  destruct Hb as (c & Hl & Hc). exact (rstrip_fixed _ _ Hl Hc).
Qed.

(** ** The normalizer *)

Lemma len_set_col_scalar c v (df : DataFrame) :
  len (set_col_scalar c v df) = len df.
Proof.
  unfold set_col_scalar. apply len_set_col, repeat_length.
Qed.

Lemma has_col_set_col c c' s (df : DataFrame) :
  has_col c' (set_col c s df) = has_col c' df || String.eqb c' c.
Proof.
  unfold has_col. rewrite columns_set_col. fold (has_col c df).
  destruct (has_col c df) eqn:E.
  - destruct (String.eqb c' c) eqn:E'; [|now rewrite orb_false_r].
    apply String.eqb_eq in E'. subst c'. fold (has_col c df).
    now rewrite E.
  - rewrite existsb_app. simpl. now rewrite orb_false_r.
Qed.

Lemma columns_add_if_missing (df : DataFrame) c :
  columns (add_if_missing df c)
  = columns df ++ (if has_col c df then [] else [c]).
Proof.
  unfold add_if_missing, set_col_scalar.
  destruct (has_col c df) eqn:E; simpl; [now rewrite app_nil_r|].
  now rewrite columns_set_col, E.
Qed.

Lemma has_col_add_if_missing (df : DataFrame) c c' :
  has_col c' (add_if_missing df c) = has_col c' df || String.eqb c' c.
Proof.
  unfold add_if_missing, set_col_scalar.
  destruct (has_col c df) eqn:E; simpl; [|apply has_col_set_col].
  destruct (String.eqb c' c) eqn:E'; [|now rewrite orb_false_r].
  apply String.eqb_eq in E'. subst c'. now rewrite E.
Qed.

Lemma len_add_if_missing (df : DataFrame) c : len (add_if_missing df c) = len df.
Proof.
  unfold add_if_missing. destruct (negb (has_col c df)); [|reflexivity].
  apply len_set_col_scalar.
Qed.

Lemma lookup_add_if_missing_other (df : DataFrame) c c' :
  c' <> c -> lookup c' (add_if_missing df c) = lookup c' df.
Proof.
  intros H. unfold add_if_missing, set_col_scalar.
  destruct (negb (has_col c df)); [|reflexivity].
  now apply lookup_set_col_other.
Qed.

Lemma lookup_add_if_missing_same (df : DataFrame) c :
  lookup c (add_if_missing df c)
  = match lookup c df with
    | Some s => Some s
    | None => Some (repeat (if negb (String.eqb c "Amount")
                            then CStr "" else CNum (Fin 0)) (len df))
    end.
Proof.
  unfold add_if_missing, set_col_scalar.
  destruct (has_col c df) eqn:E; simpl.
  - destruct (has_col_lookup E) as (s & ->). reflexivity.
  - rewrite (has_col_false_lookup _ _ E). apply lookup_set_col_same.
Qed.

Lemma len_add_missing_columns (df : DataFrame) :
  len (add_missing_columns df) = len df.
Proof.
  unfold add_missing_columns. simpl. now rewrite !len_add_if_missing.
Qed.

Lemma columns_add_missing_columns (df : DataFrame) :
  columns (add_missing_columns df)
  = columns df
    ++ filter (fun c => negb (has_col c df))
         ["Category"; "Amount"; "Notes"; "Gender"].
Proof.
  unfold add_missing_columns. simpl.
  rewrite !columns_add_if_missing, !has_col_add_if_missing. simpl.
  rewrite !orb_false_r.
  destruct (has_col "Category" df), (has_col "Amount" df),
    (has_col "Notes" df), (has_col "Gender" df); simpl;
    rewrite <- ?app_assoc, ?app_nil_r; reflexivity.
Qed.

Lemma has_col_add_missing_columns (df : DataFrame) c :
  has_col c (add_missing_columns df)
  = has_col c df
    || existsb (String.eqb c) ["Category"; "Amount"; "Notes"; "Gender"].
Proof.
  unfold add_missing_columns. simpl. rewrite !has_col_add_if_missing.
  now rewrite !orb_false_r, <- !orb_assoc.
Qed.

(** A column the loop creates holds its filler on every row; a column that
    was there is left alone. *)
Lemma lookup_add_missing_columns (df : DataFrame) c :
  lookup c (add_missing_columns df)
  = match lookup c df with
    | Some s => Some s
    | None =>
        if existsb (String.eqb c) ["Category"; "Amount"; "Notes"; "Gender"]
        then Some (repeat (if negb (String.eqb c "Amount")
                           then CStr "" else CNum (Fin 0)) (len df))
        else None
    end.
Proof.
  unfold add_missing_columns. simpl.
  destruct (String.eqb c "Gender") eqn:E4.
  { apply String.eqb_eq in E4. subst c.
    rewrite lookup_add_if_missing_same, !len_add_if_missing.
    rewrite !lookup_add_if_missing_other by discriminate.
    destruct (lookup "Gender" df); reflexivity. }
  apply String.eqb_neq in E4. rewrite lookup_add_if_missing_other by assumption.
  destruct (String.eqb c "Notes") eqn:E3.
  { apply String.eqb_eq in E3. subst c.
    rewrite lookup_add_if_missing_same, !len_add_if_missing.
    rewrite !lookup_add_if_missing_other by discriminate.
    destruct (lookup "Notes" df); reflexivity. }
  apply String.eqb_neq in E3. rewrite lookup_add_if_missing_other by assumption.
  destruct (String.eqb c "Amount") eqn:E2.
  { apply String.eqb_eq in E2. subst c.
    rewrite lookup_add_if_missing_same, !len_add_if_missing.
    rewrite !lookup_add_if_missing_other by discriminate.
    destruct (lookup "Amount" df); reflexivity. }
  apply String.eqb_neq in E2. rewrite lookup_add_if_missing_other by assumption.
  destruct (String.eqb c "Category") eqn:E1.
  { apply String.eqb_eq in E1. subst c.
    rewrite lookup_add_if_missing_same.
    destruct (lookup "Category" df); reflexivity. }
  apply String.eqb_neq in E1. rewrite lookup_add_if_missing_other by assumption.
  simpl. now destruct (lookup c df).
Qed.

Section Normalizer.

Context `{Pandas}.

Lemma to_datetime_length s : List.length (to_datetime s) = List.length s.
Proof.
  unfold to_datetime.
  now rewrite length_map, length_combine, length_seq, Nat.min_id.
Qed.

Lemma fillna_to_numeric s :
  fillna (CNum (Fin 0)) (to_numeric s) = map coerce_amount s.
Proof.
  unfold fillna, to_numeric. rewrite map_map.
  apply map_ext. intros c. unfold coerce_amount.
  destruct c; simpl; try reflexivity.
Qed.

Lemma ensure_datetime_col_ok (df : DataFrame) :
  ensure_datetime_col df "Date" = Ok (set_col "Date" (date_column df) df).
Proof.
  unfold ensure_datetime_col, date_column, get_col, set_col_scalar.
  destruct (has_col "Date" df) eqn:E.
  - destruct (has_col_lookup E) as (s & ->). reflexivity.
  - now rewrite (has_col_false_lookup _ _ E).
Qed.

(** The normalizer never raises; its result, written out. *)
Lemma normalize_ok loaded :
  normalize loaded
  = Ok (set_col "Amount" (map coerce_amount (amount_column (start_table loaded)))
         (set_col "Date" (date_column (add_missing_columns (start_table loaded)))
            (add_missing_columns (start_table loaded)))).
Proof.
  unfold normalize. fold (start_table loaded).
  rewrite ensure_datetime_col_ok. cbn [bind].
  set (df1 := add_missing_columns (start_table loaded)).
  assert (Ha : lookup "Amount" (set_col "Date" (date_column df1) df1)
               = Some (amount_column (start_table loaded))).
  { rewrite lookup_set_col_other by discriminate.
    unfold df1. rewrite lookup_add_missing_columns. unfold amount_column.
    destruct (lookup "Amount" (start_table loaded)); reflexivity. }
  unfold get_col. rewrite Ha. cbn [bind].
  now rewrite fillna_to_numeric.
Qed.

Lemma coerce_amount_number x :
  isnan x = false -> coerce_amount (CNum x) = CNum x.
Proof. intros E. unfold coerce_amount. now rewrite E. Qed.

Lemma coerce_amount_is_number c : is_number (coerce_amount c).
Proof.
  unfold coerce_amount, is_number.
  destruct c; simpl;
    match goal with
    | |- context [isnan ?x] => destruct (isnan x) eqn:E
    end; eauto.
Qed.

Lemma normalize_columns loaded df :
  normalize loaded = Ok df ->
  columns df = normalized_columns (columns (start_table loaded)).
Proof.
  rewrite normalize_ok. intros [= <-].
  set (df0 := start_table loaded).
  rewrite !columns_set_col, has_col_set_col, !has_col_add_missing_columns.
  rewrite columns_add_missing_columns. simpl. rewrite !orb_true_r. simpl.
  rewrite orb_false_r. unfold normalized_columns.
  change (existsb (String.eqb ?c) (columns df0)) with (has_col c df0).
  simpl.
  destruct (has_col "Category" df0), (has_col "Amount" df0),
    (has_col "Notes" df0), (has_col "Gender" df0), (has_col "Date" df0);
    simpl; rewrite <- ?app_assoc, ?app_nil_r; reflexivity.
Qed.

Lemma normalize_lookup_amount loaded df :
  normalize loaded = Ok df ->
  lookup "Amount" df
  = Some (map coerce_amount (amount_column (start_table loaded))).
Proof.
  rewrite normalize_ok. intros [= <-]. apply lookup_set_col_same.
Qed.

Lemma normalize_lookup_date loaded df :
  normalize loaded = Ok df ->
  lookup "Date" df
  = Some (date_column (add_missing_columns (start_table loaded))).
Proof.
  rewrite normalize_ok. intros [= <-].
  rewrite lookup_set_col_other by discriminate. apply lookup_set_col_same.
Qed.

Lemma normalize_lookup_other loaded df c :
  normalize loaded = Ok df -> c <> "Amount" -> c <> "Date" ->
  lookup c df = lookup c (add_missing_columns (start_table loaded)).
Proof.
  rewrite normalize_ok. intros [= <-] Ha Hd.
  now rewrite !lookup_set_col_other.
Qed.

(** C4, as the code has it.  The normalizer never fails.  Its result has the
    columns of the input in their order, followed by those of Category,
    Amount, Notes, Gender and Date the input lacks: the five required
    columns are there, and so is every other column of the input.  A created
    Category, Notes or Gender column holds the empty string on every row,
    a created Amount column holds 0; when nothing was loaded the columns are
    the five. *)
Theorem normalize_schema (loaded : option DataFrame) :
  exists df,
    normalize loaded = Ok df
    /\ columns df = normalized_columns (columns (start_table loaded))
    /\ (forall c, In c REQUIRED -> In c (columns df))
    /\ (forall c, In c (columns (start_table loaded)) -> In c (columns df))
    /\ (forall c, In c ["Category"; "Notes"; "Gender"] ->
                  has_col c (start_table loaded) = false ->
                  lookup c df
                  = Some (repeat (CStr "") (len (start_table loaded))))
    /\ (has_col "Amount" (start_table loaded) = false ->
        lookup "Amount" df
        = Some (repeat (CNum (Fin 0)) (len (start_table loaded))))
    /\ (loaded = None -> columns df = REQUIRED).
Proof.
  pose proof (normalize_ok loaded) as Hn. eexists. split; [exact Hn|].
  pose proof (normalize_columns _ _ Hn) as Hc.
  split; [exact Hc|]. rewrite Hc. unfold normalized_columns.
  change (fun c => negb (existsb (String.eqb c) (columns (start_table loaded))))
    with (fun c => negb (has_col c (start_table loaded))).
  repeat split.
  - intros c Hin. apply in_or_app.
    destruct (has_col c (start_table loaded)) eqn:E;
      [left; now apply has_col_In|].
    right. apply filter_In. rewrite E. split; [|reflexivity].
    simpl in Hin. simpl. intuition.
  - intros c Hin. apply in_or_app. now left.
  - intros c Hin Hno.
    rewrite (normalize_lookup_other _ _ c Hn), lookup_add_missing_columns.
    + rewrite (has_col_false_lookup _ _ Hno).
      simpl in Hin. destruct Hin as [<-|[<-|[<-|[]]]]; reflexivity.
    + simpl in Hin. intuition (subst; discriminate).
    + simpl in Hin. intuition (subst; discriminate).
  - intros Hno. rewrite (normalize_lookup_amount _ _ Hn).
    unfold amount_column. rewrite (has_col_false_lookup _ _ Hno).
    now rewrite map_repeat.
  - intros ->. reflexivity.
Qed.

(** C2, as the code has it.  After normalization every value of the Amount
    column is a number, never a missing one: a number of the input is kept
    as it is, whatever its sign, and what is missing or cannot be parsed
    becomes 0.  The record the form adds carries the amount typed into the
    form, and the amounts before it stay. *)
Theorem amounts_are_numbers (loaded : option DataFrame) :
  exists df amount,
    normalize loaded = Ok df
    /\ get_col "Amount" df = Ok amount
    /\ amount = map coerce_amount (amount_column (start_table loaded))
    /\ Forall is_number amount
    /\ (forall x, isnan x = false -> coerce_amount (CNum x) = CNum x)
    /\ (forall x, isnan x = true -> coerce_amount (CNum x) = CNum (Fin 0))
    /\ (forall s, isnan (parse_number (CStr s)) = true ->
                  coerce_amount (CStr s) = CNum (Fin 0))
    /\ (forall f,
          get_col "Amount" (fst (add_transaction (Some f) df))
          = Ok (amount ++ [CNum (Fin (f_amount f))])).
Proof.
  pose proof (normalize_ok loaded) as Hn.
  pose proof (normalize_lookup_amount _ _ Hn) as Ha.
  eexists. eexists. split; [exact Hn|].
  split; [apply get_col_lookup; exact Ha|].
  split; [reflexivity|]. repeat split.
  - apply Forall_forall. intros c Hc. apply in_map_iff in Hc.
    destruct Hc as (c0 & <- & _). apply coerce_amount_is_number.
  - apply coerce_amount_number.
  - intros x E. unfold coerce_amount. now rewrite E.
  - intros s E. unfold coerce_amount. now rewrite E.
  - intros f. apply get_col_lookup. simpl.
    now rewrite (lookup_concat_row _ _ _ _ Ha).
Qed.

End Normalizer.

(** ** Rectangular tables *)

Lemma wf_lookup (df : DataFrame) c s :
  wf df -> lookup c df = Some s -> List.length s = len df.
Proof.
  intros [_ Hall] Hl. revert Hall. generalize (len df) as n.
  induction df as [|[k v] df IH]; simpl in *; [discriminate|].
  intros n Hall. pose proof (Forall_inv Hall) as Hv.
  pose proof (Forall_inv_tail Hall) as Hrest.
  destruct (String.eqb c k); [injection Hl as <-; exact Hv | now apply IH].
Qed.

Lemma wf_nil : wf [].
Proof. split; constructor. Qed.

Lemma wf_intro (df : DataFrame) n :
  NoDup (columns df) ->
  Forall (fun cs => List.length (snd cs) = n) df ->
  wf df.
Proof.
  intros Hnd Hall. split; [exact Hnd|].
  destruct df as [|[k v] df]; [constructor|].
  pose proof (Forall_inv Hall) as Hv. simpl in *. now rewrite Hv.
Qed.

Lemma Forall_set_col (P : string * Series -> Prop) c s (df : DataFrame) :
  P (c, s) -> Forall P df -> Forall P (set_col c s df).
Proof.
  intros Hp Hall. induction Hall as [|[k v] df Hkv Hall IH]; simpl.
  - now constructor.
  - destruct (String.eqb c k) eqn:E.
    + apply String.eqb_eq in E. subst k. now constructor.
    + now constructor.
Qed.

Lemma NoDup_columns_set_col c s (df : DataFrame) :
  NoDup (columns df) -> NoDup (columns (set_col c s df)).
Proof.
  intros Hnd. rewrite columns_set_col.
  destruct (has_col c df) eqn:E; [exact Hnd|].
  apply NoDup_app; [exact Hnd | repeat constructor; intros [] |].
  intros x Hx [<-|[]]. apply has_col_In in Hx. congruence.
Qed.

Lemma wf_set_col c s (df : DataFrame) :
  wf df -> List.length s = len df -> wf (set_col c s df).
Proof.
  intros [Hnd Hall] Hs. apply (wf_intro _ (len df)).
  - now apply NoDup_columns_set_col.
  - now apply Forall_set_col.
Qed.

Lemma wf_set_col_scalar c v (df : DataFrame) :
  wf df -> wf (set_col_scalar c v df).
Proof. intros Hwf. apply wf_set_col; [exact Hwf | apply repeat_length]. Qed.

Lemma wf_add_if_missing (df : DataFrame) c : wf df -> wf (add_if_missing df c).
Proof.
  intros Hwf. unfold add_if_missing.
  destruct (negb (has_col c df)); [now apply wf_set_col_scalar | exact Hwf].
Qed.

Lemma wf_add_missing_columns (df : DataFrame) :
  wf df -> wf (add_missing_columns df).
Proof.
  intros Hwf. unfold add_missing_columns. simpl.
  now repeat apply wf_add_if_missing.
Qed.

Lemma select_length {A B} (mask : list bool) (s : list A) (s' : list B) :
  List.length s = List.length s' ->
  List.length (select mask s) = List.length (select mask s').
Proof.
  revert s s'. induction mask as [|b mask IH]; intros [|x s] [|y s'] E;
    simpl in *; try reflexivity; try discriminate.
  injection E as E. destruct b; simpl; auto.
Qed.

Lemma columns_loc mask (df : DataFrame) : columns (loc mask df) = columns df.
Proof.
  unfold loc, columns. rewrite map_map. apply map_ext. now intros [k v].
Qed.

Lemma lookup_loc mask (df : DataFrame) c :
  lookup c (loc mask df) = option_map (select mask) (lookup c df).
Proof.
  induction df as [|[k v] df IH]; simpl; [reflexivity|].
  destruct (String.eqb c k); [reflexivity | exact IH].
Qed.

Lemma has_col_loc mask (df : DataFrame) c :
  has_col c (loc mask df) = has_col c df.
Proof. unfold has_col. now rewrite columns_loc. Qed.

Lemma wf_loc mask (df : DataFrame) : wf df -> wf (loc mask df).
Proof.
  intros [Hnd Hall]. destruct df as [|[k v] df]; [exact wf_nil|].
  apply (wf_intro _ (List.length (select mask v))).
  - now rewrite columns_loc.
  - apply Forall_forall. intros [c s] Hin. unfold loc in Hin.
    apply in_map_iff in Hin. destruct Hin as ([c' s'] & [= <- <-] & Hin).
    apply select_length.
    exact (proj1 (Forall_forall _ _) Hall _ Hin).
Qed.

Lemma columns_take idx (df : DataFrame) : columns (take idx df) = columns df.
Proof.
  unfold take, columns. rewrite map_map. apply map_ext. now intros [k v].
Qed.

Lemma lookup_take idx (df : DataFrame) c :
  lookup c (take idx df) = option_map (take_series idx) (lookup c df).
Proof.
  induction df as [|[k v] df IH]; simpl; [reflexivity|].
  destruct (String.eqb c k); [reflexivity | exact IH].
Qed.

Lemma wf_take idx (df : DataFrame) : wf df -> wf (take idx df).
Proof.
  intros [Hnd _]. apply (wf_intro _ (List.length idx)).
  - now rewrite columns_take.
  - apply Forall_forall. intros [c s] Hin. unfold take in Hin.
    apply in_map_iff in Hin. destruct Hin as ([c' s'] & [= <- <-] & _).
    apply length_map.
Qed.

Lemma wf_empty_frame : wf (empty_frame REQUIRED).
Proof.
  apply (wf_intro _ 0).
  - repeat constructor; simpl; intuition discriminate.
  - repeat constructor.
Qed.

Lemma len_loc mask (df : DataFrame) c s :
  wf df -> lookup c df = Some s ->
  len (loc mask df) = List.length (select mask s).
Proof.
  intros Hwf Hl.
  symmetry. apply (wf_lookup (loc mask df) c); [now apply wf_loc|].
  now rewrite lookup_loc, Hl.
Qed.

(** ** The table after the normalizer and the form *)

Lemma Forall_select {A} (P : A -> Prop) mask (s : list A) :
  Forall P s -> Forall P (select mask s).
Proof.
  intros H. revert mask. induction H as [|x s Hx Hs IH]; intros [|b mask];
    simpl; try constructor.
  destruct b; [constructor|]; auto.
Qed.

Section Ledger.

Context `{Pandas}.

Lemma to_datetime_cells s : Forall datetime_cell (to_datetime s).
Proof.
  unfold to_datetime. apply Forall_forall. intros c Hc.
  apply in_map_iff in Hc. destruct Hc as ([i c0] & <- & _).
  destruct c0; simpl; trivial; destruct (parse_datetime s i); exact I.
Qed.

Lemma date_column_cells (df : DataFrame) : Forall datetime_cell (date_column df).
Proof.
  unfold date_column. destruct (lookup "Date" df).
  - apply to_datetime_cells.
  - apply Forall_forall. intros c Hc. apply repeat_spec in Hc. now subst.
Qed.

Lemma date_column_length (df : DataFrame) :
  wf df -> List.length (date_column df) = len df.
Proof.
  intros Hwf. unfold date_column. destruct (lookup "Date" df) eqn:E.
  - rewrite to_datetime_length. now apply (wf_lookup df "Date").
  - apply repeat_length.
Qed.

Lemma amount_column_length (df : DataFrame) :
  wf df -> List.length (amount_column df) = len df.
Proof.
  intros Hwf. unfold amount_column. destruct (lookup "Amount" df) eqn:E.
  - now apply (wf_lookup df "Amount").
  - apply repeat_length.
Qed.

Lemma normalize_len loaded df :
  wf (start_table loaded) -> normalize loaded = Ok df ->
  len df = len (start_table loaded).
Proof.
  intros Hwf. rewrite normalize_ok. intros [= <-].
  pose proof (wf_add_missing_columns _ Hwf) as Hwf1.
  rewrite !len_set_col; rewrite ?len_set_col.
  - apply len_add_missing_columns.
  - now apply date_column_length.
  - now rewrite length_map, amount_column_length, len_add_missing_columns.
  - now apply date_column_length.
Qed.

Lemma normalize_ledger loaded df :
  wf (start_table loaded) -> normalize loaded = Ok df -> ledger df.
Proof.
  intros Hwf Hn.
  pose proof (normalize_lookup_amount _ _ Hn) as Ha.
  pose proof (normalize_lookup_date _ _ Hn) as Hd.
  pose proof (wf_add_missing_columns _ Hwf) as Hwf1.
  assert (Hcol : forall c, In c ["Category"; "Notes"; "Gender"] ->
                           has_col c df = true).
  { intros c Hc. revert Hn. rewrite normalize_ok. intros [= <-].
    rewrite !has_col_set_col, has_col_add_missing_columns.
    simpl in Hc. destruct Hc as [<-|[<-|[<-|[]]]]; simpl;
      now rewrite ?orb_true_r. }
  constructor.
  - revert Hn. rewrite normalize_ok. intros [= <-].
    apply wf_set_col; [apply wf_set_col|]; trivial.
    + now apply date_column_length.
    + rewrite len_set_col by now apply date_column_length.
      now rewrite length_map, amount_column_length, len_add_missing_columns.
  - apply Hcol. simpl. tauto.
  - apply Hcol. simpl. tauto.
  - apply Hcol. simpl. tauto.
  - eexists. split; [exact Hd | apply date_column_cells].
  - eexists. split; [exact Ha|]. apply Forall_forall. intros c Hc.
    apply in_map_iff in Hc. destruct Hc as (c0 & <- & _).
    apply coerce_amount_is_number.
Qed.

End Ledger.

Lemma concat_row_ledger_eq (df : DataFrame) f :
  ledger df ->
  concat_row df (new_row f)
  = map (fun '(c, s) =>
           (c, s ++ [match lookup c (new_row f) with
                     | Some v => v
                     | None => CNum NaN
                     end])) df.
Proof.
  intros L. unfold concat_row.
  destruct (ledger_date _ L) as (sd & Hd & _).
  destruct (ledger_amount _ L) as (sa & Ha & _).
  simpl. rewrite (lookup_has_col _ _ _ Hd), (lookup_has_col _ _ _ Ha).
  rewrite (ledger_category _ L), (ledger_notes _ L), (ledger_gender _ L).
  simpl. apply app_nil_r.
Qed.

Lemma columns_concat_row_ledger (df : DataFrame) f :
  ledger df -> columns (concat_row df (new_row f)) = columns df.
Proof.
  intros L. rewrite concat_row_ledger_eq by assumption.
  unfold columns. rewrite map_map. apply map_ext. now intros [k v].
Qed.

Lemma len_concat_row_ledger (df : DataFrame) f :
  ledger df -> len (concat_row df (new_row f)) = S (len df).
Proof.
  intros L. rewrite concat_row_ledger_eq by assumption.
  destruct (ledger_date _ L) as (sd & Hd & _).
  destruct df as [|[k v] df]; [discriminate|].
  simpl. rewrite length_app. simpl. lia.
Qed.

Lemma add_transaction_ledger submit (df : DataFrame) :
  ledger df -> ledger (fst (add_transaction submit df)).
Proof.
  intros L. destruct submit as [f|]; [|exact L]. simpl.
  pose proof (columns_concat_row_ledger df f L) as Hc.
  destruct (ledger_date _ L) as (sd & Hd & Hsd).
  destruct (ledger_amount _ L) as (sa & Ha & Hsa).
  constructor.
  - apply (wf_intro _ (S (len df))).
    + rewrite Hc. apply L.
    + rewrite concat_row_ledger_eq by assumption.
      apply Forall_forall. intros [c s] Hin. apply in_map_iff in Hin.
      destruct Hin as ([c' s'] & [= <- <-] & Hin). simpl.
      rewrite length_app. simpl.
      pose proof (proj1 (Forall_forall _ _) (proj2 (ledger_wf _ L)) _ Hin)
        as Hlen.
      simpl in Hlen. lia.
  - unfold has_col. rewrite Hc. apply L.
  - unfold has_col. rewrite Hc. apply L.
  - unfold has_col. rewrite Hc. apply L.
  - eexists. split; [apply (lookup_concat_row _ _ _ _ Hd)|].
    apply Forall_app. split; [exact Hsd | repeat constructor].
  - eexists. split; [apply (lookup_concat_row _ _ _ _ Ha)|].
    apply Forall_app. split; [exact Hsa|]. repeat constructor.
    simpl. eexists. split; reflexivity.
Qed.

Lemma loc_ledger mask (df : DataFrame) : ledger df -> ledger (loc mask df).
Proof.
  intros L.
  destruct (ledger_date _ L) as (sd & Hd & Hsd).
  destruct (ledger_amount _ L) as (sa & Ha & Hsa).
  constructor.
  - apply wf_loc, L.
  - rewrite has_col_loc. apply L.
  - rewrite has_col_loc. apply L.
  - rewrite has_col_loc. apply L.
  - exists (select mask sd). rewrite lookup_loc, Hd. split; [reflexivity|].
    now apply Forall_select.
  - exists (select mask sa). rewrite lookup_loc, Ha. split; [reflexivity|].
    now apply Forall_select.
Qed.

(** ** Rows by position *)

Lemma select_map {A B} (f : A -> B) mask (l : list A) :
  select mask (map f l) = map f (select mask l).
Proof.
  revert l. induction mask as [|b mask IH]; intros [|x l]; simpl; trivial.
  destruct b; simpl; now rewrite IH.
Qed.

Lemma select_nth {A} (d : A) mask (s : list A) :
  List.length mask = List.length s ->
  select mask s = map (fun i => nth i s d) (kept mask).
Proof.
  unfold kept. revert s. induction mask as [|b mask IH]; intros [|x s] E;
    simpl in *; try reflexivity; try discriminate.
  injection E as E. rewrite <- seq_shift, select_map.
  destruct b; simpl; rewrite map_map; simpl; now rewrite <- IH.
Qed.

Lemma select_In {A} mask (l : list A) x : In x (select mask l) -> In x l.
Proof.
  revert l. induction mask as [|b mask IH]; intros [|y l]; simpl;
    try tauto.
  destruct b; simpl; intros Hx; [destruct Hx; eauto | eauto].
Qed.

Lemma kept_lt mask i : In i (kept mask) -> i < List.length mask.
Proof.
  unfold kept. intros Hin. apply select_In, in_seq in Hin. lia.
Qed.

Lemma loc_take mask (df : DataFrame) :
  wf df -> List.length mask = len df -> loc mask df = take (kept mask) df.
Proof.
  intros [_ Hall] Hm. unfold loc, take. apply map_ext_in.
  intros [c s] Hin. unfold take_series. apply f_equal.
  apply select_nth. rewrite Hm. symmetry.
  exact (proj1 (Forall_forall _ _) Hall _ Hin).
Qed.

Lemma len_take idx (df : DataFrame) :
  df <> [] -> len (take idx df) = List.length idx.
Proof.
  destruct df as [|[k v] df]; [congruence|]. intros _. simpl.
  apply length_map.
Qed.

Lemma row_at_take idx (df : DataFrame) j :
  j < List.length idx ->
  row_at j (take idx df) = row_at (nth j idx 0) df.
Proof.
  intros Hj. unfold row_at, take. rewrite map_map. apply map_ext.
  intros [c s]. unfold take_series. apply f_equal.
  rewrite (nth_indep _ _ (nth 0 s (CNum NaN))) by now rewrite length_map.
  apply (map_nth (fun i => nth i s (CNum NaN))).
Qed.

Lemma rows_take idx (df : DataFrame) :
  df <> [] -> rows (take idx df) = map (fun i => row_at i df) idx.
Proof.
  intros Hne. unfold rows. rewrite len_take by assumption.
  apply (nth_ext _ _ [] []).
  - now rewrite !length_map, length_seq.
  - intros j Hj. rewrite length_map, length_seq in Hj.
    rewrite (nth_indep _ _ (row_at 0 (take idx df)))
      by now rewrite length_map, length_seq.
    rewrite (map_nth (fun i => row_at i (take idx df))), seq_nth by assumption.
    rewrite (nth_indep _ _ (row_at 0 df)) by now rewrite length_map.
    rewrite (map_nth (fun i => row_at i df)). simpl.
    now apply row_at_take.
Qed.

Lemma rows_loc mask (df : DataFrame) :
  wf df -> df <> [] -> List.length mask = len df ->
  rows (loc mask df) = select mask (rows df).
Proof.
  intros Hwf Hne Hm. rewrite loc_take, rows_take by assumption.
  unfold rows, kept. now rewrite select_map, Hm.
Qed.

Lemma lookup_row_at i (df : DataFrame) c :
  lookup c (row_at i df)
  = option_map (fun s => nth i s (CNum NaN)) (lookup c df).
Proof.
  induction df as [|[k v] df IH]; simpl; [reflexivity|].
  destruct (String.eqb c k); [reflexivity | exact IH].
Qed.

Lemma ledger_nonempty (df : DataFrame) : ledger df -> df <> [].
Proof. intros L ->. destruct (ledger_date _ L) as (s & Hs & _). discriminate. Qed.

Lemma length_rows (df : DataFrame) : List.length (rows df) = len df.
Proof. unfold rows. now rewrite length_map, length_seq. Qed.

(** ** The filter *)

Lemma nth_map_lt {A B} (f : A -> B) (l : list A) i d d' :
  i < List.length l -> nth i (map f l) d' = f (nth i l d).
Proof.
  intros Hi. rewrite (nth_indep _ _ (f d)) by now rewrite length_map.
  apply map_nth.
Qed.

Lemma length_band a b :
  List.length (band a b) = Nat.min (List.length a) (List.length b).
Proof.
  revert b. induction a as [|x a IH]; intros [|y b]; simpl; auto.
Qed.

Lemma nth_band a b i :
  i < List.length a -> i < List.length b ->
  nth i (band a b) false = nth i a false && nth i b false.
Proof.
  revert b i. induction a as [|x a IH]; intros [|y b] [|i] Ha Hb;
    simpl in *; try lia; try reflexivity.
  apply IH; lia.
Qed.

Lemma date_only_between t a b :
  is_date_only t = true ->
  (to_datetime_date a <= t <= to_datetime_date b)%Z
  <-> (a <= date_of t <= b)%Z.
Proof.
  unfold is_date_only, to_datetime_date, date_of, ns_per_day.
  intros Hm. apply Z.eqb_eq in Hm.
  pose proof (Z.div_mod t 86400000000000 ltac:(lia)) as Ht. lia.
Qed.

(** A Timestamp lies between midnight of the start and midnight of the end
    when its day is the start or later and before the end, or when it is
    midnight of the end itself. *)
Lemma between_midnights t a b :
  (to_datetime_date a <= t <= to_datetime_date b)%Z
  <-> (a <= date_of t)%Z
      /\ ((date_of t < b)%Z \/ t = to_datetime_date b).
Proof.
  unfold to_datetime_date, date_of, ns_per_day.
  pose proof (Z.div_mod t 86400000000000 ltac:(lia)) as Ht.
  pose proof (Z.mod_pos_bound t 86400000000000 ltac:(lia)) as Hm. lia.
Qed.

(** The positions a mask keeps: those where it is true, in ascending
    order. *)
Lemma select_seq_In mask s i :
  In i (select mask (seq s (List.length mask)))
  <-> s <= i < s + List.length mask /\ nth (i - s) mask false = true.
Proof.
  revert s. induction mask as [|b mask IH]; intros s.
  - simpl. split; [contradiction | lia].
  - cbn [List.length seq select].
    assert (Hstep : In i (select mask (seq (S s) (List.length mask)))
                    <-> s < i < S s + List.length mask
                        /\ nth (i - s) (b :: mask) false = true).
    { rewrite IH. split.
      - intros [Hr Hn]. split; [lia|].
        replace (i - s) with (S (i - S s)) by lia. exact Hn.
      - intros [Hr Hn]. split; [lia|].
        replace (i - s) with (S (i - S s)) in Hn by lia. exact Hn. }
    destruct b.
    + cbn [In]. rewrite Hstep. split.
      * intros [<-|[Hr Hn]]; [|split; [lia | exact Hn]].
        split; [lia|]. now rewrite Nat.sub_diag.
      * intros [Hr Hn]. destruct (Nat.eq_dec s i) as [E|E]; [now left|].
        right. split; [lia | exact Hn].
    + rewrite Hstep. split.
      * intros [Hr Hn]. split; [lia | exact Hn].
      * intros [Hr Hn]. destruct (Nat.eq_dec s i) as [E|E].
        -- subst i. rewrite Nat.sub_diag in Hn. discriminate.
        -- split; [lia | exact Hn].
Qed.

Lemma kept_In mask i :
  In i (kept mask) <-> i < List.length mask /\ nth i mask false = true.
Proof.
  unfold kept. rewrite select_seq_In, Nat.sub_0_r. split.
  - intros [Hr Hn]. split; [lia | exact Hn].
  - intros [Hr Hn]. split; [lia | exact Hn].
Qed.

Lemma select_seq_sorted mask s :
  StronglySorted lt (select mask (seq s (List.length mask))).
Proof.
  revert s. induction mask as [|b mask IH]; intros s; [constructor|].
  cbn [List.length seq select]. destruct b; [|apply IH].
  constructor; [apply IH|]. apply Forall_forall. intros i Hi.
  apply select_seq_In in Hi. lia.
Qed.

Lemma kept_sorted mask : StronglySorted lt (kept mask).
Proof. apply select_seq_sorted. Qed.

Section Filter.

Context `{Pandas}.

Lemma nth_filter_keys e s i :
  i < List.length s ->
  nth i (filter_keys e s) "" = label e (nth i s (CNum NaN)).
Proof.
  intros Hi. unfold filter_keys, replace, astype_str. rewrite map_map.
  now rewrite (nth_map_lt _ _ _ (CNum NaN)).
Qed.

Lemma length_filter_keys e s : List.length (filter_keys e s) = List.length s.
Proof. unfold filter_keys, replace, astype_str. now rewrite !length_map. Qed.

Lemma filter_keys_label e s : filter_keys e s = map (label e) s.
Proof.
  unfold filter_keys, replace, astype_str. rewrite map_map. reflexivity.
Qed.

(** The mask of a table that has the three columns. *)
Lemma filter_mask_ok cats genders a b (df : DataFrame) cat gender date :
  lookup "Category" df = Some cat ->
  lookup "Gender" df = Some gender ->
  lookup "Date" df = Some date ->
  filter_mask cats genders a b df
  = Ok (band (band (isin cats (filter_keys "(empty)" cat))
                   (isin genders (filter_keys "Not specified" gender)))
             (between (to_datetime_date a) (to_datetime_date b) date)).
Proof.
  intros Hc Hg Hd. unfold filter_mask, get_col. now rewrite Hc, Hg, Hd.
Qed.

Lemma ledger_columns (df : DataFrame) :
  ledger df ->
  exists cat gender date amount,
    lookup "Category" df = Some cat /\ lookup "Gender" df = Some gender
    /\ lookup "Date" df = Some date /\ lookup "Amount" df = Some amount
    /\ List.length cat = len df /\ List.length gender = len df
    /\ List.length date = len df /\ List.length amount = len df
    /\ Forall datetime_cell date /\ Forall is_number amount.
Proof.
  intros L.
  destruct (has_col_lookup (ledger_category _ L)) as (cat & Hc).
  destruct (has_col_lookup (ledger_gender _ L)) as (gender & Hg).
  destruct (ledger_date _ L) as (date & Hd & Hdc).
  destruct (ledger_amount _ L) as (amount & Ha & Hac).
  exists cat, gender, date, amount.
  pose proof (ledger_wf _ L) as Hwf.
  repeat split; trivial; eapply wf_lookup; eassumption.
Qed.

Lemma mask_at cats genders a b cat gender date i n :
  List.length cat = n -> List.length gender = n -> List.length date = n ->
  i < n ->
  nth i (band (band (isin cats (filter_keys "(empty)" cat))
                    (isin genders (filter_keys "Not specified" gender)))
              (between (to_datetime_date a) (to_datetime_date b) date)) false
  = existsb (String.eqb (label "(empty)" (nth i cat (CNum NaN)))) cats
    && existsb (String.eqb (label "Not specified" (nth i gender (CNum NaN))))
         genders
    && match nth i date (CNum NaN) with
       | CTime t => ((to_datetime_date a <=? t) && (t <=? to_datetime_date b))%Z
       | _ => false
       end.
Proof.
  intros Hc Hg Hd Hi.
  rewrite !nth_band;
    rewrite ?length_band; unfold isin, between;
    rewrite ?length_map, ?length_filter_keys; try lia.
  rewrite !(nth_map_lt _ _ _ "") by (rewrite length_filter_keys; lia).
  rewrite !nth_filter_keys by lia.
  now rewrite (nth_map_lt _ _ _ (CNum NaN)) by lia.
Qed.

Lemma existsb_eqb_In x l : existsb (String.eqb x) l = true <-> In x l.
Proof.
  rewrite existsb_exists. split.
  - intros (y & Hy & E). apply String.eqb_eq in E. now subst.
  - intros Hx. exists x. split; [assumption | apply String.eqb_refl].
Qed.

(** The test by Timestamps and the test by days. *)
Lemma passes_days cats genders a b r :
  passes cats genders a b r -> passes_by_day cats genders a b r.
Proof.
  intros (Hc & Hg & t & Ht & Hr). split; [exact Hc|]. split; [exact Hg|].
  exists t. split; [exact Ht|]. apply between_midnights in Hr.
  unfold to_datetime_date, date_of, ns_per_day in *.
  pose proof (Z.div_mod t 86400000000000 ltac:(lia)) as Hdm.
  pose proof (Z.mod_pos_bound t 86400000000000 ltac:(lia)) as Hm. lia.
Qed.

Lemma days_passes cats genders a b r t :
  passes_by_day cats genders a b r ->
  lookup "Date" r = Some (CTime t) ->
  is_date_only t = true \/ (date_of t < b)%Z ->
  passes cats genders a b r.
Proof.
  intros (Hc & Hg & t' & Ht' & Hr) Ht Hside.
  rewrite Ht in Ht'. injection Ht' as <-.
  split; [exact Hc|]. split; [exact Hg|]. exists t. split; [exact Ht|].
  destruct Hside as [Hd|Hlt].
  - now apply date_only_between.
  - apply between_midnights. split; [lia | now left].
Qed.

(** C5, as the code has it.  On a ledger the filter keeps, in their order,
    records that pass its three tests, and no other: every
    record it keeps has its category label (empty replaced by "(empty)")
    among the selected categories, its gender label (empty replaced by
    "Not specified") among the selected genders, and a date whose day lies
    between the start and the end of the range, both included; a record
    without date is never kept.  A record that has the three is kept when
    its date carries no time of day, or when its day is before the end of
    the range.  The test behind this compares the date as a Timestamp with
    midnight of the start and midnight of the end, both included. *)
Theorem filter_keeps_what_passes cats genders start_date end_date
    (df : DataFrame) :
  ledger df ->
  exists mask dff keep,
    filter_mask cats genders start_date end_date df = Ok mask
    /\ apply_filters cats genders start_date end_date df = Ok dff
    /\ List.length mask = len df
    /\ rows dff = map (fun i => row_at i df) keep
    /\ StronglySorted lt keep
    /\ (forall i, In i keep -> i < len df)
    /\ (forall i, In i keep ->
          passes_by_day cats genders start_date end_date (row_at i df))
    /\ (forall i t, i < len df ->
          passes_by_day cats genders start_date end_date (row_at i df) ->
          lookup "Date" (row_at i df) = Some (CTime t) ->
          is_date_only t = true \/ (date_of t < end_date)%Z ->
          In i keep)
    /\ (forall i,
          In i keep
          <-> i < len df
              /\ passes cats genders start_date end_date (row_at i df))
    /\ (forall i, i < len df ->
          (nth i mask false = true
           <-> passes cats genders start_date end_date (row_at i df)))
    /\ (forall i, i < len df ->
          lookup "Date" (row_at i df) = Some CNaT ->
          nth i mask false = false /\ ~ In i keep)
    /\ (forall t,
          (to_datetime_date start_date <= t <= to_datetime_date end_date)%Z
          <-> (start_date <= date_of t)%Z
              /\ ((date_of t < end_date)%Z
                  \/ t = to_datetime_date end_date))
    /\ (forall t, is_date_only t = true ->
          ((to_datetime_date start_date <= t <= to_datetime_date end_date)%Z
           <-> (start_date <= date_of t <= end_date)%Z)).
Proof.
  intros L.
  destruct (ledger_columns df L)
    as (cat & gender & date & amount & Hc & Hg & Hd & _ & Lc & Lg & Ld & _).
  pose proof (filter_mask_ok cats genders start_date end_date df _ _ _ Hc Hg Hd)
    as Hm.
  match type of Hm with _ = Ok ?m => set (mask := m) in * end.
  assert (Hlen : List.length mask = len df).
  { unfold mask. rewrite !length_band. unfold isin, between.
    rewrite !length_map, !length_filter_keys. lia. }
  assert (Hpass : forall i, i < len df ->
            (nth i mask false = true
             <-> passes cats genders start_date end_date (row_at i df))).
  { intros i Hi. unfold mask.
    rewrite (mask_at _ _ _ _ _ _ _ i (len df)) by assumption.
    unfold passes. rewrite !lookup_row_at, Hc, Hg, Hd. simpl.
    rewrite !andb_true_iff, !existsb_eqb_In. split.
    + intros [[H1 H2] H3]. repeat split; eauto.
      destruct (nth i date (CNum NaN)); try discriminate.
      exists t. apply andb_true_iff in H3. destruct H3 as [Ha Hb].
      apply Z.leb_le in Ha, Hb. auto.
    + intros ((c & [= <-] & H1) & (g & [= <-] & H2) & (t & [= E] & Ha & Hb)).
      rewrite E. repeat split; trivial.
      apply andb_true_iff. split; now apply Z.leb_le. }
  assert (Hnat : forall i, i < len df ->
            lookup "Date" (row_at i df) = Some CNaT ->
            nth i mask false = false).
  { intros i Hi. rewrite lookup_row_at, Hd. simpl. intros [= E].
    unfold mask. rewrite (mask_at _ _ _ _ _ _ _ i (len df)) by assumption.
    rewrite E. apply andb_false_r. }
  assert (Hkeep : forall i,
            In i (kept mask)
            <-> i < len df
                /\ passes cats genders start_date end_date (row_at i df)).
  { intros i. rewrite kept_In, Hlen. split.
    + intros [Hi Hn]. split; [exact Hi | now apply Hpass].
    + intros [Hi Hp]. split; [exact Hi | now apply Hpass]. }
  exists mask, (loc mask df), (kept mask). split; [exact Hm|].
  split; [unfold apply_filters; rewrite Hm; reflexivity|].
  split; [exact Hlen|].
  split; [rewrite loc_take by first [apply L | exact Hlen];
          apply rows_take; now apply ledger_nonempty|].
  split; [apply kept_sorted|].
  split; [intros i Hi; now apply Hkeep in Hi|].
  split; [intros i Hi; apply Hkeep in Hi; now apply passes_days|].
  split; [intros i t Hi Hp Ht Hside; apply Hkeep; split;
          [exact Hi | exact (days_passes _ _ _ _ _ t Hp Ht Hside)]|].
  split; [exact Hkeep|].
  split; [exact Hpass|split; [|split]].
  - intros i Hi Hna. pose proof (Hnat i Hi Hna) as Hf.
    split; [exact Hf|]. rewrite kept_In, Hf. intros [_ E]. discriminate.
  - intros t. apply between_midnights.
  - intros t Ht. now apply date_only_between.
Qed.

End Filter.

(** ** The default filter *)

Lemma insert_sorted_In x y l : In x (insert_sorted y l) <-> x = y \/ In x l.
Proof.
  induction l as [|z l IH]; simpl; [intuition|].
  destruct (String.leb y z); simpl; [intuition|].
  rewrite IH. intuition.
Qed.

Lemma sorted_In x l : In x (sorted l) <-> In x l.
Proof.
  induction l as [|y l IH]; simpl; [tauto|].
  rewrite insert_sorted_In, IH. intuition.
Qed.

Lemma unique_In x l : In x (unique l) <-> In x l.
Proof.
  induction l as [|y l IH]; simpl; [tauto|].
  rewrite filter_In, IH. split.
  - intuition.
  - intros [->|Hx]; [now left|].
    destruct (String.eqb x y) eqn:E.
    + apply String.eqb_eq in E. now left.
    + right. now split.
Qed.

Lemma select_filter {A} (p : A -> bool) l : select (map p l) l = filter p l.
Proof.
  induction l as [|x l IH]; simpl; [reflexivity|].
  destruct (p x); now rewrite IH.
Qed.

Lemma map_by_position {A B} (f : A -> B) (l : list A) d :
  map f l = map (fun i => f (nth i l d)) (seq 0 (List.length l)).
Proof.
  induction l as [|x l IH]; simpl; [reflexivity|].
  f_equal. rewrite <- seq_shift, map_map. exact IH.
Qed.

Lemma fold_min_le ts t x :
  In x (t :: ts) -> (fold_left Z.min ts t <= x)%Z.
Proof.
  revert t. induction ts as [|u ts IH]; intros t Hx; simpl in *.
  - destruct Hx as [->|[]]. lia.
  - assert (G : forall a, (fold_left Z.min ts a <= a)%Z).
    { clear. induction ts as [|v ts IH]; intros a; simpl; [lia|].
      specialize (IH (Z.min a v)). lia. }
    destruct Hx as [->|[->|Hx]].
    + specialize (G (Z.min x u)). lia.
    + specialize (G (Z.min t x)). lia.
    + apply IH. now right.
Qed.

Lemma fold_max_ge ts t x :
  In x (t :: ts) -> (x <= fold_left Z.max ts t)%Z.
Proof.
  revert t. induction ts as [|u ts IH]; intros t Hx; simpl in *.
  - destruct Hx as [->|[]]. lia.
  - assert (G : forall a, (a <= fold_left Z.max ts a)%Z).
    { clear. induction ts as [|v ts IH]; intros a; simpl; [lia|].
      specialize (IH (Z.max a v)). lia. }
    destruct Hx as [->|[->|Hx]].
    + specialize (G (Z.max x u)). lia.
    + specialize (G (Z.max t x)). lia.
    + apply IH. now right.
Qed.

Lemma midnight_le t : (to_datetime_date (date_of t) <= t)%Z.
Proof.
  unfold to_datetime_date, date_of, ns_per_day.
  pose proof (Z.mul_div_le t 86400000000000). lia.
Qed.

Lemma date_only_le_midnight t u :
  is_date_only t = true -> (t <= u)%Z ->
  (t <= to_datetime_date (date_of u))%Z.
Proof.
  unfold is_date_only, to_datetime_date, date_of, ns_per_day.
  intros Hm Hle. apply Z.eqb_eq in Hm.
  pose proof (Z.div_mod t 86400000000000 ltac:(lia)) as Ht.
  pose proof (Z.div_le_mono t u 86400000000000 ltac:(lia) Hle). lia.
Qed.

Lemma timestamps_In s i t :
  nth i s (CNum NaN) = CTime t -> i < List.length s -> In t (timestamps s).
Proof.
  intros Hn Hi. unfold timestamps. apply in_flat_map.
  exists (CTime t). split; [|now left].
  rewrite <- Hn. now apply nth_In.
Qed.

Lemma dropna_datetime s :
  Forall datetime_cell s -> dropna s = [] -> timestamps s = [].
Proof.
  induction 1 as [|c s Hc Hs IH]; simpl; [reflexivity|].
  destruct c; simpl in *; try contradiction; try discriminate. exact IH.
Qed.

Lemma timestamps_dropna s :
  Forall datetime_cell s -> timestamps s = [] -> dropna s = [].
Proof.
  induction 1 as [|c s Hc Hs IH]; simpl; [reflexivity|].
  destruct c; simpl in *; try contradiction; try discriminate. exact IH.
Qed.

Lemma length_select_has_date s :
  List.length (select (map has_date s) s) = List.length (timestamps s).
Proof.
  induction s as [|c s IH]; simpl; [reflexivity|].
  destruct c; simpl; now rewrite IH.
Qed.

Lemma timestamps_all s :
  Forall datetime_cell s -> Forall (fun c => c <> CNaT) s ->
  List.length (timestamps s) = List.length s.
Proof.
  induction 1 as [|c s Hc Hs IH]; intros Hn; simpl; [reflexivity|].
  inversion Hn as [|? ? Hc' Hn']; subst.
  destruct c; simpl in *; try contradiction; try congruence.
  now rewrite IH.
Qed.


Section DefaultFilter.

Context `{Pandas}.

Lemma default_options_ok today (df : DataFrame) cat gender date :
  lookup "Category" df = Some cat ->
  lookup "Gender" df = Some gender ->
  lookup "Date" df = Some date ->
  Forall datetime_cell date ->
  default_options today df
  = Ok (sorted (unique (filter_keys "(empty)" cat)),
        sorted (unique (filter_keys "Not specified" gender)),
        default_range today date).
Proof.
  intros Hc Hg Hd Hdc. unfold default_options, get_col.
  rewrite Hc, Hg, Hd. cbn [bind]. unfold default_range.
  destruct (dropna date) as [|c0 rest] eqn:E.
  - rewrite (dropna_datetime _ Hdc E). reflexivity.
  - destruct (timestamps date) as [|t ts] eqn:Et.
    + rewrite (timestamps_dropna _ Hdc Et) in E. discriminate.
    + unfold series_min_ts, series_max_ts. rewrite Et. reflexivity.
Qed.

Lemma default_labels_selected e s i :
  i < List.length s ->
  existsb (String.eqb (label e (nth i s (CNum NaN))))
    (sorted (unique (filter_keys e s))) = true.
Proof.
  intros Hi. apply existsb_eqb_In, sorted_In, unique_In.
  rewrite <- nth_filter_keys by assumption.
  apply nth_In. now rewrite length_filter_keys.
Qed.

Lemma default_range_covers today date i t :
  i < List.length date ->
  nth i date (CNum NaN) = CTime t ->
  is_date_only t = true ->
  ((to_datetime_date (fst (default_range today date)) <=? t)
   && (t <=? to_datetime_date (snd (default_range today date))))%Z = true.
Proof.
  intros Hi Hn Ho. pose proof (timestamps_In _ _ _ Hn Hi) as Hin.
  unfold default_range. destruct (timestamps date) as [|u us]; [contradiction|].
  simpl. apply andb_true_iff. split; apply Z.leb_le.
  - pose proof (fold_min_le us u t Hin).
    pose proof (midnight_le (fold_left Z.min us u)). lia.
  - apply date_only_le_midnight; [assumption|]. now apply fold_max_ge.
Qed.

(** C3, as the code has it.  On a ledger whose dates carry no time of day,
    the default filter spec (every category label, every gender label, the
    days of the earliest and the latest date, or today when there is no
    date) keeps exactly the records that have a date, in their order: the
    row count is the number of dated records, and it is the row count of the
    ledger when no record lacks its date. *)
Theorem default_filter_keeps_dated today (df : DataFrame) (date : Series) :
  ledger df ->
  lookup "Date" df = Some date ->
  Forall no_time_of_day date ->
  exists cats genders lo hi dff,
    default_options today df = Ok (cats, genders, (lo, hi))
    /\ apply_filters cats genders lo hi df = Ok dff
    /\ rows dff = filter dated (rows df)
    /\ len dff = List.length (timestamps date)
    /\ (Forall (fun c => c <> CNaT) date -> len dff = len df).
Proof.
  intros L Hd Hnt.
  destruct (ledger_columns df L)
    as (cat & gender & date' & amount & Hc & Hg & Hd' & _ & Lc & Lg & Ld & _
        & Hdc & _).
  rewrite Hd in Hd'. injection Hd' as <-.
  pose proof (default_options_ok today df _ _ _ Hc Hg Hd Hdc) as Ho.
  destruct (default_range today date) as [lo hi] eqn:Er.
  eexists. eexists. exists lo, hi. eexists. split; [exact Ho|].
  unfold apply_filters.
  rewrite (filter_mask_ok _ _ lo hi df _ _ _ Hc Hg Hd). cbn [bind].
  split; [reflexivity|].
  match goal with |- context [loc ?m df] => set (mask := m) end.
  assert (Hmask : mask = map has_date date).
  { apply (nth_ext _ _ false false).
    - unfold mask. rewrite !length_band. unfold isin, between.
      rewrite !length_map, !length_filter_keys. lia.
    - intros i Hi.
      assert (Hi' : i < len df).
      { unfold mask in Hi. rewrite !length_band in Hi. unfold isin in Hi.
        rewrite !length_map, !length_filter_keys in Hi. lia. }
      unfold mask. rewrite (mask_at _ _ _ _ _ _ _ i (len df)) by assumption.
      rewrite !default_labels_selected by lia. simpl.
      rewrite (nth_map_lt _ _ _ (CNum NaN)) by lia.
      destruct (nth i date (CNum NaN)) eqn:En; try reflexivity.
      pose proof (default_range_covers today date i t ltac:(lia) En) as Hcov.
      rewrite Er in Hcov. apply Hcov.
      assert (Hin : In (CTime t) date)
        by (rewrite <- En; apply nth_In; lia).
      exact (proj1 (Forall_forall _ _) Hnt _ Hin). }
  assert (Hlen : List.length mask = len df)
    by (rewrite Hmask, length_map; exact Ld).
  split; [|split].
  - rewrite rows_loc by first [apply L | now apply ledger_nonempty | exact Hlen].
    rewrite <- select_filter. f_equal. rewrite Hmask.
    unfold rows. rewrite map_map, (map_by_position has_date date (CNum NaN)).
    rewrite Ld. apply map_ext. intros i.
    unfold dated. rewrite lookup_row_at, Hd. reflexivity.
  - rewrite (len_loc mask df "Date" date (ledger_wf _ L) Hd), Hmask.
    apply length_select_has_date.
  - intros Hall.
    rewrite (len_loc mask df "Date" date (ledger_wf _ L) Hd), Hmask.
    rewrite length_select_has_date, <- Ld. now apply timestamps_all.
Qed.

End DefaultFilter.

(** ** The steps after the filter *)

Lemma set_col_id c s (df : DataFrame) :
  lookup c df = Some s -> set_col c s df = df.
Proof.
  induction df as [|[k v] df IH]; simpl; [discriminate|].
  destruct (String.eqb c k) eqn:E.
  - apply String.eqb_eq in E. subst k. now intros [= ->].
  - intros Hl. now rewrite IH.
Qed.

Lemma series_values_numbers s :
  Forall is_number s ->
  exists xs, series_values s = Ok xs /\ s = map CNum xs
             /\ Forall (fun x => isnan x = false) xs.
Proof.
  induction 1 as [|c s (x & -> & Hx) Hs (xs & Hv & -> & Hxs)].
  - exists []. repeat split; constructor.
  - exists (x :: xs). simpl. rewrite Hv. repeat split. now constructor.
Qed.

Lemma map_result_ok {A B} (f : A -> result B) (g : A -> B) (P : A -> Prop) l :
  (forall x, P x -> f x = Ok (g x)) -> Forall P l ->
  map_result f l = Ok (map g l).
Proof.
  intros Hfg. induction 1 as [|x l Hx Hl IH]; simpl; [reflexivity|].
  now rewrite (Hfg x Hx), IH.
Qed.

Lemma project_ok cs (df : DataFrame) :
  (forall c, In c cs -> has_col c df = true) ->
  exists t, project cs df = Ok t /\ columns t = cs
            /\ (forall c, In c cs -> lookup c t = lookup c df).
Proof.
  induction cs as [|c cs IH]; intros Hall.
  - exists []. repeat split. intros c [].
  - destruct IH as (t & Ht & Hc & Hl); [intros; apply Hall; now right|].
    destruct (has_col_lookup (Hall c (or_introl eq_refl))) as (s & Hs).
    exists ((c, s) :: t). simpl. unfold get_col. rewrite Hs. simpl.
    rewrite Ht. simpl. split; [reflexivity|]. split; [now rewrite Hc|].
    intros c' [<-|Hin].
    + now rewrite String.eqb_refl.
    + destruct (String.eqb c' c) eqn:E; [|now apply Hl].
      apply String.eqb_eq in E. now subst.
Qed.


Section Steps.

Context `{Pandas}.

Lemma to_datetime_id s : Forall datetime_cell s -> to_datetime s = s.
Proof.
  intros Hs. unfold to_datetime.
  transitivity (map snd (combine (seq 0 (List.length s)) s)).
  - apply map_ext_in. intros [i c] Hin. apply in_combine_r in Hin.
    pose proof (proj1 (Forall_forall _ _) Hs _ Hin) as Hc.
    destruct c; simpl in *; try contradiction; reflexivity.
  - generalize 0. induction s as [|c s IH]; intros k; simpl; [reflexivity|].
    f_equal. inversion Hs; subst. now apply IH.
Qed.

Lemma ensure_datetime_col_ledger (dff : DataFrame) :
  ledger dff -> ensure_datetime_col dff "Date" = Ok dff.
Proof.
  intros L. rewrite ensure_datetime_col_ok. f_equal.
  destruct (ledger_date _ L) as (s & Hs & Hc).
  unfold date_column. rewrite Hs, (to_datetime_id _ Hc).
  now apply set_col_id.
Qed.

Lemma add_month_ok (dff : DataFrame) :
  ledger dff ->
  exists months,
    add_month dff = Ok (set_col "Month" months dff)
    /\ List.length months = len dff.
Proof.
  intros L. destruct (ledger_date _ L) as (s & Hs & Hc).
  pose proof (wf_lookup _ _ _ (ledger_wf _ L) Hs) as Hlen.
  unfold add_month, get_col. rewrite Hs. cbn [bind].
  destruct (negb (df_empty dff)); cbn [bind]; [destruct (any (notna s))|].
  - exists (map month_label s).
    rewrite (map_result_ok month_of_cell month_label datetime_cell s); trivial.
    + split; [reflexivity | now rewrite length_map].
    + intros [] Hx; simpl in *; try contradiction; reflexivity.
  - exists (repeat (CStr "") (len dff)). split; [reflexivity|].
    apply repeat_length.
  - exists (repeat (CStr "") (len dff)). split; [reflexivity|].
    apply repeat_length.
Qed.

End Steps.

(** ** The order on numbers *)

Lemma fle_total x y :
  isnan x = false -> isnan y = false -> fle x y = true \/ fle y x = true.
Proof.
  destruct x as [a| | |], y as [b| | |]; simpl; intros; try discriminate; auto.
  destruct (Qlt_le_dec b a) as [Hlt|Hle].
  - right. apply Qle_bool_iff. now apply Qlt_le_weak.
  - left. now apply Qle_bool_iff.
Qed.

Lemma fle_trans x y z : fle x y = true -> fle y z = true -> fle x z = true.
Proof.
  destruct x as [a| | |], y as [b| | |], z as [c| | |]; simpl;
    intros; try discriminate; try reflexivity.
  apply Qle_bool_iff. eapply Qle_trans; apply Qle_bool_iff; eassumption.
Qed.


Lemma not_flt_fle x y :
  isnan x = false -> isnan y = false -> flt x y = false -> fle y x = true.
Proof.
  intros Hx Hy. unfold flt. destruct (fle_total x y Hx Hy) as [E|E]; rewrite E.
  - simpl. now destruct (fle y x).
  - trivial.
Qed.

Lemma pair_before_fle p q : pair_before p q -> fle (snd q) (snd p) = true.
Proof.
  unfold pair_before, flt. intros [E|(_ & E & _)]; [|exact E].
  now apply andb_true_iff in E.
Qed.

Lemma fle_pair_before p q :
  fst p < fst q -> fle (snd q) (snd p) = true -> pair_before p q.
Proof.
  intros Hlt Hle. unfold pair_before, flt. rewrite Hle.
  destruct (fle (snd p) (snd q)); simpl; auto.
Qed.

(** ** Sorting for [nlargest] *)

Lemma insert_desc_perm x l : Permutation (insert_desc x l) (x :: l).
Proof.
  induction l as [|y l IH]; simpl; [reflexivity|].
  destruct (flt (snd x) (snd y)); [|reflexivity].
  rewrite IH. apply perm_swap.
Qed.

Lemma sort_desc_perm l : Permutation (sort_desc l) l.
Proof.
  induction l as [|x l IH]; simpl; [reflexivity|].
  rewrite insert_desc_perm. now constructor.
Qed.

Lemma insert_desc_sorted x l :
  isnan (snd x) = false ->
  Forall (fun p => isnan (snd p) = false) l ->
  Forall (fun p => fst x < fst p) l ->
  StronglySorted pair_before l ->
  StronglySorted pair_before (insert_desc x l).
Proof.
  intros Hx Hnan Hpos Hs.
  induction Hs as [|y l Hs IH Hy]; simpl; [repeat constructor|].
  inversion Hnan as [|? ? Hny Hnl]; subst.
  inversion Hpos as [|? ? Hpy Hpl]; subst.
  destruct (flt (snd x) (snd y)) eqn:E.
  - constructor; [now apply IH|].
    eapply Permutation_Forall; [symmetry; apply insert_desc_perm|].
    constructor; [now left | exact Hy].
  - pose proof (not_flt_fle _ _ Hx Hny E) as Hyx.
    constructor; [now constructor|].
    constructor; [now apply fle_pair_before|].
    apply Forall_forall. intros z Hz.
    apply fle_pair_before.
    + exact (proj1 (Forall_forall _ _) Hpl z Hz).
    + apply (fle_trans _ (snd y)); [|exact Hyx].
      apply pair_before_fle. exact (proj1 (Forall_forall _ _) Hy z Hz).
Qed.

Lemma sort_desc_sorted l :
  Forall (fun p => isnan (snd p) = false) l ->
  StronglySorted (fun p q => fst p < fst q) l ->
  StronglySorted pair_before (sort_desc l).
Proof.
  intros Hnan Hs. induction Hs as [|x l Hs IH Hx]; simpl; [constructor|].
  inversion Hnan as [|? ? Hnx Hnl]; subst.
  apply insert_desc_sorted; trivial.
  - eapply Permutation_Forall; [symmetry; apply sort_desc_perm | exact Hnl].
  - eapply Permutation_Forall; [symmetry; apply sort_desc_perm | exact Hx].
  - now apply IH.
Qed.

Lemma combine_seq_sorted {A} (xs : list A) k :
  StronglySorted (fun p q => fst p < fst q)
    (combine (seq k (List.length xs)) xs).
Proof.
  revert k. induction xs as [|x xs IH]; intros k; simpl; constructor.
  - apply IH.
  - apply Forall_forall. intros [i y] Hin. apply in_combine_l in Hin.
    apply in_seq in Hin. simpl. lia.
Qed.

Lemma combine_seq_fst {A} (xs : list A) k :
  map fst (combine (seq k (List.length xs)) xs) = seq k (List.length xs).
Proof.
  revert k. induction xs as [|x xs IH]; intros k; simpl; [reflexivity|].
  now rewrite IH.
Qed.

Lemma combine_seq_nth {A} (xs : list A) d p :
  In p (combine (seq 0 (List.length xs)) xs) ->
  fst p < List.length xs /\ snd p = nth (fst p) xs d.
Proof.
  intros Hin. destruct (In_nth _ _ (0, d) Hin) as (n & Hn & E).
  rewrite length_combine, length_seq, Nat.min_id in Hn.
  rewrite combine_nth in E by now rewrite length_seq.
  rewrite seq_nth in E by assumption. subst p. simpl. auto.
Qed.

Lemma StronglySorted_map {A B} (R : A -> A -> Prop) (S : B -> B -> Prop)
    (f : A -> B) l :
  (forall x y, In x l -> In y l -> R x y -> S (f x) (f y)) ->
  StronglySorted R l -> StronglySorted S (map f l).
Proof.
  intros Hrs Hs. induction Hs as [|x l Hs IH Hx]; simpl; constructor.
  - apply IH. intros a b Ha Hb. apply Hrs; now right.
  - apply Forall_forall. intros y Hy. apply in_map_iff in Hy.
    destruct Hy as (z & <- & Hz). apply Hrs; [now left | now right|].
    exact (proj1 (Forall_forall _ _) Hx z Hz).
Qed.

Lemma StronglySorted_split {A} (R : A -> A -> Prop) l n x y :
  StronglySorted R l -> In x (firstn n l) -> In y (skipn n l) -> R x y.
Proof.
  intros Hs. revert n. induction Hs as [|z l Hs IH Hz]; intros [|n] Hx Hy;
    simpl in *; try contradiction.
  destruct Hx as [->|Hx]; [|now apply (IH n)].
  apply (proj1 (Forall_forall _ _) Hz).
  rewrite <- (firstn_skipn n l). apply in_or_app. now right.
Qed.

(** ** The five largest *)

Lemma filter_all {A} (p : A -> bool) l :
  Forall (fun x => p x = true) l -> filter p l = l.
Proof.
  induction 1 as [|x l Hx Hl IH]; simpl; [reflexivity|]. now rewrite Hx, IH.
Qed.

Lemma filter_none {A} (p : A -> bool) l :
  Forall (fun x => p x = false) l -> filter p l = [].
Proof.
  induction 1 as [|x l Hx Hl IH]; simpl; [reflexivity|]. now rewrite Hx.
Qed.

Lemma indexed_numbers xs :
  Forall (fun x => isnan x = false) xs ->
  Forall (fun p : nat * float64 => isnan (snd p) = false)
    (combine (seq 0 (List.length xs)) xs).
Proof.
  intros Hxs. apply Forall_forall. intros [i x] Hin.
  apply in_combine_r in Hin. exact (proj1 (Forall_forall _ _) Hxs x Hin).
Qed.

Lemma nlargest_idx_numbers n xs :
  Forall (fun x => isnan x = false) xs ->
  nlargest_idx n xs = firstn n (ranking xs).
Proof.
  intros Hxs. unfold nlargest_idx, ranking.
  pose proof (indexed_numbers xs Hxs) as Hix.
  rewrite filter_all, filter_none, app_nil_r; trivial.
  eapply Forall_impl; [|exact Hix]. intros p Hp. simpl. now rewrite Hp.
Qed.

Lemma ranking_perm xs : Permutation (ranking xs) (seq 0 (List.length xs)).
Proof.
  unfold ranking. rewrite <- (combine_seq_fst xs 0) at 2.
  apply Permutation_map, sort_desc_perm.
Qed.

Lemma ranking_lt xs i : In i (ranking xs) -> i < List.length xs.
Proof.
  intros Hin. apply (Permutation_in _ (ranking_perm xs)), in_seq in Hin. lia.
Qed.

Lemma ranking_sorted xs :
  Forall (fun x => isnan x = false) xs ->
  StronglySorted (ranks_before xs) (ranking xs).
Proof.
  intros Hxs. unfold ranking.
  apply (StronglySorted_map pair_before).
  - intros p q Hp Hq Hpq.
    apply (Permutation_in _ (sort_desc_perm _)) in Hp, Hq.
    destruct (combine_seq_nth xs NaN p Hp) as [_ Ep].
    destruct (combine_seq_nth xs NaN q Hq) as [_ Eq].
    unfold ranks_before. cbv zeta. rewrite <- Ep, <- Eq. exact Hpq.
  - apply sort_desc_sorted; [now apply indexed_numbers|].
    apply combine_seq_sorted.
Qed.

Lemma series_values_map xs : series_values (map CNum xs) = Ok xs.
Proof. induction xs as [|x xs IH]; simpl; [reflexivity|]. now rewrite IH. Qed.

Lemma project_take idx cs (df t : DataFrame) :
  project cs df = Ok t -> project cs (take idx df) = Ok (take idx t).
Proof.
  revert t. induction cs as [|c cs IH]; intros t; simpl.
  - now intros [= <-].
  - unfold get_col. rewrite lookup_take.
    destruct (lookup c df) as [s|]; simpl; [|discriminate].
    destruct (project cs df) as [t'|]; simpl; [|discriminate].
    intros [= <-]. now rewrite (IH t' eq_refl).
Qed.

Lemma df_empty_len (df : DataFrame) :
  df <> [] -> df_empty df = (len df =? 0)%nat.
Proof. destruct df; [congruence | reflexivity]. Qed.

Lemma ledger_required (df : DataFrame) c :
  ledger df -> In c REQUIRED -> has_col c df = true.
Proof.
  intros L Hc.
  destruct (ledger_date _ L) as (sd & Hd & _).
  destruct (ledger_amount _ L) as (sa & Ha & _).
  simpl in Hc. destruct Hc as [<-|[<-|[<-|[<-|[<-|[]]]]]].
  - eapply lookup_has_col; eassumption.
  - apply L.
  - eapply lookup_has_col; eassumption.
  - apply L.
  - apply L.
Qed.

Lemma ledger_amount_values (df : DataFrame) :
  ledger df ->
  exists xs, lookup "Amount" df = Some (map CNum xs)
             /\ Forall (fun x => isnan x = false) xs
             /\ List.length xs = len df.
Proof.
  intros L. destruct (ledger_amount _ L) as (sa & Ha & Hn).
  destruct (series_values_numbers sa Hn) as (xs & _ & -> & Hxs).
  exists xs. repeat split; trivial.
  rewrite <- (wf_lookup _ _ _ (ledger_wf _ L) Ha). now rewrite length_map.
Qed.

Lemma top5_table_empty (dff : DataFrame) :
  df_empty dff = true -> top5_table dff = Ok None.
Proof. intros E. unfold top5_table. now rewrite E. Qed.

(** The table of the five largest, for a table with at least one row. *)
Lemma top5_is_the_five_largest_parts (dff : DataFrame) :
  ledger dff ->
  df_empty dff = false ->
  exists xs t,
    lookup "Amount" dff = Some (map CNum xs)
    /\ Forall (fun x => isnan x = false) xs
    /\ List.length xs = len dff
    /\ project REQUIRED dff = Ok t
    /\ top5_table dff = Ok (Some (take (firstn 5 (ranking xs)) t)).
Proof.
  intros L Hne.
  destruct (ledger_amount_values dff L) as (xs & Ha & Hxs & Hlen).
  destruct (project_ok REQUIRED dff (fun c => ledger_required dff c L))
    as (t & Ht & Hct & Hlt).
  exists xs, t. repeat split; trivial.
  unfold top5_table, nlargest, get_col. rewrite Hne, Ha. cbn [negb bind].
  rewrite series_values_map. cbn [bind].
  rewrite (nlargest_idx_numbers 5 xs Hxs).
  now rewrite (project_take _ _ _ _ Ht).
Qed.

(** C7. The table of the five largest of a filtered table holds the records
    at the first five positions of the ranking of the amounts, where a
    position ranks before another when its amount is larger, or equal and
    the position earlier: every record shown ranks before every record left
    out.  With five rows or fewer, the records shown are all the records of
    the filtered table; with no row at all, no table is drawn. *)
Theorem top5_is_the_five_largest (dff : DataFrame) :
  ledger dff ->
  exists xs t,
    lookup "Amount" dff = Some (map CNum xs)
    /\ project REQUIRED dff = Ok t
    /\ Permutation (ranking xs) (seq 0 (len dff))
    /\ StronglySorted (ranks_before xs) (ranking xs)
    /\ (forall i j, In i (firstn 5 (ranking xs)) -> j < len dff ->
                    ~ In j (firstn 5 (ranking xs)) -> ranks_before xs i j)
    /\ (df_empty dff = true -> top5_table dff = Ok None /\ rows t = [])
    /\ (df_empty dff = false ->
        exists top5,
          top5_table dff = Ok (Some top5)
          /\ rows top5 = map (fun i => row_at i t) (firstn 5 (ranking xs))
          /\ List.length (rows top5) = Nat.min 5 (len dff)
          /\ (len dff <= 5 -> Permutation (rows top5) (rows t))).
Proof.
  intros L.
  destruct (ledger_amount_values dff L) as (xs & Ha & Hxs & Hlen).
  destruct (project_ok REQUIRED dff (fun c => ledger_required dff c L))
    as (t & Ht & Hct & Hlt).
  assert (Htne : t <> []) by (intros ->; discriminate).
  assert (Hlent : len t = len dff).
  { destruct (ledger_date _ L) as (sd & Hd & _).
    rewrite <- (wf_lookup _ _ _ (ledger_wf _ L) Hd).
    specialize (Hlt "Date" (or_introl eq_refl)). rewrite Hd in Hlt.
    destruct t as [|[k v] t]; [congruence|].
    simpl in Hct. injection Hct as -> _. simpl in Hlt.
    now injection Hlt as ->. }
  exists xs, t.
  split; [exact Ha|]. split; [exact Ht|].
  split; [rewrite <- Hlen; apply ranking_perm|].
  split; [now apply ranking_sorted|].
  split; [|split].
  - intros i j Hi Hj Hnj.
    apply (StronglySorted_split _ (ranking xs) 5); trivial.
    + now apply ranking_sorted.
    + assert (Hin : In j (ranking xs)).
      { apply (Permutation_in _ (Permutation_sym (ranking_perm xs))).
        apply in_seq. lia. }
      rewrite <- (firstn_skipn 5 (ranking xs)) in Hin.
      apply in_app_or in Hin. tauto.
  - intros He. split; [now apply top5_table_empty|].
    rewrite (df_empty_len dff (ledger_nonempty _ L)) in He.
    apply Nat.eqb_eq in He. unfold rows. now rewrite Hlent, He.
  - intros Hne.
    destruct (top5_is_the_five_largest_parts dff L Hne)
      as (xs' & t' & Ha' & _ & _ & Ht' & Htop).
    rewrite Ha in Ha'. injection Ha' as Exs.
    assert (xs' = xs).
    { clear -Exs. revert xs' Exs. induction xs as [|x xs IH]; intros [|y ys] E;
        simpl in E; try discriminate; [reflexivity|].
      injection E as -> E. f_equal. now apply IH. }
    subst xs'. rewrite Ht in Ht'. injection Ht' as <-.
    exists (take (firstn 5 (ranking xs)) t).
    assert (Hrows : rows (take (firstn 5 (ranking xs)) t)
                    = map (fun i => row_at i t) (firstn 5 (ranking xs)))
      by now apply rows_take.
    split; [exact Htop|]. split; [exact Hrows|]. split.
    + rewrite Hrows, length_map, length_firstn.
      now rewrite (Permutation_length (ranking_perm xs)), length_seq, Hlen.
    + intros Hle. rewrite Hrows. unfold rows. rewrite Hlent, <- Hlen.
      apply Permutation_map. rewrite firstn_all2; [apply ranking_perm|].
      rewrite (Permutation_length (ranking_perm xs)), length_seq. lia.
Qed.

(** ** The KPI cards *)



(** *** Sums of whole numbers do not round *)

Lemma Qred_inject_Z n : Qred (inject_Z n) = inject_Z n.
Proof. apply Qcanon.Qred_identity. simpl. apply Z.gcd_1_r. Qed.

Lemma round_half_even_whole n : round_half_even (n, 1%Z) = n.
Proof.
  unfold round_half_even. rewrite Z.div_1_r, Z.mod_1_r. reflexivity.
Qed.

Lemma grid_whole p k : (0 <= k)%Z -> grid (p * 2 ^ k) (- k) = inject_Z p.
Proof.
  intros Hk. unfold grid.
  assert (Hpow : (0 < 2 ^ k)%Z) by (apply Z.pow_pos_nonneg; lia).
  transitivity (Qred (inject_Z p)); [|apply Qred_inject_Z].
  apply Qred_complete.
  destruct (0 <=? - k)%Z eqn:E.
  - apply Z.leb_le in E. assert (k = 0%Z) by lia. subst k.
    unfold Qeq. simpl. lia.
  - unfold Qeq. simpl. rewrite Z.opp_involutive, Z2Pos.id by assumption. lia.
Qed.

Lemma round_mag_whole p :
  (0 < p < 2 ^ 53)%Z ->
  round_mag p 1 = Some (p * 2 ^ (52 - Z.log2 p), Z.log2 p - 52)%Z.
Proof.
  intros [Hp Hlt].
  pose proof (Z.log2_nonneg p) as Hl0.
  pose proof (Z.log2_spec p Hp) as [Hlo _].
  assert (Hl : (Z.log2 p < 53)%Z) by (apply Z.log2_lt_pow2; assumption).
  unfold round_mag.
  assert (Hi : ilog2 p 1 = Z.log2 p).
  { unfold ilog2. change (Z.log2 1) with 0%Z. rewrite Z.sub_0_r.
    unfold scaled.
    destruct (0 <=? Z.log2 p)%Z eqn:E; [|apply Z.leb_gt in E; lia].
    rewrite Z.mul_1_l.
    destruct (2 ^ Z.log2 p <=? p)%Z eqn:E2; [reflexivity|].
    apply Z.leb_gt in E2. lia. }
  rewrite Hi, Z.max_l by lia.
  set (e := (Z.log2 p - 52)%Z).
  assert (Hm : round_half_even (scaled p 1 e) = (p * 2 ^ (52 - Z.log2 p))%Z).
  { unfold scaled. destruct (0 <=? e)%Z eqn:E.
    - apply Z.leb_le in E. assert (He : e = 0%Z) by (unfold e in *; lia).
      rewrite He. change (1 * 2 ^ 0)%Z with 1%Z. rewrite round_half_even_whole.
      replace (52 - Z.log2 p)%Z with 0%Z by (unfold e in *; lia).
      now rewrite Z.mul_1_r.
    - rewrite round_half_even_whole. f_equal. f_equal. unfold e. lia. }
  rewrite Hm.
  replace (971 <? e)%Z with false by (symmetry; apply Z.ltb_ge; unfold e; lia).
  replace (e =? 971)%Z with false by (symmetry; apply Z.eqb_neq; unfold e; lia).
  reflexivity.
Qed.

Lemma round64_inject_Z n :
  (Z.abs n < 2 ^ 53)%Z -> round64 (inject_Z n) = whole n.
Proof.
  intros Hn. unfold round64. rewrite Qred_inject_Z. simpl Qnum. simpl Qden.
  destruct n as [|p|p]; [reflexivity| |].
  - rewrite round_mag_whole by (split; [reflexivity | exact Hn]).
    unfold whole. f_equal.
    replace (Z.log2 (Z.pos p) - 52)%Z with (- (52 - Z.log2 (Z.pos p)))%Z by lia.
    apply grid_whole.
    assert (Z.log2 (Z.pos p) < 53)%Z
      by (apply Z.log2_lt_pow2; [reflexivity | exact Hn]).
    lia.
  - rewrite round_mag_whole by (split; [reflexivity | exact Hn]).
    unfold whole. f_equal.
    replace (Z.log2 (Z.pos p) - 52)%Z with (- (52 - Z.log2 (Z.pos p)))%Z by lia.
    rewrite <- Z.mul_opp_l. change (- Z.pos p)%Z with (Z.neg p).
    apply grid_whole.
    assert (Z.log2 (Z.pos p) < 53)%Z
      by (apply Z.log2_lt_pow2; [reflexivity | exact Hn]).
    lia.
Qed.

(** Rounding at work: one tenth; an odd whole number above 2^53, halfway
    between two values, which goes to the one with the even significand;
    the largest value and the first number that rounds to infinity; the
    smallest positive value, and the half of it, which rounds to zero. *)
Lemma round64_examples :
  round64 (1 # 10) = Fin (3602879701896397 # 36028797018963968)
  /\ round64 (inject_Z (2 ^ 53 + 1)) = whole (2 ^ 53)
  /\ round64 (inject_Z (2 ^ 53 + 3)) = whole (2 ^ 53 + 4)
  /\ round64 (inject_Z (2 ^ 1024 - 2 ^ 970 - 1)) = whole (2 ^ 1024 - 2 ^ 971)
  /\ round64 (inject_Z (2 ^ 1024 - 2 ^ 970)) = PInf
  /\ round64 (- inject_Z (2 ^ 1024)) = NInf
  /\ round64 (3 # Z.to_pos (2 ^ 1076)) = Fin (1 # Z.to_pos (2 ^ 1074))
  /\ round64 (1 # Z.to_pos (2 ^ 1075)) = Fin 0.
Proof. vm_compute. repeat split. Qed.

(** Rounding does not depend on how the rational is written. *)
Lemma round64_Qeq q q' : (q == q')%Q -> round64 q = round64 q'.
Proof. intros E. unfold round64. now rewrite (Qred_complete q q' E). Qed.

(** A whole number below 2^53 in absolute value is a float64 value. *)
Lemma round64_whole q n :
  (q == inject_Z n)%Q -> (Z.abs n < 2 ^ 53)%Z -> round64 q = whole n.
Proof.
  intros E Hn. rewrite (round64_Qeq _ _ E). now apply round64_inject_Z.
Qed.

Lemma fadd_whole a b :
  (Z.abs (a + b) < 2 ^ 53)%Z -> fadd (whole a) (whole b) = whole (a + b).
Proof.
  intros Hab. unfold whole at 1 2. cbn [fadd].
  apply round64_whole; [|exact Hab]. now rewrite inject_Z_plus.
Qed.

Lemma abs_sum_nonneg ns : (0 <= abs_sum ns)%Z.
Proof.
  unfold abs_sum. induction ns as [|n ns IH]; simpl; lia.
Qed.


Lemma fold_fadd_whole ns a :
  (Z.abs a + abs_sum ns < 2 ^ 53)%Z ->
  fold_left fadd (map whole ns) (whole a) = whole (a + zsum ns).
Proof.
  revert a. induction ns as [|n ns IH]; intros a Hb.
  - simpl. now rewrite Z.add_0_r.
  - unfold abs_sum in Hb. simpl in Hb. fold (abs_sum ns) in Hb.
    pose proof (abs_sum_nonneg ns).
    cbn [map fold_left]. rewrite fadd_whole by lia. rewrite IH by lia.
    f_equal. unfold zsum. cbn [fold_right]. lia.
Qed.

Lemma skipna_whole ns : skipna (map whole ns) = map whole ns.
Proof.
  unfold skipna. induction ns as [|n ns IH]; simpl; [reflexivity|].
  now rewrite IH.
Qed.

(** The sum of whole numbers is exact while their absolute values sum to
    less than 2^53. *)
Lemma nansum_whole ns :
  (abs_sum ns < 2 ^ 53)%Z -> nansum (map whole ns) = whole (zsum ns).
Proof.
  intros Hb. unfold nansum. rewrite skipna_whole.
  change fzero with (whole 0). rewrite fold_fadd_whole; [reflexivity|].
  simpl. exact Hb.
Qed.



(** ** A whole run *)

Lemma ledger_set_month months (dff : DataFrame) :
  ledger dff -> List.length months = len dff ->
  ledger (set_col "Month" months dff).
Proof.
  intros L Hlen.
  destruct (ledger_date _ L) as (sd & Hd & Hsd).
  destruct (ledger_amount _ L) as (sa & Ha & Hsa).
  constructor.
  - apply wf_set_col; [apply L | exact Hlen].
  - rewrite has_col_set_col, (ledger_category _ L). reflexivity.
  - rewrite has_col_set_col, (ledger_notes _ L). reflexivity.
  - rewrite has_col_set_col, (ledger_gender _ L). reflexivity.
  - exists sd. now rewrite lookup_set_col_other.
  - exists sa. now rewrite lookup_set_col_other.
Qed.

Lemma take_series_cells (P : cell -> Prop) idx s :
  Forall P s -> Forall (fun i => i < List.length s) idx ->
  Forall P (take_series idx s).
Proof.
  intros Hs Hidx. unfold take_series. apply Forall_forall. intros c Hc.
  apply in_map_iff in Hc. destruct Hc as (i & <- & Hi).
  apply (proj1 (Forall_forall _ _) Hs), nth_In.
  exact (proj1 (Forall_forall _ _) Hidx i Hi).
Qed.

Lemma top5_display_ok (dff top5 : DataFrame) :
  ledger dff -> top5_table dff = Ok (Some top5) ->
  exists shown, top5_display top5 = Ok shown.
Proof.
  intros L Ht.
  destruct (df_empty dff) eqn:Hne;
    [rewrite top5_table_empty in Ht by assumption; discriminate|].
  destruct (top5_is_the_five_largest_parts dff L Hne)
    as (xs & t & Ha & Hxs & Hlen & Hp & Htop).
  rewrite Htop in Ht. injection Ht as <-.
  destruct (ledger_date _ L) as (sd & Hd & Hsd).
  destruct (project_ok REQUIRED dff (fun c => ledger_required dff c L))
    as (t' & Ht' & Hct & Hlt).
  rewrite Hp in Ht'. injection Ht' as <-.
  assert (Hdt : lookup "Date" t = Some sd)
    by (rewrite (Hlt "Date" (or_introl eq_refl)); exact Hd).
  unfold top5_display, get_col.
  rewrite (lookup_has_col "Date" (take _ t) (take_series _ sd))
    by now rewrite lookup_take, Hdt.
  rewrite lookup_take, Hdt. cbn [option_map bind].
  rewrite (map_result_ok strftime_cell
             (fun c => match c with
                       | CTime u => CStr (strftime_ymd u)
                       | _ => CNum NaN
                       end) datetime_cell).
  - eexists. reflexivity.
  - intros [] Hx; simpl in *; try contradiction; reflexivity.
  - apply take_series_cells; [exact Hsd|].
    apply Forall_forall. intros i Hi.
    rewrite (wf_lookup _ _ _ (ledger_wf _ L) Hd), <- Hlen.
    apply ranking_lt.
    rewrite <- (firstn_skipn 5 (ranking xs)). apply in_or_app. now left.
Qed.

Lemma kpis_ok (dff : DataFrame) : ledger dff -> exists cards, kpis dff = Ok cards.
Proof.
  intros L. destruct (ledger_amount_values dff L) as (xs & Ha & _).
  unfold kpis, get_col. rewrite Ha. cbn [bind]. rewrite series_values_map.
  eexists. reflexivity.
Qed.

Lemma top5_table_ok (dff : DataFrame) :
  ledger dff -> exists top5, top5_table dff = Ok top5.
Proof.
  intros L. destruct (df_empty dff) eqn:E.
  - exists None. now apply top5_table_empty.
  - destruct (top5_is_the_five_largest_parts dff L E) as (xs & t & H).
    eexists. apply H.
Qed.

Section Run.

Context `{Pandas}.

Lemma input_wf_start w : input_wf w -> wf (start_table (fst (load_data w))).
Proof.
  unfold input_wf. destruct (fst (load_data w)); [trivial|].
  intros _. exact wf_empty_frame.
Qed.

(** A run on a rectangular input with a full date range never raises. *)
Lemma run_ok (w : Widgets) :
  input_wf w -> range_picked w ->
  exists page, run w = Ok page /\ run_facts w page.
Proof.
  intros Hwf Hr. apply input_wf_start in Hwf. unfold run.
  destruct (load_data w) as [loaded errors] eqn:El. simpl in Hwf.
  pose proof (normalize_ok loaded) as Hn.
  pose proof (normalize_ledger _ _ Hwf Hn) as L0.
  rewrite Hn. cbn [bind].
  match type of Hn with _ = Ok ?d => set (df0 := d) in * end.
  pose proof (add_transaction_ledger (w_submit w) df0 L0) as L.
  destruct (add_transaction (w_submit w) df0) as [df success] eqn:Ea.
  simpl in L.
  destruct (ledger_columns df L)
    as (cat & gender & date & amount & Hc & Hg & Hd & _ & _ & _ & _ & _
        & Hdc & _).
  pose proof (default_options_ok (w_today w) df _ _ _ Hc Hg Hd Hdc) as Ho.
  destruct (default_range (w_today w) date) as [lo hi].
  rewrite Ho. cbn [bind].
  assert (Hu : exists a b,
             unpack2 match w_dates w with Some l => l | None => [lo; hi] end
             = Ok (a, b)).
  { unfold range_picked in Hr. destruct (w_dates w) as [l|].
    - destruct Hr as (a & b & ->). exists a, b. reflexivity.
    - exists lo, hi. reflexivity. }
  destruct Hu as (a & b & Hu). rewrite Hu. cbn [bind].
  match goal with
  | |- context [apply_filters ?c ?g a b df] =>
      set (cats := c); set (genders := g)
  end.
  pose proof (filter_mask_ok cats genders a b df _ _ _ Hc Hg Hd) as Hm.
  unfold apply_filters at 1. rewrite Hm. cbn [bind].
  match type of Hm with _ = Ok ?m => set (mask := m) in * end.
  pose proof (loc_ledger mask df L) as Lf.
  rewrite (ensure_datetime_col_ledger _ Lf). cbn [bind].
  destruct (add_month_ok _ Lf) as (months & Hmo & Hlen).
  rewrite Hmo. cbn [bind].
  pose proof (ledger_set_month months _ Lf Hlen) as Lm.
  destruct (kpis_ok _ Lm) as (cards & Hk). rewrite Hk. cbn [bind].
  destruct (top5_table_ok _ Lm) as (top5 & Ht). rewrite Ht. cbn [bind].
  assert (Hshow : exists shown,
             match top5 with
             | Some t => t' <- top5_display t ;; Ok (Some t')
             | None => Ok None
             end = Ok shown
             /\ match top5 with
                | Some t => exists t', top5_display t = Ok t' /\ shown = Some t'
                | None => shown = None
                end).
  { destruct top5 as [t|]; [|eexists; split; reflexivity].
    destruct (top5_display_ok _ _ Lm Ht) as (t' & Hd').
    exists (Some t'). rewrite Hd'. split; [reflexivity | eauto]. }
  destruct Hshow as (shown & Hshow & Hshown). rewrite Hshow. cbn [bind].
  eexists. split; [reflexivity|].
  constructor; simpl; rewrite ?El; simpl; trivial.
  - exists df0. rewrite Ea. split; [exact Hn | reflexivity].
  - exists (sorted (unique (filter_keys "(empty)" cat))),
      (sorted (unique (filter_keys "Not specified" gender))), lo, hi.
    repeat split; trivial.
  - exists (loc mask df), months. repeat split; trivial.
    unfold apply_filters. fold cats genders. now rewrite Hm.
Qed.

(** While the date range widget holds anything but a start and an end, the
    unpacking at line 166 raises. *)
Lemma run_half_range (w : Widgets) :
  input_wf w -> ~ range_picked w -> run w = Raise (ValueError "unpack").
Proof.
  intros Hwf Hr. apply input_wf_start in Hwf. unfold run.
  destruct (load_data w) as [loaded errors] eqn:El. simpl in Hwf.
  pose proof (normalize_ok loaded) as Hn.
  pose proof (normalize_ledger _ _ Hwf Hn) as L0.
  rewrite Hn. cbn [bind].
  match type of Hn with _ = Ok ?d => set (df0 := d) in * end.
  pose proof (add_transaction_ledger (w_submit w) df0 L0) as L.
  destruct (add_transaction (w_submit w) df0) as [df success] eqn:Ea.
  simpl in L.
  destruct (ledger_columns df L)
    as (cat & gender & date & amount & Hc & Hg & Hd & _ & _ & _ & _ & _
        & Hdc & _).
  rewrite (default_options_ok (w_today w) df _ _ _ Hc Hg Hd Hdc).
  destruct (default_range (w_today w) date) as [lo hi]. cbn [bind].
  unfold range_picked in Hr. destruct (w_dates w) as [l|]; [|tauto].
  destruct l as [|x [|y [|z l]]]; try reflexivity.
  exfalso. apply Hr. eauto.
Qed.

End Run.

(** ** Dates as text *)

Lemma civil_bounds day :
  (ts_min_day <= day <= ts_max_day)%Z ->
  civil_bounded (civil_from_days day) 1677 2262.
Proof.
  unfold ts_min_day, ts_max_day. intros Hr.
  unfold civil_from_days. cbv zeta.
  set (z := (day + 719468)%Z).
  set (era := (z / 146097)%Z).
  set (doe := (z - era * 146097)%Z).
  set (yoe := ((doe - doe / 1460 + doe / 36524 - doe / 146096) / 365)%Z).
  set (doy := (doe - (365 * yoe + yoe / 4 - yoe / 100))%Z).
  set (mp := ((5 * doy + 2) / 153)%Z).
  assert (Hdoe : (0 <= doe <= 146096)%Z)
    by (unfold doe, era; Z.div_mod_to_equations; lia).
  assert (Hyoe : (0 <= yoe <= 399 /\ 0 <= doy <= 365)%Z)
    by (unfold doy, yoe; clearbody doe; Z.div_mod_to_equations; lia).
  assert (Hmp : (0 <= mp <= 11
                 /\ 1 <= doy - (153 * mp + 2) / 5 + 1 <= 31)%Z)
    by (unfold mp; clearbody doy; Z.div_mod_to_equations; lia).
  assert (Hy : (1677 <= yoe + era * 400 <= 2262
                /\ (mp >= 10 -> yoe + era * 400 + 1 <= 2262))%Z).
  { unfold mp, doy, yoe, doe, era, z. clear -Hr.
    Z.div_mod_to_equations; lia. }
  unfold civil_bounded.
  destruct (mp <? 10)%Z eqn:E; [apply Z.ltb_lt in E | apply Z.ltb_ge in E].
  - destruct (mp + 3 <=? 2)%Z eqn:E2; [apply Z.leb_le in E2|]; lia.
  - destruct (mp - 9 <=? 2)%Z eqn:E2; [|apply Z.leb_gt in E2]; lia.
Qed.

(** On the days a Timestamp can fall on, year, month and day have the
    digits that [strftime_ymd] prints. *)
Lemma strftime_in_range t :
  in_ts_range t -> civil_bounded (civil_from_days (date_of t)) 1677 2262.
Proof. intros Hr. now apply civil_bounds. Qed.

Lemma is_digit_digit n : is_digit (digit n) = true.
Proof.
  unfold digit.
  assert (Hk : Z.to_nat (n mod 10) < 10).
  { pose proof (Z.mod_pos_bound n 10 ltac:(lia)). lia. }
  revert Hk. generalize (Z.to_nat (n mod 10)) as k. intros k Hk.
  do 10 (destruct k as [|k]; [reflexivity|]). lia.
Qed.

Lemma ymd_of_day_shape day : is_ymd (ymd_of_day day) = true.
Proof.
  unfold ymd_of_day. destruct (civil_from_days day) as [[y m] d].
  unfold pad4, pad2. cbn [append is_ymd forallb].
  rewrite !is_digit_digit. reflexivity.
Qed.

Lemma strftime_ymd_shape t : is_ymd (strftime_ymd t) = true.
Proof. apply ymd_of_day_shape. Qed.

(** ** The records of the file *)

Section Csv.

Context `{Pandas}.

Lemma csv_records_header (df : DataFrame) :
  hd [] (csv_records df) = columns df.
Proof. reflexivity. Qed.

Lemma csv_records_row (df : DataFrame) i :
  i < len df ->
  nth (S i) (csv_records df) []
  = map (fun '(_, s) => nth i (csv_column s) "") df.
Proof.
  intros Hi. unfold csv_records. cbn [nth].
  rewrite (nth_map_lt _ _ _ 0) by now rewrite length_seq.
  now rewrite seq_nth.
Qed.

Lemma field_of_row (df : DataFrame) i col :
  i < len df ->
  field_of (hd [] (csv_records df)) (nth (S i) (csv_records df) []) col
  = option_map (fun s => nth i (csv_column s) "") (lookup col df).
Proof.
  intros Hi. unfold field_of. rewrite csv_records_header, csv_records_row by assumption.
  unfold columns. clear Hi.
  induction df as [|[k v] df IH]; simpl; [reflexivity|].
  destruct (String.eqb col k); [reflexivity | exact IH].
Qed.

Lemma csv_column_length s : List.length (csv_column s) = List.length s.
Proof. unfold csv_column. apply length_map. Qed.

Lemma dates_only_plain s : Forall no_time_of_day s -> dates_only s = true.
Proof.
  intros Hs. unfold dates_only. apply forallb_forall. intros c Hc.
  pose proof (proj1 (Forall_forall _ _) Hs c Hc) as Hp.
  destruct c; simpl in *; trivial.
Qed.

Lemma csv_date_field s i :
  Forall no_time_of_day s -> Forall (fun c => has_date c = true) s ->
  i < List.length s ->
  exists t, nth i s (CNum NaN) = CTime t
            /\ nth i (csv_column s) "" = strftime_ymd t.
Proof.
  intros Hp Hd Hi. unfold csv_column. rewrite (dates_only_plain s Hp).
  rewrite (nth_map_lt _ _ _ (CNum NaN)) by assumption.
  pose proof (proj1 (Forall_forall _ _) Hd _ (nth_In s (CNum NaN) Hi)) as Hc.
  destruct (nth i s (CNum NaN)); try discriminate. eauto.
Qed.

End Csv.

Lemma select_between_dated a lo hi s :
  Forall (fun c => has_date c = true) (select (band a (between lo hi s)) s).
Proof.
  revert a. induction s as [|c s IH]; intros [|x a]; simpl; try constructor.
  destruct c; simpl; rewrite ?andb_false_r; try apply IH.
  destruct (x && ((lo <=? t)%Z && (t <=? hi)%Z)); [constructor|]; auto.
Qed.

(** ** The download and the unreadable upload *)

Section Page.

Context `{Pandas}.

Lemma filtered_date_column cats genders a b (df dff : DataFrame) :
  ledger df ->
  apply_filters cats genders a b df = Ok dff ->
  columns dff = columns df
  /\ exists date, lookup "Date" dff = Some date
                  /\ Forall (fun c => has_date c = true) date.
Proof.
  intros L.
  destruct (ledger_columns df L)
    as (cat & gender & date & amount & Hc & Hg & Hd & _).
  unfold apply_filters.
  rewrite (filter_mask_ok cats genders a b df _ _ _ Hc Hg Hd). cbn [bind].
  intros [= <-]. split; [apply columns_loc|].
  eexists. rewrite lookup_loc, Hd. split; [reflexivity|].
  apply select_between_dated.
Qed.

(** C1, as the code has it.  The download is named filtered_expenses.csv
    and holds, in UTF-8, the records of the filtered table as it stands
    after the Month column was set: the header lists the columns of the
    ledger (the five required ones and whatever else the input had) and
    then Month, unless the ledger had a Month column already; one record
    follows per filtered row.  No filtered row lacks its date, and when the
    filtered dates carry no time of day the Date field of every record is
    the date written YYYY-MM-DD. *)
Theorem export_has_table_columns (w : Widgets) :
  input_wf w ->
  range_picked w ->
  exists page date,
    run w = Ok page
    /\ dl_file_name (pg_download page) = "filtered_expenses.csv"
    /\ dl_data (pg_download page)
       = encode_utf8
           (String.concat "" (map csv_line (csv_records (pg_dff page))))
    /\ hd [] (csv_records (pg_dff page))
       = columns (pg_df page)
         ++ (if has_col "Month" (pg_df page) then [] else ["Month"])
    /\ incl REQUIRED (hd [] (csv_records (pg_dff page)))
    /\ List.length (csv_records (pg_dff page)) = S (len (pg_dff page))
    /\ lookup "Date" (pg_dff page) = Some date
    /\ Forall (fun c => has_date c = true) date
    /\ (Forall no_time_of_day date ->
        forall i, i < len (pg_dff page) ->
          exists t,
            nth i date (CNum NaN) = CTime t
            /\ field_of (hd [] (csv_records (pg_dff page)))
                 (nth (S i) (csv_records (pg_dff page)) []) "Date"
               = Some (strftime_ymd t)
            /\ is_ymd (strftime_ymd t) = true).
Proof.
  intros Hwf Hr. destruct (run_ok w Hwf Hr) as (page & Hrun & F).
  destruct (rf_filter _ _ F) as (dff0 & months & Hf & Hlen & Hdff).
  destruct (filtered_date_column _ _ _ _ _ _ (rf_ledger _ _ F) Hf)
    as (Hcols & date & Hd & Hdated).
  assert (Hd' : lookup "Date" (pg_dff page) = Some date)
    by (rewrite Hdff, lookup_set_col_other by discriminate; exact Hd).
  exists page, date. split; [exact Hrun|].
  rewrite (rf_download _ _ F). cbn [dl_file_name dl_data].
  split; [reflexivity|]. split; [reflexivity|].
  rewrite csv_records_header.
  assert (Hhead : columns (pg_dff page)
                  = columns (pg_df page)
                    ++ (if has_col "Month" (pg_df page) then [] else ["Month"])).
  { rewrite Hdff, columns_set_col. unfold has_col. rewrite Hcols.
    destruct (existsb _ _); [now rewrite app_nil_r | reflexivity]. }
  split; [exact Hhead|].
  split.
  { intros c Hc. apply has_col_In.
    exact (ledger_required _ c (rf_filtered _ _ F) Hc). }
  split; [unfold csv_records; simpl; now rewrite length_map, length_seq|].
  split; [exact Hd'|]. split; [exact Hdated|].
  intros Hplain i Hi.
  pose proof (wf_lookup _ _ _ (ledger_wf _ (rf_filtered _ _ F)) Hd') as Hl.
  destruct (csv_date_field date i Hplain Hdated ltac:(lia)) as (t & Hn & Hfld).
  exists t. split; [exact Hn|]. split; [|apply strftime_ymd_shape].
  rewrite <- csv_records_header, field_of_row by assumption.
  rewrite Hd'. simpl. now rewrite Hfld.
Qed.

(** C9, as the code has it.  When the uploaded file cannot be read, the
    sidebar shows the error with the reader's message, and the script goes
    on with the table of no rows and the five columns Date, Category,
    Amount, Notes, Gender.  The run then does not raise as long as the date
    range widget holds a start and an end, as it does by default: with
    nothing submitted in the form, the filtered table has no row, the cards
    show 0 for total, average, count and max, and no table of the five
    largest is drawn.  While the widget holds only one date, the unpacking
    of the range raises a [ValueError], on this table as on any other. *)
Theorem unreadable_upload_page (w : Widgets) (e : string) :
  w_source w = UploadFile ->
  w_upload w = Unreadable e ->
  snd (load_data w) = [("Error reading file: " ++ e)%string]
  /\ normalize (fst (load_data w)) = Ok (empty_frame REQUIRED)
  /\ (range_picked w ->
      exists page,
        run w = Ok page
        /\ pg_errors page = [("Error reading file: " ++ e)%string]
        /\ (w_submit w = None ->
            pg_df page = empty_frame REQUIRED
            /\ columns (pg_df page) = REQUIRED
            /\ rows (pg_df page) = []
            /\ rows (pg_dff page) = []
            /\ pg_kpis page = {| kpi_total := Fin 0; kpi_avg := Fin 0;
                                 kpi_count := 0; kpi_max := Fin 0 |}
            /\ pg_top5 page = None))
  /\ (~ range_picked w -> run w = Raise (ValueError "unpack")).
Proof.
  intros Hs Hu.
  assert (Hload : load_data w = (None, [("Error reading file: " ++ e)%string]))
    by (unfold load_data; now rewrite Hs, Hu).
  assert (Hwf : input_wf w) by (unfold input_wf; now rewrite Hload).
  split; [now rewrite Hload|].
  split; [now rewrite Hload|].
  split; [|now apply run_half_range].
  intros Hr.
  destruct (run_ok w Hwf Hr) as (page & Hrun & F).
  exists page. split; [exact Hrun|].
  split; [now rewrite (rf_errors _ _ F), Hload|].
  intros Hnone.
  destruct (rf_df _ _ F) as (df0 & Hn & Hdf).
  rewrite Hload in Hn. cbn in Hn. injection Hn as <-.
  rewrite Hnone in Hdf. cbn in Hdf.
  destruct (rf_filter _ _ F) as (dff0 & months & Hf & Hlen & Hdff).
  rewrite Hdf in Hf. unfold apply_filters, filter_mask in Hf. cbn in Hf.
  injection Hf as <-.
  destruct months; [|discriminate].
  pose proof (rf_kpis _ _ F) as Hk. rewrite Hdff in Hk. cbn in Hk.
  injection Hk as <-.
  pose proof (rf_top5 _ _ F) as Ht. rewrite Hdff in Ht. cbn in Ht.
  injection Ht as <-.
  rewrite Hdf, Hdff. repeat split; reflexivity.
Qed.

End Page.

(** ** The properties on the fixtures *)

Lemma fallback_data_wf : wf fallback_data.
Proof.
  apply (wf_intro _ 3).
  - repeat constructor; simpl; intuition discriminate.
  - repeat constructor.
Qed.

Lemma sample_ledger_normalized :
  Fixture.normalize (Some fallback_data) = Ok Fixture.sample_ledger.
Proof. vm_compute. reflexivity. Qed.

Lemma sample_ledger_ok : ledger Fixture.sample_ledger.
Proof.
  apply (normalize_ledger (H := Fixture.pandas) (Some fallback_data)).
  - exact fallback_data_wf.
  - exact sample_ledger_normalized.
Qed.

Lemma sample_run_wf : input_wf Fixture.sample_run.
Proof. exact fallback_data_wf. Qed.

Lemma add_lunch_with_tags_witness :
  get_col "Notes"
    (fst (add_transaction (Some Fixture.lunch_form) Fixture.sample_ledger))
  = Ok ([CStr "Big bazaar"; CStr "Auto"; CStr "Electricity Bill"]
        ++ [CStr "lunch | Tags: food, monthly"]).
Proof.
  apply (add_lunch_with_tags Fixture.sample_ledger Fixture.lunch_form);
    reflexivity.
Defined.

Lemma add_tags_without_notes_witness :
  get_col "Notes"
    (fst (add_transaction (Some Fixture.tags_only_form) Fixture.sample_ledger))
  = Ok ([CStr "Big bazaar"; CStr "Auto"; CStr "Electricity Bill"]
        ++ [CStr "| Tags: refund, family"]).
Proof.
  apply (add_tags_without_notes Fixture.sample_ledger Fixture.tags_only_form).
  - reflexivity.
  - discriminate.
  - intros x Hx. simpl in Hx. simpl. tauto.
  - reflexivity.
Defined.

Lemma normalize_schema_witness :
  exists df,
    Fixture.normalize (Some Fixture.undated_upload) = Ok df
    /\ columns df = ["Shop"; "Category"; "Amount"; "Notes"; "Gender"; "Date"]
    /\ lookup "Notes" df = Some [CStr ""]
    /\ lookup "Gender" df = Some [CStr ""].
Proof.
  destruct (normalize_schema (H := Fixture.pandas) (Some Fixture.undated_upload))
    as (df & Hn & Hc & _ & _ & Hfill & _).
  exists df. split; [exact Hn|]. split; [exact Hc|].
  split; apply Hfill; simpl; auto.
Defined.

Lemma amounts_are_numbers_witness :
  exists df,
    Fixture.normalize (Some Fixture.refund_upload) = Ok df
    /\ get_col "Amount" df = Ok [CNum (Fin (-5))]
    /\ get_col "Amount" (fst (add_transaction (Some Fixture.lunch_form) df))
       = Ok [CNum (Fin (-5)); CNum (Fin 250)].
Proof.
  destruct (amounts_are_numbers (H := Fixture.pandas) (Some Fixture.refund_upload))
    as (df & amount & Hn & Ha & -> & _ & _ & _ & _ & Hadd).
  exists df. split; [exact Hn|]. split; [exact Ha|]. apply Hadd.
Defined.

Lemma filter_keeps_what_passes_witness :
  exists mask dff,
    Fixture.filter_mask ["Groceries"; "Utility"] ["Not specified"] 20093 20100
      Fixture.sample_ledger = Ok mask
    /\ Fixture.apply_filters ["Groceries"; "Utility"] ["Not specified"] 20093 20100
         Fixture.sample_ledger = Ok dff
    /\ mask = [true; false; false]
    /\ rows dff = [row_at 0 Fixture.sample_ledger].
Proof.
  destruct (filter_keeps_what_passes (H := Fixture.pandas)
              ["Groceries"; "Utility"] ["Not specified"] 20093 20100
              Fixture.sample_ledger sample_ledger_ok)
    as (mask & dff & keep & Hm & Hf & _ & Hrows & Hsorted & _ & _ & _ & Hkeep
        & Hmask & _).
  exists mask, dff. split; [exact Hm|]. split; [exact Hf|].
  vm_compute in Hm. injection Hm as <-. split; [reflexivity|].
  assert (Hin : forall i, In i keep <-> i = 0).
  { intros i. rewrite Hkeep. split.
    - intros [Hi Hp]. apply Hmask in Hp; [|exact Hi].
      destruct i as [|[|[|i]]]; simpl in Hp; try discriminate; [reflexivity|].
      simpl in Hi. lia.
    - intros ->. split; [simpl; lia|]. apply Hmask; [simpl; lia | reflexivity]. }
  rewrite Hrows.
  destruct keep as [|k keep]; [exfalso; now apply (Hin 0)|].
  assert (Hk : k = 0) by (apply Hin; now left). subst k.
  destruct keep as [|k keep]; [reflexivity|].
  assert (Hk : k = 0) by (apply Hin; right; now left). subst k.
  apply StronglySorted_inv in Hsorted. destruct Hsorted as [_ Hlt].
  apply Forall_inv in Hlt. lia.
Defined.

Lemma default_filter_keeps_dated_witness :
  exists cats genders lo hi dff,
    Fixture.default_options 20396 Fixture.sample_ledger = Ok (cats, genders, (lo, hi))
    /\ Fixture.apply_filters cats genders lo hi Fixture.sample_ledger = Ok dff
    /\ len dff = 3.
Proof.
  destruct (default_filter_keeps_dated (H := Fixture.pandas) 20396
              Fixture.sample_ledger
              [CTime (to_datetime_date 20093); CTime (to_datetime_date 20095);
               CTime (to_datetime_date 20121)]
              sample_ledger_ok eq_refl)
    as (cats & genders & lo & hi & dff & Ho & Hf & _ & Hlen & _).
  - repeat constructor.
  - exists cats, genders, lo, hi, dff. auto.
Defined.


Lemma top5_is_the_five_largest_witness :
  exists top5,
    top5_table Fixture.sample_ledger = Ok (Some top5)
    /\ List.length (rows top5) = 3.
Proof.
  destruct (top5_is_the_five_largest Fixture.sample_ledger sample_ledger_ok)
    as (xs & t & _ & _ & _ & _ & _ & _ & Hshown).
  destruct (Hshown eq_refl) as (top5 & Ht & _ & Hlen & _).
  exists top5. split; [exact Ht | exact Hlen].
Defined.

Lemma export_has_table_columns_witness :
  exists page,
    Fixture.run Fixture.sample_run = Ok page
    /\ hd [] (Fixture.csv_records (pg_dff page))
       = columns (pg_df page)
         ++ (if has_col "Month" (pg_df page) then [] else ["Month"]).
Proof.
  destruct (export_has_table_columns (H := Fixture.pandas) Fixture.sample_run
              sample_run_wf I)
    as (page & date & Hrun & _ & _ & Hhd & _).
  exists page. split; [exact Hrun | exact Hhd].
Defined.

Lemma unreadable_upload_page_witness :
  exists page,
    Fixture.run Fixture.unreadable_run = Ok page
    /\ pg_errors page = ["Error reading file: bad file"]
    /\ pg_df page = empty_frame REQUIRED
    /\ pg_top5 page = None.
Proof.
  destruct (unreadable_upload_page (H := Fixture.pandas) Fixture.unreadable_run
              "bad file" eq_refl eq_refl)
    as (_ & _ & Hpicked & _).
  destruct (Hpicked I) as (page & Hrun & He & Hrest).
  destruct (Hrest eq_refl) as (Hdf & _ & _ & _ & _ & Ht).
  exists page. auto.
Defined.

(** While only one end of the date range is picked, unpacking the range
    raises. *)
Lemma half_range_raises :
  Fixture.run Fixture.half_range_run = Raise (ValueError "unpack").
Proof. vm_compute. reflexivity. Qed.

(** ** Where the code departs from the specification *)

(** The download of the sample data has a sixth column, Month. *)
Lemma export_has_month_column :
  exists page,
    Fixture.run Fixture.sample_run = Ok page
    /\ hd [] (Fixture.csv_records (pg_dff page))
       = ["Date"; "Category"; "Amount"; "Notes"; "Gender"; "Month"]
    /\ ~ Permutation (hd [] (Fixture.csv_records (pg_dff page))) REQUIRED.
Proof.
  eexists. split; [vm_compute; reflexivity|].
  split; [reflexivity|].
  intros Hp. apply Permutation_length in Hp. discriminate.
Qed.

(** A negative amount of the input stays negative. *)
Lemma normalize_keeps_negative_amount :
  exists df,
    Fixture.normalize (Some Fixture.refund_upload) = Ok df
    /\ get_col "Amount" df = Ok [CNum (Fin (-5))]
    /\ ~ Forall nonneg_finite [CNum (Fin (-5))].
Proof.
  eexists. split; [vm_compute; reflexivity|].
  split; [reflexivity|].
  intros Hf. apply Forall_inv in Hf. destruct Hf as (q & E & Hq).
  injection E as <-. now apply Hq.
Qed.

(** A record without date does not pass the default filter. *)
Lemma default_filter_drops_undated :
  exists df cats genders lo hi dff,
    Fixture.normalize (Some Fixture.undated_upload) = Ok df
    /\ Fixture.default_options 20396 df = Ok (cats, genders, (lo, hi))
    /\ Fixture.apply_filters cats genders lo hi df = Ok dff
    /\ len df = 1
    /\ len dff = 0
    /\ len dff <> len df.
Proof.
  do 6 eexists. split; [vm_compute; reflexivity|].
  split; [vm_compute; reflexivity|].
  split; [vm_compute; reflexivity|].
  repeat split. discriminate.
Qed.

(** A record dated on the last day with a time of day does not pass the
    default filter either: the range ends at midnight of that day. *)
Lemma default_filter_drops_timed :
  exists df cats genders lo hi dff,
    Fixture.normalize (Some Fixture.timed_upload) = Ok df
    /\ Fixture.default_options 20396 df = Ok (cats, genders, (lo, hi))
    /\ Fixture.apply_filters cats genders lo hi df = Ok dff
    /\ (lo, hi) = (20093, 20093)%Z
    /\ len df = 1
    /\ len dff = 0.
Proof.
  do 6 eexists. split; [vm_compute; reflexivity|].
  split; [vm_compute; reflexivity|].
  split; [vm_compute; reflexivity|].
  repeat split.
Qed.

(** A record dated on the last day of the range at 13:45 is not kept,
    though its category and its gender are selected and its day lies
    within the range. *)
Lemma filter_drops_end_day_time :
  exists df dff,
    Fixture.normalize (Some Fixture.timed_upload) = Ok df
    /\ len df = 1
    /\ passes_by_day (H := Fixture.pandas) ["Groceries"] ["Other"]
         20093 20093 (row_at 0 df)
    /\ Fixture.apply_filters ["Groceries"] ["Other"] 20093 20093 df = Ok dff
    /\ rows dff = [].
Proof.
  do 2 eexists. split; [vm_compute; reflexivity|].
  split; [reflexivity|]. split.
  { split; [eexists; split; [reflexivity | simpl; auto]|].
    split; [eexists; split; [reflexivity | simpl; auto]|].
    eexists. split; [reflexivity|]. vm_compute. split; discriminate. }
  split; [vm_compute; reflexivity|]. reflexivity.
Qed.

(** With an upload that cannot be read, the run raises while only one end of
    the date range is picked. *)
Lemma unreadable_half_range_raises :
  fst (load_data Fixture.unreadable_half_range_run) = None
  /\ Fixture.normalize (fst (load_data Fixture.unreadable_half_range_run))
     = Ok (empty_frame REQUIRED)
  /\ Fixture.run Fixture.unreadable_half_range_run
     = Raise (ValueError "unpack").
Proof.
  split; [reflexivity|]. split; vm_compute; reflexivity.
Qed.

(** A column of the input that is not one of the five stays in the table. *)
Lemma normalize_keeps_extra_column :
  exists df,
    Fixture.normalize (Some Fixture.undated_upload) = Ok df
    /\ In "Shop" (columns df)
    /\ ~ In "Shop" REQUIRED
    /\ ~ Permutation (columns df) REQUIRED.
Proof.
  eexists. split; [vm_compute; reflexivity|].
  split; [simpl; tauto|].
  split; [simpl; intuition discriminate|].
  intros Hp. apply Permutation_length in Hp. discriminate.
Qed.

(** ** The order on texts *)

Lemma ascii_compare_lt_trans a b c :
  Ascii.compare a b = Lt -> Ascii.compare b c = Lt -> Ascii.compare a c = Lt.
Proof.
  unfold Ascii.compare. rewrite !N.compare_lt_iff. apply N.lt_trans.
Qed.

Lemma string_compare_refl s : String.compare s s = Eq.
Proof.
  induction s as [|a s IH]; simpl; [reflexivity|].
  unfold Ascii.compare. now rewrite N.compare_refl.
Qed.

Lemma string_compare_lt_trans x y z :
  String.compare x y = Lt -> String.compare y z = Lt ->
  String.compare x z = Lt.
Proof.
  revert y z. induction x as [|a x IH]; intros [|b y] [|c z]; simpl;
    try discriminate; try reflexivity.
  destruct (Ascii.compare a b) eqn:Eab; try discriminate;
    destruct (Ascii.compare b c) eqn:Ebc; try discriminate; intros Hxy Hyz.
  - apply Ascii.compare_eq_iff in Eab, Ebc. subst b c.
    unfold Ascii.compare. rewrite N.compare_refl. now apply (IH y).
  - apply Ascii.compare_eq_iff in Eab. subst b. now rewrite Ebc.
  - apply Ascii.compare_eq_iff in Ebc. subst c. now rewrite Eab.
  - now rewrite (ascii_compare_lt_trans _ _ _ Eab Ebc).
Qed.

Lemma string_leb_cases a b :
  String.leb a b = true <-> String.ltb a b = true \/ a = b.
Proof.
  unfold String.leb, String.ltb. split.
  - destruct (String.compare a b) eqn:E; try discriminate; intros _.
    + right. now apply String.compare_eq_iff.
    + now left.
  - intros [H| ->].
    + now destruct (String.compare a b).
    + now rewrite string_compare_refl.
Qed.

Lemma string_ltb_trans a b c :
  String.ltb a b = true -> String.ltb b c = true -> String.ltb a c = true.
Proof.
  unfold String.ltb.
  destruct (String.compare a b) eqn:Eab; try discriminate.
  destruct (String.compare b c) eqn:Ebc; try discriminate. intros _ _.
  now rewrite (string_compare_lt_trans _ _ _ Eab Ebc).
Qed.

Lemma string_leb_trans a b c :
  String.leb a b = true -> String.leb b c = true -> String.leb a c = true.
Proof.
  rewrite !string_leb_cases. intros [Hab| ->] [Hbc| ->]; auto.
  left. eapply string_ltb_trans; eassumption.
Qed.

Lemma string_ltb_irrefl a : String.ltb a a = false.
Proof. unfold String.ltb. now rewrite string_compare_refl. Qed.

(** ** Sorted texts without repetition *)

Lemma insert_sorted_perm x l : Permutation (insert_sorted x l) (x :: l).
Proof.
  induction l as [|y l IH]; simpl; [reflexivity|].
  destruct (String.leb x y); [reflexivity|].
  rewrite IH. apply perm_swap.
Qed.

Lemma sorted_perm l : Permutation (sorted l) l.
Proof.
  induction l as [|x l IH]; simpl; [reflexivity|].
  rewrite insert_sorted_perm. now constructor.
Qed.

Lemma insert_sorted_sorted x l :
  StronglySorted (fun a b => String.leb a b = true) l ->
  StronglySorted (fun a b => String.leb a b = true) (insert_sorted x l).
Proof.
  intros Hs. induction Hs as [|y l Hs IH Hy]; simpl; [repeat constructor|].
  destruct (String.leb x y) eqn:E.
  - constructor; [now constructor|].
    constructor; [exact E|].
    eapply Forall_impl; [|exact Hy]. intros z Hz.
    eapply string_leb_trans; eassumption.
  - constructor; [exact IH|].
    eapply Permutation_Forall; [symmetry; apply insert_sorted_perm|].
    constructor; [|exact Hy].
    destruct (String.leb_total x y); congruence.
Qed.

Lemma sorted_sorted l :
  StronglySorted (fun a b => String.leb a b = true) (sorted l).
Proof.
  induction l as [|x l IH]; simpl; [constructor|].
  now apply insert_sorted_sorted.
Qed.

Lemma unique_NoDup l : NoDup (unique l).
Proof.
  induction l as [|x l IH]; simpl; constructor.
  - intros Hin. apply filter_In in Hin. destruct Hin as [_ Hx].
    now rewrite String.eqb_refl in Hx.
  - now apply NoDup_filter.
Qed.

Lemma sorted_NoDup_ascending l : NoDup l -> ascending (sorted l).
Proof.
  intros Hnd.
  assert (Hnd' : NoDup (sorted l))
    by (eapply Permutation_NoDup; [symmetry; apply sorted_perm | exact Hnd]).
  pose proof (sorted_sorted l) as Hs. unfold ascending.
  induction Hs as [|x s Hs IH Hx]; constructor.
  - apply IH. now inversion Hnd'.
  - inversion Hnd' as [|? ? Hnx Hnd'']; subst.
    apply Forall_forall. intros y Hy.
    pose proof (proj1 (Forall_forall _ _) Hx y Hy) as Hle.
    apply string_leb_cases in Hle. destruct Hle as [Hlt| ->]; [exact Hlt|].
    contradiction.
Qed.

Lemma ascending_NoDup l : ascending l -> NoDup l.
Proof.
  induction 1 as [|x l Hs IH Hx]; constructor; [|exact IH].
  intros Hin. pose proof (proj1 (Forall_forall _ _) Hx x Hin) as E.
  cbv beta in E. rewrite string_ltb_irrefl in E. discriminate.
Qed.

Lemma sorted_unique_In x l : In x (sorted (unique l)) <-> In x l.
Proof. now rewrite sorted_In, unique_In. Qed.

Section Options.

Context `{Pandas}.

(** X1. The options of the form's category box are never empty (the box
    preselects the first), come in strictly ascending order, hence without
    repetition, and are exactly the six built-in categories together with
    the text of every category of the table. *)
Theorem cat_options_cover (df : DataFrame) (cat : Series) :
  lookup "Category" df = Some cat ->
  exists opts,
    cat_options df = Ok opts
    /\ opts <> []
    /\ ascending opts
    /\ incl default_categories opts
    /\ (forall x, In x opts
                  <-> In x (astype_str cat) \/ In x default_categories).
Proof.
  intros Hc. unfold cat_options, get_col. rewrite Hc. cbn [bind].
  eexists. split; [reflexivity|].
  assert (Hin : forall x,
             In x (sorted (unique (unique (astype_str cat)
                                   ++ default_categories)))
             <-> In x (astype_str cat) \/ In x default_categories).
  { intros x. rewrite sorted_unique_In, in_app_iff, unique_In. tauto. }
  split; [|split; [|split]].
  - intros E. assert (Hg : In "Groceries" default_categories) by (simpl; auto).
    apply (fun h => proj2 (Hin "Groceries") (or_intror h)) in Hg.
    rewrite E in Hg. contradiction.
  - apply sorted_NoDup_ascending, unique_NoDup.
  - intros x Hx. apply Hin. now right.
  - exact Hin.
Qed.

Lemma label_nonempty e c : e <> "" -> label e c <> "".
Proof.
  intros He. unfold label.
  destruct (String.eqb _ "") eqn:E; [exact He|].
  now apply String.eqb_neq.
Qed.

Lemma default_range_ordered today date :
  (fst (default_range today date) <= snd (default_range today date))%Z.
Proof.
  unfold default_range. destruct (timestamps date) as [|t ts]; simpl; [lia|].
  pose proof (fold_min_le ts t t (or_introl eq_refl)).
  pose proof (fold_max_ge ts t t (or_introl eq_refl)).
  unfold date_of, ns_per_day. apply Z.div_le_mono; lia.
Qed.

Lemma default_range_days today date i t :
  i < List.length date -> nth i date (CNum NaN) = CTime t ->
  (fst (default_range today date) <= date_of t
   <= snd (default_range today date))%Z.
Proof.
  intros Hi Hn. pose proof (timestamps_In _ _ _ Hn Hi) as Hin.
  unfold default_range. destruct (timestamps date) as [|u us]; [contradiction|].
  simpl. pose proof (fold_min_le us u t Hin). pose proof (fold_max_ge us u t Hin).
  unfold date_of, ns_per_day. split; apply Z.div_le_mono; lia.
Qed.

(** X2. On a ledger the defaults of the filter widgets never fail.  The
    category and gender options are strictly ascending, hence without
    repetition, never hold the empty text, and are exactly the labels of the
    records.  The default date range is ordered, starts and ends on the day
    of a record's date or is today twice, and holds the day of every
    record that has a date. *)
Theorem default_options_sound today (df : DataFrame) :
  ledger df ->
  exists cats genders lo hi,
    default_options today df = Ok (cats, genders, (lo, hi))
    /\ ascending cats /\ ascending genders
    /\ ~ In "" cats /\ ~ In "" genders
    /\ (forall x, In x cats
          <-> exists i c, i < len df
                /\ lookup "Category" (row_at i df) = Some c
                /\ x = label "(empty)" c)
    /\ (forall x, In x genders
          <-> exists i g, i < len df
                /\ lookup "Gender" (row_at i df) = Some g
                /\ x = label "Not specified" g)
    /\ (lo <= hi)%Z
    /\ (forall i t, i < len df ->
          lookup "Date" (row_at i df) = Some (CTime t) ->
          (lo <= date_of t <= hi)%Z)
    /\ ((forall i t, i < len df ->
           lookup "Date" (row_at i df) <> Some (CTime t)) ->
        lo = today /\ hi = today).
Proof.
  intros L.
  destruct (ledger_columns df L)
    as (cat & gender & date & amount & Hc & Hg & Hd & _ & Lc & Lg & Ld & _
        & Hdc & _).
  pose proof (default_options_ok today df _ _ _ Hc Hg Hd Hdc) as Ho.
  pose proof (default_range_ordered today date) as Hord.
  pose proof (default_range_days today date) as Hdays.
  assert (Hnone : timestamps date = [] ->
                  default_range today date = (today, today))
    by (intros E; unfold default_range; now rewrite E).
  destruct (default_range today date) as [lo hi]. simpl in Hord, Hdays.
  assert (Hlab : forall e s x, List.length s = len df ->
            (In x (sorted (unique (filter_keys e s)))
             <-> exists i c, i < len df /\ Some (nth i s (CNum NaN)) = Some c
                             /\ x = label e c)).
  { intros e s x Hs. rewrite sorted_unique_In, filter_keys_label, in_map_iff.
    split.
    - intros (c & <- & Hin). destruct (In_nth _ _ (CNum NaN) Hin) as (i & Hi & E).
      exists i, c. rewrite E. repeat split. lia.
    - intros (i & c & Hi & [= <-] & ->). eexists. split; [reflexivity|].
      apply nth_In. lia. }
  eexists. eexists. exists lo, hi. split; [exact Ho|].
  split; [apply sorted_NoDup_ascending, unique_NoDup|].
  split; [apply sorted_NoDup_ascending, unique_NoDup|].
  split.
  { intros Hin. apply (proj1 (sorted_unique_In _ _)) in Hin.
    rewrite filter_keys_label in Hin. apply in_map_iff in Hin.
    destruct Hin as (c & E & _). revert E. now apply label_nonempty. }
  split.
  { intros Hin. apply (proj1 (sorted_unique_In _ _)) in Hin.
    rewrite filter_keys_label in Hin. apply in_map_iff in Hin.
    destruct Hin as (c & E & _). revert E. now apply label_nonempty. }
  split.
  { intros x. rewrite (Hlab _ _ x Lc). split;
      intros (i & c & Hi & E & ->); exists i, c;
      rewrite lookup_row_at, Hc in *; simpl in *; auto. }
  split.
  { intros x. rewrite (Hlab _ _ x Lg). split;
      intros (i & c & Hi & E & ->); exists i, c;
      rewrite lookup_row_at, Hg in *; simpl in *; auto. }
  split; [exact Hord|]. split.
  - intros i t Hi. rewrite lookup_row_at, Hd. simpl. intros [= E].
    apply (Hdays i t); [lia | exact E].
  - intros Hno. assert (Et : timestamps date = []).
    { destruct (timestamps date) as [|t ts] eqn:Et; [reflexivity|].
      assert (Hin : In t (timestamps date)) by (rewrite Et; now left).
      unfold timestamps in Hin. apply in_flat_map in Hin.
      destruct Hin as (c & Hc' & Hin).
      destruct c; simpl in Hin; try contradiction.
      destruct Hin as [->|[]].
      destruct (In_nth _ _ (CNum NaN) Hc') as (i & Hi & E).
      exfalso. apply (Hno i t); [lia|].
      rewrite lookup_row_at, Hd. simpl. now rewrite E. }
    specialize (Hnone Et). now injection Hnone as -> ->.
Qed.

End Options.

(** ** Loading and normalizing, once more *)

Lemma len_set_col_replace c s s' (df : DataFrame) :
  lookup c df = Some s -> List.length s' = List.length s ->
  len (set_col c s' df) = len df.
Proof.
  destruct df as [|[k v] df]; simpl; [discriminate|].
  destruct (String.eqb c k); simpl; [|reflexivity].
  now intros [= ->].
Qed.

(** X3. [load_sample_df] always returns a table with a Gender column and
    with the rows it read.  A table that has the column is returned as it
    is; otherwise Gender is appended as the last column, "Not specified" on
    every row, and the other columns are untouched.  Without the sample
    file the table is the built-in one, which has the column. *)
Theorem load_sample_df_gender (sample_file : option DataFrame) :
  let df0 := match sample_file with
             | Some df => df
             | None => fallback_data
             end in
  has_col "Gender" (load_sample_df sample_file) = true
  /\ len (load_sample_df sample_file) = len df0
  /\ (has_col "Gender" df0 = true -> load_sample_df sample_file = df0)
  /\ (has_col "Gender" df0 = false ->
      columns (load_sample_df sample_file) = columns df0 ++ ["Gender"]
      /\ lookup "Gender" (load_sample_df sample_file)
         = Some (repeat (CStr "Not specified") (len df0))
      /\ forall c, c <> "Gender" ->
           lookup c (load_sample_df sample_file) = lookup c df0)
  /\ (sample_file = None -> load_sample_df sample_file = fallback_data).
Proof.
  intros df0. unfold load_sample_df. fold df0.
  destruct (has_col "Gender" df0) eqn:E; cbn [negb].
  - repeat split; trivial; try discriminate. intros ->. reflexivity.
  - split; [unfold set_col_scalar; rewrite has_col_set_col; apply orb_true_r|].
    split; [apply len_set_col_scalar|].
    split; [discriminate|]. split.
    + unfold set_col_scalar. rewrite columns_set_col, E.
      split; [reflexivity|]. split; [apply lookup_set_col_same|].
      intros c Hc. now apply lookup_set_col_other.
    + intros ->. subst df0. discriminate.
Qed.

Section Again.

Context `{Pandas}.

(** X4. [ensure_datetime_col] never raises and gives a table that has the
    column, holding Timestamps and NaT only, with the number of rows and
    every other column as before.  A missing column is created with NaT on
    every row; a column of dates is left as it is; and a second call
    changes nothing. *)
Theorem ensure_datetime_col_stable (df : DataFrame) (col : string) :
  exists df1,
    ensure_datetime_col df col = Ok df1
    /\ len df1 = len df
    /\ (forall c, c <> col -> lookup c df1 = lookup c df)
    /\ (exists s, lookup col df1 = Some s /\ Forall datetime_cell s)
    /\ (has_col col df = false ->
        lookup col df1 = Some (repeat CNaT (len df)))
    /\ (forall s, lookup col df = Some s -> Forall datetime_cell s ->
                  df1 = df)
    /\ ensure_datetime_col df1 col = Ok df1.
Proof.
  unfold ensure_datetime_col at 1. destruct (has_col col df) eqn:E.
  - destruct (has_col_lookup E) as (s & Hs). unfold get_col. rewrite Hs.
    cbn [bind]. eexists. split; [reflexivity|].
    split; [apply (len_set_col_replace _ s); [exact Hs | apply to_datetime_length]|].
    split; [intros c Hc; now apply lookup_set_col_other|].
    split; [exists (to_datetime s); split;
            [apply lookup_set_col_same | apply to_datetime_cells]|].
    split; [discriminate|]. split.
    + intros s' [= <-] Hc.
      rewrite (to_datetime_id s Hc). now apply set_col_id.
    + unfold ensure_datetime_col, get_col.
      rewrite has_col_set_col, String.eqb_refl, orb_true_r.
      rewrite lookup_set_col_same. cbn [bind]. f_equal.
      rewrite (to_datetime_id _ (to_datetime_cells s)).
      apply set_col_id, lookup_set_col_same.
  - eexists. split; [reflexivity|].
    assert (Hcells : Forall datetime_cell (repeat CNaT (len df))).
    { apply Forall_forall. intros c Hc. apply repeat_spec in Hc. now subst. }
    split; [apply len_set_col_scalar|].
    split; [intros c Hc; now apply lookup_set_col_other|].
    split; [eexists; split; [apply lookup_set_col_same | exact Hcells]|].
    split; [intros _; apply lookup_set_col_same|]. split.
    + intros s Hs. rewrite (has_col_false_lookup _ _ E) in Hs. discriminate.
    + unfold ensure_datetime_col, get_col, set_col_scalar.
      rewrite has_col_set_col, String.eqb_refl, orb_true_r.
      rewrite lookup_set_col_same. cbn [bind]. f_equal.
      rewrite (to_datetime_id _ Hcells).
      apply set_col_id, lookup_set_col_same.
Qed.

Lemma add_missing_columns_ledger (df : DataFrame) :
  ledger df -> add_missing_columns df = df.
Proof.
  intros L. destruct (ledger_amount _ L) as (sa & Ha & _).
  assert (Hstep : forall c, has_col c df = true -> add_if_missing df c = df)
    by (intros c Hc; unfold add_if_missing; now rewrite Hc).
  unfold add_missing_columns. simpl.
  now rewrite (Hstep _ (ledger_category _ L)),
    (Hstep _ (lookup_has_col _ _ _ Ha)), (Hstep _ (ledger_notes _ L)),
    (Hstep _ (ledger_gender _ L)).
Qed.

Lemma coerce_amount_numbers s :
  Forall is_number s -> map coerce_amount s = s.
Proof.
  induction 1 as [|c s (x & -> & Hx) Hs IH]; simpl; [reflexivity|].
  now rewrite IH, coerce_amount_number.
Qed.

(** X5. On a rectangular input the normalizer keeps the number of rows and
    every cell of the columns other than Date and Amount, and a table it
    has produced is a fixed point: normalizing it again returns it
    unchanged. *)
Theorem normalize_stable (loaded : option DataFrame) :
  wf (start_table loaded) ->
  exists df,
    normalize loaded = Ok df
    /\ len df = len (start_table loaded)
    /\ (forall c s, c <> "Date" -> c <> "Amount" ->
          lookup c (start_table loaded) = Some s -> lookup c df = Some s)
    /\ normalize (Some df) = Ok df.
Proof.
  intros Hwf. pose proof (normalize_ok loaded) as Hn.
  pose proof (normalize_ledger _ _ Hwf Hn) as L.
  eexists. split; [exact Hn|].
  split; [now apply (normalize_len loaded)|]. split.
  - intros c s Hd Ha Hs.
    rewrite (normalize_lookup_other _ _ c Hn Ha Hd), lookup_add_missing_columns.
    now rewrite Hs.
  - match type of Hn with _ = Ok ?d => set (df := d) in * end.
    rewrite (normalize_ok (Some df)). f_equal. simpl start_table.
    destruct (ledger_date _ L) as (sd & Hd & Hsd).
    destruct (ledger_amount _ L) as (sa & Ha & Hsa).
    rewrite (add_missing_columns_ledger df L).
    unfold date_column, amount_column. rewrite Hd, Ha.
    rewrite (to_datetime_id sd Hsd), (coerce_amount_numbers sa Hsa).
    rewrite (set_col_id "Date" sd df Hd). now apply set_col_id.
Qed.

End Again.

(** ** The form handler, once more *)

Lemma lstrip_app a b :
  Py.lstrip (a ++ b)
  = match Py.lstrip a with
    | EmptyString => Py.lstrip b
    | r => (r ++ b)%string
    end.
Proof.
  induction a as [|c a IH]; simpl; [reflexivity|].
  destruct (Py.isspace c); [exact IH | reflexivity].
Qed.

(** X6. The notes the form handler stores.  Without tags they are the notes
    as typed, white space included.  With tags picked from the options they
    are the notes without their leading white space, then " | Tags: " and
    the tags joined by ", "; when the notes are empty or white space only,
    what is stored starts at the bar. *)
Theorem stored_notes_formula (f : Form) :
  incl (f_tags f) tag_options ->
  stored_notes f
  = Some (CStr
      match f_tags f with
      | [] => f_notes f
      | _ :: _ =>
          match Py.lstrip (f_notes f) with
          | EmptyString => ("| Tags: " ++ Py.join ", " (f_tags f))%string
          | n => (n ++ " | Tags: " ++ Py.join ", " (f_tags f))%string
          end
      end).
Proof.
  intros Hincl. unfold stored_notes, new_row.
  cbn [lookup String.eqb Ascii.eqb Bool.eqb]. do 2 f_equal.
  assert (Hor : Py.or_str (f_notes f) "" = f_notes f)
    by (unfold Py.or_str; now destruct (f_notes f)).
  rewrite Hor. destruct (f_tags f) as [|t ts] eqn:Et; [reflexivity|].
  cbn [Py.truthy_list]. unfold Py.strip. rewrite lstrip_app.
  assert (Hj : ends_black (Py.join ", " (t :: ts))).
  { apply join_ends_black; [discriminate|].
    apply Forall_forall. intros x Hx.
    exact (proj1 (Forall_forall _ _) tag_options_end_black x (Hincl x Hx)). }
  destruct (Py.lstrip (f_notes f)) as [|c n] eqn:El.
  - change (Py.lstrip (" | Tags: " ++ Py.join ", " (t :: ts)))
      with ("| Tags: " ++ Py.join ", " (t :: ts))%string.
    destruct (ends_black_app "| Tags: " _ Hj) as (d & Hl & Hd).
    exact (rstrip_fixed _ _ Hl Hd).
  - destruct (ends_black_app (String c n) _ (ends_black_app " | Tags: " _ Hj))
      as (d & Hl & Hd).
    exact (rstrip_fixed _ _ Hl Hd).
Qed.

Lemma lookup_map_keys {A} (g : string -> A) cols c :
  In c cols -> lookup c (map (fun c => (c, g c)) cols) = Some (g c).
Proof.
  induction cols as [|k cols IH]; simpl; [contradiction|].
  destruct (String.eqb c k) eqn:E.
  - apply String.eqb_eq in E. now subst.
  - intros [->|Hin]; [now rewrite String.eqb_refl in E | now apply IH].
Qed.

Lemma lookup_In_keys {A} c (l : list (string * A)) v :
  lookup c l = Some v -> In c (map fst l).
Proof.
  induction l as [|[k x] l IH]; simpl; [discriminate|].
  destruct (String.eqb c k) eqn:E; [|auto].
  apply String.eqb_eq in E. auto.
Qed.

Lemma row_at_concat_old (df : DataFrame) f i :
  ledger df -> i < len df ->
  row_at i (concat_row df (new_row f)) = row_at i df.
Proof.
  intros L Hi. rewrite concat_row_ledger_eq by assumption.
  unfold row_at. rewrite map_map. apply map_ext_in. intros [c s] Hin.
  pose proof (proj1 (Forall_forall _ _) (proj2 (ledger_wf _ L)) _ Hin) as Hs.
  simpl in Hs. f_equal. apply app_nth1. lia.
Qed.

Lemma row_at_concat_new (df : DataFrame) f :
  ledger df ->
  row_at (len df) (concat_row df (new_row f)) = appended_row (columns df) f.
Proof.
  intros L. rewrite concat_row_ledger_eq by assumption.
  unfold row_at, appended_row, columns. rewrite !map_map.
  apply map_ext_in. intros [c s] Hin.
  pose proof (proj1 (Forall_forall _ _) (proj2 (ledger_wf _ L)) _ Hin) as Hs.
  simpl in Hs. simpl. f_equal. rewrite <- Hs. apply nth_middle.
Qed.

(** X7. The form handler only appends.  On a ledger, a submitted form
    leaves the columns and every record as they were and adds one record
    after them, which carries the form's date (at midnight), category,
    amount, notes and gender, and a missing value in any other column;
    the success box is shown.  Without submission the table is untouched
    and no box is shown. *)
Theorem add_transaction_appends (df : DataFrame) (f : Form) :
  ledger df ->
  columns (fst (add_transaction (Some f) df)) = columns df
  /\ rows (fst (add_transaction (Some f) df))
     = rows df ++ [appended_row (columns df) f]
  /\ (forall c, In c REQUIRED ->
        lookup c (appended_row (columns df) f) = lookup c (new_row f))
  /\ (forall c, In c (columns df) -> ~ In c REQUIRED ->
        lookup c (appended_row (columns df) f) = Some (CNum NaN))
  /\ snd (add_transaction (Some f) df) = true
  /\ add_transaction None df = (df, false).
Proof.
  intros L. simpl.
  split; [now apply columns_concat_row_ledger|]. split.
  - unfold rows at 1. rewrite len_concat_row_ledger by assumption.
    rewrite seq_S, map_app. simpl. f_equal.
    + unfold rows. apply map_ext_in. intros i Hi. apply in_seq in Hi.
      apply row_at_concat_old; [assumption | lia].
    + f_equal. now apply row_at_concat_new.
  - split; [|split; [|split; reflexivity]].
    + intros c Hc. unfold appended_row.
      rewrite (lookup_map_keys
                 (fun c => match lookup c (new_row f) with
                           | Some v => v
                           | None => CNum NaN
                           end))
        by (apply has_col_In; now apply ledger_required).
      simpl in Hc. destruct Hc as [<-|[<-|[<-|[<-|[<-|[]]]]]]; reflexivity.
    + intros c Hc Hn. unfold appended_row.
      rewrite (lookup_map_keys
                 (fun c => match lookup c (new_row f) with
                           | Some v => v
                           | None => CNum NaN
                           end)) by assumption.
      destruct (lookup c (new_row f)) eqn:E; [|reflexivity].
      exfalso. apply Hn. exact (lookup_In_keys _ _ _ E).
Qed.

(** ** The filter, once more *)

Lemma select_none {A} mask (s : list A) :
  (forall i, i < List.length mask -> nth i mask false = false) ->
  select mask s = [].
Proof.
  revert s. induction mask as [|b mask IH]; intros [|x s] Hm; simpl;
    try reflexivity.
  pose proof (Hm 0 ltac:(simpl; lia)) as H0. simpl in H0. subst b.
  apply IH. intros i Hi. apply (Hm (S i)). simpl. lia.
Qed.

Lemma loc_none mask (df : DataFrame) :
  (forall i, i < List.length mask -> nth i mask false = false) ->
  loc mask df = empty_frame (columns df).
Proof.
  intros Hm. unfold loc, empty_frame, columns. rewrite map_map.
  apply map_ext. intros [c s]. simpl. f_equal. now apply select_none.
Qed.

Section FilterMore.

Context `{Pandas}.

Lemma apply_filters_ledger cats genders a b (df dff : DataFrame) :
  ledger df ->
  apply_filters cats genders a b df = Ok dff ->
  ledger dff
  /\ exists date, lookup "Date" dff = Some date
                  /\ Forall (fun c => has_date c = true) date.
Proof.
  intros L Hf. split; [|exact (proj2 (filtered_date_column _ _ _ _ _ _ L Hf))].
  destruct (ledger_columns df L)
    as (cat & gender & date & amount & Hc & Hg & Hd & _).
  unfold apply_filters in Hf.
  rewrite (filter_mask_ok cats genders a b df _ _ _ Hc Hg Hd) in Hf.
  cbn [bind] in Hf. injection Hf as <-. now apply loc_ledger.
Qed.

(** X8. Widening a filter never loses a record: on a ledger, when more
    categories and genders are selected and the date range starts no later
    and ends no earlier, every position the narrower filter keeps is kept
    by the wider one. *)
Theorem filter_widening cats cats' genders genders' a a' b b'
    (df : DataFrame) :
  ledger df ->
  incl cats cats' -> incl genders genders' ->
  (a' <= a)%Z -> (b <= b')%Z ->
  exists mask mask',
    filter_mask cats genders a b df = Ok mask
    /\ filter_mask cats' genders' a' b' df = Ok mask'
    /\ forall i, nth i mask false = true -> nth i mask' false = true.
Proof.
  intros L Hc Hg Ha Hb.
  destruct (ledger_columns df L)
    as (cat & gender & date & amount & Ec & Eg & Ed & _ & Lc & Lg & Ld & _).
  exists (band (band (isin cats (filter_keys "(empty)" cat))
                     (isin genders (filter_keys "Not specified" gender)))
               (between (to_datetime_date a) (to_datetime_date b) date)),
         (band (band (isin cats' (filter_keys "(empty)" cat))
                     (isin genders' (filter_keys "Not specified" gender)))
               (between (to_datetime_date a') (to_datetime_date b') date)).
  split; [now apply filter_mask_ok|]. split; [now apply filter_mask_ok|].
  intros i Hi.
  assert (Hlt : i < len df).
  { destruct (Nat.lt_ge_cases i (len df)) as [Hlt|Hge]; [exact Hlt|].
    rewrite nth_overflow in Hi; [discriminate|].
    rewrite !length_band. unfold isin, between.
    rewrite !length_map, !length_filter_keys. lia. }
  rewrite (mask_at _ _ _ _ _ _ _ i (len df)) in Hi by assumption.
  rewrite (mask_at _ _ _ _ _ _ _ i (len df)) by assumption.
  apply andb_true_iff in Hi. destruct Hi as [Hi H3].
  apply andb_true_iff in Hi. destruct Hi as [H1 H2].
  apply existsb_eqb_In in H1, H2.
  rewrite !andb_true_iff, !existsb_eqb_In. repeat split; auto.
  destruct (nth i date (CNum NaN)); try discriminate.
  apply andb_true_iff in H3. destruct H3 as [Hlo Hhi].
  apply Z.leb_le in Hlo, Hhi. unfold to_datetime_date, ns_per_day in *.
  apply andb_true_iff. split; apply Z.leb_le; lia.
Qed.

(** X9. With no category selected, or no gender selected, or a date range
    that ends before it starts, the filter keeps nothing: the filtered
    table has the columns of the ledger and no row, the cards show 0 for
    total, average, count and max, and no table of the five largest is
    drawn. *)
Theorem filter_nothing_selected cats genders a b (df : DataFrame) :
  ledger df ->
  cats = [] \/ genders = [] \/ (b < a)%Z ->
  exists dff,
    apply_filters cats genders a b df = Ok dff
    /\ dff = empty_frame (columns df)
    /\ rows dff = []
    /\ kpis dff = Ok {| kpi_total := Fin 0; kpi_avg := Fin 0;
                        kpi_count := 0; kpi_max := Fin 0 |}
    /\ top5_table dff = Ok None.
Proof.
  intros L Hsel.
  destruct (ledger_columns df L)
    as (cat & gender & date & amount & Ec & Eg & Ed & Ea & Lc & Lg & Ld & _).
  pose proof (filter_mask_ok cats genders a b df _ _ _ Ec Eg Ed) as Hm.
  match type of Hm with _ = Ok ?m => set (mask := m) in * end.
  assert (Hlen : List.length mask = len df).
  { unfold mask. rewrite !length_band. unfold isin, between.
    rewrite !length_map, !length_filter_keys. lia. }
  assert (Hnone : forall i, i < List.length mask -> nth i mask false = false).
  { intros i Hi. rewrite Hlen in Hi. unfold mask.
    rewrite (mask_at _ _ _ _ _ _ _ i (len df)) by assumption.
    destruct Hsel as [->|[->|Hba]]; simpl.
    - reflexivity.
    - now rewrite andb_false_r.
    - destruct (nth i date (CNum NaN)); rewrite ?andb_false_r; trivial.
      apply andb_false_iff. right. apply andb_false_iff.
      unfold to_datetime_date, ns_per_day.
      destruct (Z.leb_spec (a * 86400000000000) t);
        destruct (Z.leb_spec t (b * 86400000000000)); auto. lia. }
  exists (loc mask df). unfold apply_filters. rewrite Hm. cbn [bind].
  split; [reflexivity|].
  pose proof (loc_none mask df Hnone) as Hloc.
  split; [exact Hloc|].
  assert (Hlen0 : len (loc mask df) = 0).
  { rewrite (len_loc mask df "Amount" amount (ledger_wf _ L) Ea).
    now rewrite (select_none mask amount Hnone). }
  split; [unfold rows; now rewrite Hlen0|]. split.
  - unfold kpis, get_col. rewrite lookup_loc, Ea. cbn [option_map bind].
    rewrite (select_none mask amount Hnone). cbn [series_values bind].
    now rewrite Hlen0.
  - apply top5_table_empty.
    rewrite df_empty_len, Hlen0; [reflexivity|].
    apply ledger_nonempty. now apply loc_ledger.
Qed.

End FilterMore.

(** ** The Month column and the monthly trend *)

Lemma period_month_shape t : is_ym (period_month t) = true.
Proof.
  unfold period_month. destruct (civil_from_days (date_of t)) as [[y m] d].
  unfold pad4, pad2. cbn [append is_ym forallb].
  rewrite !is_digit_digit. reflexivity.
Qed.

Lemma month_label_text c : month_label c = CStr (month_text c).
Proof. now destruct c. Qed.

Lemma strings_of_texts l : strings_of (map CStr l) = Ok l.
Proof. induction l as [|x l IH]; simpl; [reflexivity|]. now rewrite IH. Qed.

Lemma df_empty_set_col c s (df : DataFrame) :
  df <> [] -> List.length s = len df ->
  df_empty (set_col c s df) = df_empty df.
Proof.
  intros Hne Hs. rewrite !df_empty_len, len_set_col; trivial.
  destruct df as [|[k v] df]; [congruence|]. simpl.
  destruct (String.eqb c k); discriminate.
Qed.

(** What [add_month] makes of a table whose records all have a date. *)
Lemma add_month_dated (dff : DataFrame) date :
  ledger dff -> lookup "Date" dff = Some date ->
  Forall (fun c => has_date c = true) date ->
  add_month dff = Ok (set_col "Month" (map month_label date) dff).
Proof.
  intros L Hd Hall.
  pose proof (wf_lookup _ _ _ (ledger_wf _ L) Hd) as Hlen.
  unfold add_month, get_col. rewrite Hd.
  rewrite (df_empty_len dff (ledger_nonempty _ L)).
  destruct (len dff) as [|n] eqn:En.
  - cbn [Nat.eqb negb bind]. destruct date; [|discriminate].
    unfold set_col_scalar. now rewrite En.
  - cbn [Nat.eqb negb bind].
    destruct date as [|c date]; [discriminate|].
    inversion Hall as [|? ? Hc Hrest]; subst.
    assert (Hany : any (notna (c :: date)) = true)
      by (destruct c; try discriminate; reflexivity).
    rewrite Hany.
    rewrite (map_result_ok month_of_cell month_label
               (fun c => has_date c = true)); trivial.
    intros [] Hx; try discriminate; reflexivity.
Qed.

(** X10. The Month column of a filtered table.  [add_month] never fails on
    it, keeps its rows and its other columns, and gives every record the
    year and month of its date, written YYYY-MM; neither the text "NaT" nor
    the empty text ever appears, since no filtered record lacks its date. *)
Theorem add_month_of_filtered `{Pandas} cats genders a b (df dff0 : DataFrame) :
  ledger df ->
  apply_filters cats genders a b df = Ok dff0 ->
  exists dff date month,
    add_month dff0 = Ok dff
    /\ lookup "Date" dff0 = Some date
    /\ lookup "Month" dff = Some month
    /\ List.length month = List.length date
    /\ (forall i t, i < List.length date ->
          nth i date (CNum NaN) = CTime t ->
          nth i month (CNum NaN) = CStr (period_month t))
    /\ Forall (fun c => exists s, c = CStr s /\ is_ym s = true) month
    /\ len dff = len dff0
    /\ (forall c, c <> "Month" -> lookup c dff = lookup c dff0).
Proof.
  intros L Hf.
  destruct (apply_filters_ledger _ _ _ _ _ _ L Hf) as (L0 & date & Hd & Hall).
  pose proof (add_month_dated dff0 date L0 Hd Hall) as Hm.
  pose proof (wf_lookup _ _ _ (ledger_wf _ L0) Hd) as Hlen.
  eexists. exists date, (map month_label date).
  split; [exact Hm|]. split; [exact Hd|].
  split; [apply lookup_set_col_same|].
  split; [apply length_map|]. split; [|split; [|split]].
  - intros i t Hi Hn. rewrite (nth_map_lt _ _ _ (CNum NaN)) by assumption.
    now rewrite Hn.
  - apply Forall_forall. intros c Hc. apply in_map_iff in Hc.
    destruct Hc as (c0 & <- & Hin).
    pose proof (proj1 (Forall_forall _ _) Hall c0 Hin) as Hc0.
    destruct c0; try discriminate. eexists. split; [reflexivity|].
    apply period_month_shape.
  - apply len_set_col. now rewrite length_map.
  - intros c Hc. now apply lookup_set_col_other.
Qed.

(** *** Grouping *)

Lemma insert_by_key_least r l :
  Forall (fun r' => String.leb (fst r) (fst r') = true) l ->
  insert_by_key r l = r :: l.
Proof.
  destruct l as [|r' l]; [reflexivity|]. intros Hall. simpl.
  now rewrite (Forall_inv Hall).
Qed.

Lemma sort_values_key_sorted l :
  StronglySorted (fun a b => String.leb a b = true) (map fst l) ->
  sort_values_key l = l.
Proof.
  induction l as [|r l IH]; simpl; [reflexivity|]. intros Hs.
  inversion Hs as [|? ? Hs' Hr]; subst. rewrite (IH Hs').
  apply insert_by_key_least. rewrite Forall_map in Hr. exact Hr.
Qed.

Lemma groupby_sum_keys keys (xs : list float64) :
  map fst (groupby_sum keys xs) = sorted (unique keys).
Proof.
  unfold groupby_sum. rewrite map_map. simpl. apply map_id.
Qed.

Lemma sort_values_groupby keys xs :
  sort_values_key (groupby_sum keys xs) = groupby_sum keys xs.
Proof.
  apply sort_values_key_sorted. rewrite groupby_sum_keys. apply sorted_sorted.
Qed.

Lemma pick_cons {A} k k0 keys (x : A) xs :
  pick k (k0 :: keys) (x :: xs)
  = if String.eqb k k0 then x :: pick k keys xs else pick k keys xs.
Proof. reflexivity. Qed.

Lemma zsum_cons n l : zsum (n :: l) = (n + zsum l)%Z.
Proof. reflexivity. Qed.

Lemma zsum_pick_nil ks :
  zsum (map (fun k => zsum (@pick Z k [] [])) ks) = 0%Z.
Proof.
  induction ks as [|k ks IH]; [reflexivity|].
  change (zsum (map (fun k => zsum (@pick Z k [] [])) (k :: ks)))
    with (0 + zsum (map (fun k => zsum (@pick Z k [] [])) ks))%Z.
  rewrite IH. reflexivity.
Qed.

Lemma zsum_pick_other ks k0 keys (n0 : Z) ns :
  ~ In k0 ks ->
  zsum (map (fun k => zsum (pick k (k0 :: keys) (n0 :: ns))) ks)
  = zsum (map (fun k => zsum (pick k keys ns)) ks).
Proof.
  induction ks as [|k ks IH]; intros Hk; [reflexivity|].
  simpl map. rewrite !zsum_cons, pick_cons.
  destruct (String.eqb k k0) eqn:E.
  - apply String.eqb_eq in E. subst k0. exfalso. apply Hk. now left.
  - rewrite IH; [reflexivity|]. intros Hin. apply Hk. now right.
Qed.

Lemma zsum_pick_one ks k0 keys (n0 : Z) ns :
  NoDup ks -> In k0 ks ->
  zsum (map (fun k => zsum (pick k (k0 :: keys) (n0 :: ns))) ks)
  = (n0 + zsum (map (fun k => zsum (pick k keys ns)) ks))%Z.
Proof.
  induction 1 as [|k ks Hk Hnd IH]; intros Hk0; [contradiction|].
  simpl map. rewrite !zsum_cons, pick_cons.
  destruct (String.eqb k k0) eqn:E.
  - apply String.eqb_eq in E. subst k0.
    rewrite (zsum_pick_other ks k keys n0 ns Hk), zsum_cons. lia.
  - destruct Hk0 as [->|Hk0]; [now rewrite String.eqb_refl in E|].
    rewrite (IH Hk0). lia.
Qed.

(** The sums of the groups add up to the sum of all values. *)
Lemma zsum_groups ks keys ns :
  NoDup ks -> (forall k, In k keys -> In k ks) ->
  List.length keys = List.length ns ->
  zsum (map (fun k => zsum (pick k keys ns)) ks) = zsum ns.
Proof.
  intros Hnd. revert ns.
  induction keys as [|k0 keys IH]; intros [|n0 ns] Hin Hlen;
    try discriminate.
  - apply zsum_pick_nil.
  - simpl in Hlen. injection Hlen as Hlen.
    rewrite (zsum_pick_one ks k0 keys n0 ns Hnd (Hin k0 (or_introl eq_refl))).
    rewrite (IH ns (fun k h => Hin k (or_intror h)) Hlen).
    reflexivity.
Qed.

(** A group weighs no more than the whole. *)
Lemma abs_sum_select mask ns : (abs_sum (select mask ns) <= abs_sum ns)%Z.
Proof.
  unfold abs_sum. revert ns.
  induction mask as [|b mask IH]; intros [|n ns]; simpl; try lia.
  - pose proof (abs_sum_nonneg (n :: ns)) as Hn. unfold abs_sum in Hn.
    simpl in Hn. lia.
  - specialize (IH ns). destruct b; simpl; lia.
Qed.

(** The sum of a group of whole numbers is exact when the sum of all is. *)
Lemma nansum_pick_whole k keys ns :
  (abs_sum ns < 2 ^ 53)%Z ->
  nansum (pick k keys (map whole ns)) = whole (zsum (pick k keys ns)).
Proof.
  intros Hb. unfold pick. rewrite select_map. apply nansum_whole.
  pose proof (abs_sum_select (map (String.eqb k) keys) ns). lia.
Qed.


Lemma period_month_truthy t : Py.truthy_str (period_month t) = true.
Proof.
  pose proof (period_month_shape t) as Hs.
  destruct (period_month t); [discriminate | reflexivity].
Qed.

(** The trend of a table whose records all have a date, after [add_month]. *)
Lemma monthly_trend_dated (dff0 : DataFrame) date xs :
  ledger dff0 -> lookup "Date" dff0 = Some date ->
  Forall (fun c => has_date c = true) date ->
  lookup "Amount" dff0 = Some (map CNum xs) ->
  monthly_trend (set_col "Month" (map month_label date) dff0)
  = Ok (if (len dff0 =? 0)%nat then None
        else Some (groupby_sum (map month_text date) xs)).
Proof.
  intros L Hd Hall Ha.
  pose proof (wf_lookup _ _ _ (ledger_wf _ L) Hd) as Hlen.
  assert (Hml : map month_label date = map CStr (map month_text date)).
  { rewrite map_map. apply map_ext. apply month_label_text. }
  unfold monthly_trend, get_col.
  rewrite df_empty_set_col
    by (try apply ledger_nonempty; trivial; now rewrite length_map).
  rewrite (df_empty_len dff0 (ledger_nonempty _ L)).
  rewrite lookup_set_col_same, lookup_set_col_other, Ha by discriminate.
  destruct (len dff0) as [|n]; [reflexivity|].
  cbn [Nat.eqb negb bind]. rewrite Hml, strings_of_texts. cbn [bind].
  destruct date as [|c date]; [discriminate|].
  inversion Hall as [|? ? Hc _]; subst. destruct c; try discriminate.
  cbn [map month_text any existsb]. rewrite period_month_truthy.
  cbn [orb]. rewrite series_values_map. cbn [bind].
  now rewrite sort_values_groupby.
Qed.

Section Trend.

Context `{Pandas}.


(** X12. The monthly sums add up to the total.  For a filtered table with
    whole-number amounts whose absolute values sum to less than 2^53, where
    no float64 addition rounds, the sums of the trend records are whole
    numbers, and added up they are the sum of all filtered amounts, which is
    what the Total card shows. *)
Theorem monthly_trend_total cats genders a b (df dff0 : DataFrame) ns :
  ledger df ->
  apply_filters cats genders a b df = Ok dff0 ->
  lookup "Amount" dff0 = Some (map (fun n => CNum (whole n)) ns) ->
  (abs_sum ns < 2 ^ 53)%Z ->
  rows dff0 <> [] ->
  exists dff recs gs cards,
    add_month dff0 = Ok dff
    /\ monthly_trend dff = Ok (Some recs)
    /\ map snd recs = map whole gs
    /\ zsum gs = zsum ns
    /\ kpis dff = Ok cards
    /\ kpi_total cards = whole (zsum gs).
Proof.
  intros L Hf Ha Hb Hne.
  destruct (apply_filters_ledger _ _ _ _ _ _ L Hf) as (L0 & date & Hd & Hall).
  assert (Ha' : lookup "Amount" dff0 = Some (map CNum (map whole ns)))
    by now rewrite map_map.
  pose proof (monthly_trend_dated dff0 date _ L0 Hd Hall Ha') as Ht.
  pose proof (wf_lookup _ _ _ (ledger_wf _ L0) Hd) as Hld.
  pose proof (wf_lookup _ _ _ (ledger_wf _ L0) Ha) as Hla.
  rewrite length_map in Hla.
  pose proof (length_rows dff0) as Hr.
  destruct (len dff0) as [|n] eqn:En;
    [destruct (rows dff0); [congruence | discriminate]|].
  cbn [Nat.eqb] in Ht.
  set (keys := map month_text date) in *.
  set (ks := sorted (unique keys)).
  set (gs := map (fun k => zsum (pick k keys ns)) ks).
  assert (Hsum : zsum gs = zsum ns).
  { unfold gs. apply zsum_groups.
    - eapply Permutation_NoDup; [symmetry; apply sorted_perm|].
      apply unique_NoDup.
    - intros k Hk. now apply sorted_unique_In.
    - unfold keys. rewrite length_map. lia. }
  eexists. exists (groupby_sum keys (map whole ns)), gs. eexists.
  split; [exact (add_month_dated dff0 date L0 Hd Hall)|]. split; [exact Ht|].
  split.
  { unfold groupby_sum, gs. fold ks. rewrite !map_map. apply map_ext.
    intros k. simpl. now apply nansum_pick_whole. }
  split; [exact Hsum|]. split.
  { unfold kpis, get_col.
    rewrite lookup_set_col_other, Ha' by discriminate. cbn [bind].
    rewrite series_values_map. reflexivity. }
  cbn [kpi_total]. rewrite Hsum. now apply nansum_whole.
Qed.

(** Without that condition the additions round, and the monthly sums need
    not add up to the total: for the amounts 0.1, 0.2 and 0.3 (the float64
    nearest to each), the first in one month and the others in the next,
    the total is the float64 above the sum of the monthly sums. *)
Lemma monthly_sums_round :
  let a := round64 (1 # 10) in
  let b := round64 (2 # 10) in
  let c := round64 (3 # 10) in
  nansum [a; b; c] <> fadd (nansum [a]) (nansum [b; c])
  /\ flt (fadd (nansum [a]) (nansum [b; c])) (nansum [a; b; c]) = true.
Proof. vm_compute. split; [discriminate | reflexivity]. Qed.

End Trend.

(** ** The tables shown and the file written *)

Lemma fillna_shown date :
  Forall datetime_cell date ->
  map_result strftime_cell date
  = Ok (map (fun c => match c with
                      | CTime u => CStr (strftime_ymd u)
                      | _ => CNum NaN
                      end) date)
  /\ fillna (CStr "")
       (map (fun c => match c with
                      | CTime u => CStr (strftime_ymd u)
                      | _ => CNum NaN
                      end) date)
     = map shown_date date.
Proof.
  intros Hd. split.
  - apply (map_result_ok strftime_cell _ datetime_cell); trivial.
    intros [] Hx; simpl in *; try contradiction; reflexivity.
  - unfold fillna. rewrite map_map. apply map_ext_in. intros c Hc.
    pose proof (proj1 (Forall_forall _ _) Hd c Hc) as Hdc.
    destruct c; simpl in *; try contradiction; reflexivity.
Qed.

Lemma shown_date_shape date :
  Forall (fun c => exists s, c = CStr s /\ (s = "" \/ is_ymd s = true))
    (map shown_date date).
Proof.
  apply Forall_forall. intros c Hc. apply in_map_iff in Hc.
  destruct Hc as (c0 & <- & _).
  destruct c0; simpl; eexists; split; try reflexivity; auto.
  right. apply strftime_ymd_shape.
Qed.

(** X13. What the table of the five largest looks like on the page.  For a
    table whose Date column holds dates, the display step does not raise,
    changes no other column and no row count, and replaces every date by
    its text YYYY-MM-DD and every missing date by the empty text; a table
    without Date column is shown as it is. *)
Theorem top5_display_dates (top5 : DataFrame) :
  (has_col "Date" top5 = false -> top5_display top5 = Ok top5)
  /\ (forall date,
        lookup "Date" top5 = Some date -> Forall datetime_cell date ->
        exists shown,
          top5_display top5 = Ok shown
          /\ columns shown = columns top5
          /\ len shown = len top5
          /\ lookup "Date" shown = Some (map shown_date date)
          /\ (forall c, c <> "Date" -> lookup c shown = lookup c top5)
          /\ (forall i t, i < List.length date ->
                nth i date (CNum NaN) = CTime t ->
                nth i (map shown_date date) (CNum NaN)
                = CStr (strftime_ymd t)
                /\ is_ymd (strftime_ymd t) = true)).
Proof.
  split.
  - intros E. unfold top5_display. now rewrite E.
  - intros date Hd Hdc. destruct (fillna_shown date Hdc) as [Hm Hf].
    exists (set_col "Date" (map shown_date date) top5). split.
    { unfold top5_display, get_col.
      rewrite (lookup_has_col _ _ _ Hd), Hd. cbn [bind].
      rewrite Hm. cbn [bind]. now rewrite Hf. }
    split; [rewrite columns_set_col; now rewrite (lookup_has_col _ _ _ Hd)|].
    split; [apply (len_set_col_replace _ date); [exact Hd | apply length_map]|].
    split; [apply lookup_set_col_same|].
    split; [intros c Hc; now apply lookup_set_col_other|].
    intros i t Hi Hn. split; [|apply strftime_ymd_shape].
    rewrite (nth_map_lt _ _ _ (CNum NaN)) by assumption. now rewrite Hn.
Qed.

Lemma columns_head n (df : DataFrame) : columns (head n df) = columns df.
Proof.
  unfold head, columns. rewrite map_map. apply map_ext. now intros [k v].
Qed.

Lemma len_head n (df : DataFrame) : len (head n df) = Nat.min n (len df).
Proof.
  destruct df as [|[k v] df]; simpl; [now rewrite Nat.min_0_r|].
  apply length_firstn.
Qed.

Lemma row_at_head n i (df : DataFrame) :
  i < n -> row_at i (head n df) = row_at i df.
Proof.
  intros Hi. unfold row_at, head. rewrite map_map. apply map_ext.
  intros [c s]. f_equal. revert i Hi s.
  induction n as [|n IH]; intros i Hi s; [lia|].
  destruct s as [|x s]; simpl; [now destruct i|].
  destruct i as [|i]; [reflexivity|]. apply IH. lia.
Qed.

Lemma firstn_seq_0 n m : firstn n (seq 0 m) = seq 0 (Nat.min n m).
Proof.
  generalize 0. revert m. induction n as [|n IH]; intros [|m] k; simpl;
    try reflexivity.
  now rewrite IH.
Qed.

Lemma rows_head n (df : DataFrame) : rows (head n df) = firstn n (rows df).
Proof.
  unfold rows. rewrite len_head, firstn_map, firstn_seq_0.
  apply map_ext_in. intros i Hi. apply in_seq in Hi.
  apply row_at_head. lia.
Qed.

(** X14. The raw data expander shows nothing unless its box is ticked; when
    it is, it shows the filtered records from the first one on, in order, at
    most 200 of them, with every column of the filtered table (Month
    included) and with the dates written as in the table of the five
    largest. *)
Theorem raw_data_first_rows (dff : DataFrame) (date : Series) :
  lookup "Date" dff = Some date ->
  Forall datetime_cell date ->
  raw_data false dff = Ok None
  /\ exists shown,
       raw_data true dff = Ok (Some shown)
       /\ columns shown = columns dff
       /\ len shown = Nat.min 200 (len dff)
       /\ rows shown
          = firstn 200 (rows (set_col "Date" (map shown_date date) dff))
       /\ top5_display dff
          = Ok (set_col "Date" (map shown_date date) dff).
Proof.
  intros Hd Hdc. split; [reflexivity|].
  destruct (fillna_shown date Hdc) as [Hm Hf].
  exists (head 200 (set_col "Date" (map shown_date date) dff)).
  split.
  { unfold raw_data, get_col.
    rewrite (lookup_has_col _ _ _ Hd), Hd. cbn [bind].
    rewrite Hm. cbn [bind]. now rewrite Hf. }
  split; [rewrite columns_head, columns_set_col;
          now rewrite (lookup_has_col _ _ _ Hd)|].
  split; [rewrite len_head; f_equal;
          apply (len_set_col_replace _ date); [exact Hd | apply length_map]|].
  split; [apply rows_head|].
  unfold top5_display, get_col.
  rewrite (lookup_has_col _ _ _ Hd), Hd. cbn [bind].
  rewrite Hm. cbn [bind]. now rewrite Hf.
Qed.

(** ** The further properties on the fixtures *)

Lemma sample_filtered :
  Fixture.apply_filters ["Groceries"; "Transport"; "Utility"] ["Not specified"]
    20093 20121 Fixture.sample_ledger
  = Ok Fixture.sample_ledger.
Proof. vm_compute. reflexivity. Qed.

Lemma sample_dates :
  Forall datetime_cell
    [CTime (to_datetime_date 20093); CTime (to_datetime_date 20095);
     CTime (to_datetime_date 20121)].
Proof. repeat constructor. Qed.

Lemma cat_options_cover_witness :
  exists opts,
    cat_options (H := Fixture.pandas) Fixture.sample_ledger = Ok opts
    /\ opts <> []
    /\ ascending opts
    /\ incl default_categories opts.
Proof.
  destruct (cat_options_cover (H := Fixture.pandas) Fixture.sample_ledger
              [CStr "Groceries"; CStr "Transport"; CStr "Utility"] eq_refl)
    as (opts & Ho & Hne & Hasc & Hincl & _).
  exists opts. auto.
Defined.

Lemma default_options_sound_witness :
  exists cats genders lo hi,
    Fixture.default_options 20396 Fixture.sample_ledger
    = Ok (cats, genders, (lo, hi))
    /\ ascending cats /\ ascending genders
    /\ ~ In "" cats /\ ~ In "" genders
    /\ (lo <= hi)%Z.
Proof.
  destruct (default_options_sound (H := Fixture.pandas) 20396
              Fixture.sample_ledger sample_ledger_ok)
    as (cats & genders & lo & hi & Ho & Hc & Hg & Hec & Heg & _ & _ & Hle & _).
  exists cats, genders, lo, hi. auto 6.
Defined.

Lemma load_sample_df_gender_witness :
  has_col "Gender" (load_sample_df (Some Fixture.undated_upload)) = true
  /\ len (load_sample_df (Some Fixture.undated_upload)) = 1
  /\ lookup "Gender" (load_sample_df (Some Fixture.undated_upload))
     = Some [CStr "Not specified"].
Proof.
  destruct (load_sample_df_gender (Some Fixture.undated_upload))
    as (Hg & Hl & _ & Hnew & _).
  destruct (Hnew eq_refl) as (_ & Hcol & _).
  split; [exact Hg|]. split; [exact Hl | exact Hcol].
Defined.

Lemma ensure_datetime_col_stable_witness :
  exists df1,
    ensure_datetime_col (H := Fixture.pandas) Fixture.undated_upload "Date"
    = Ok df1
    /\ len df1 = 1
    /\ lookup "Date" df1 = Some [CNaT]
    /\ ensure_datetime_col (H := Fixture.pandas) df1 "Date" = Ok df1.
Proof.
  destruct (ensure_datetime_col_stable (H := Fixture.pandas)
              Fixture.undated_upload "Date")
    as (df1 & He & Hl & _ & _ & Hnew & _ & Hagain).
  exists df1. split; [exact He|]. split; [exact Hl|].
  split; [exact (Hnew eq_refl) | exact Hagain].
Defined.

Lemma normalize_stable_witness :
  exists df,
    Fixture.normalize (Some fallback_data) = Ok df
    /\ len df = 3
    /\ normalize (H := Fixture.pandas) (Some df) = Ok df.
Proof.
  destruct (normalize_stable (H := Fixture.pandas) (Some fallback_data)
              fallback_data_wf)
    as (df & Hn & Hl & _ & Hfix).
  exists df. split; [exact Hn|]. split; [exact Hl | exact Hfix].
Defined.

Lemma stored_notes_formula_witness :
  stored_notes Fixture.lunch_form = Some (CStr "lunch | Tags: food, monthly")
  /\ stored_notes Fixture.tags_only_form
     = Some (CStr "| Tags: refund, family").
Proof.
  split.
  - apply (stored_notes_formula Fixture.lunch_form).
    intros x Hx. simpl in Hx. simpl. tauto.
  - apply (stored_notes_formula Fixture.tags_only_form).
    intros x Hx. simpl in Hx. simpl. tauto.
Defined.

Lemma add_transaction_appends_witness :
  columns (fst (add_transaction (Some Fixture.lunch_form)
                  Fixture.sample_ledger))
  = columns Fixture.sample_ledger
  /\ rows (fst (add_transaction (Some Fixture.lunch_form)
                  Fixture.sample_ledger))
     = rows Fixture.sample_ledger
       ++ [appended_row (columns Fixture.sample_ledger) Fixture.lunch_form].
Proof.
  destruct (add_transaction_appends Fixture.sample_ledger Fixture.lunch_form
              sample_ledger_ok)
    as (Hc & Hr & _).
  split; [exact Hc | exact Hr].
Defined.

Lemma filter_widening_witness :
  exists mask mask',
    Fixture.filter_mask ["Groceries"] ["Not specified"] 20093 20100
      Fixture.sample_ledger = Ok mask
    /\ Fixture.filter_mask ["Groceries"; "Utility"] ["Not specified"]
         20090 20130 Fixture.sample_ledger = Ok mask'
    /\ forall i, nth i mask false = true -> nth i mask' false = true.
Proof.
  apply (filter_widening (H := Fixture.pandas)
           ["Groceries"] ["Groceries"; "Utility"]
           ["Not specified"] ["Not specified"] 20093 20090 20100 20130
           Fixture.sample_ledger sample_ledger_ok).
  - intros x Hx. simpl in Hx. simpl. tauto.
  - intros x Hx. exact Hx.
  - lia.
  - lia.
Defined.

Lemma filter_nothing_selected_witness :
  exists dff,
    Fixture.apply_filters [] ["Not specified"] 20093 20121
      Fixture.sample_ledger = Ok dff
    /\ rows dff = []
    /\ top5_table dff = Ok None.
Proof.
  destruct (filter_nothing_selected (H := Fixture.pandas)
              [] ["Not specified"] 20093 20121 Fixture.sample_ledger
              sample_ledger_ok (or_introl eq_refl))
    as (dff & Hf & _ & Hr & _ & Ht).
  exists dff. split; [exact Hf|]. split; [exact Hr | exact Ht].
Defined.

Lemma add_month_of_filtered_witness :
  exists dff month,
    add_month Fixture.sample_ledger = Ok dff
    /\ lookup "Month" dff = Some month
    /\ Forall (fun c => exists s, c = CStr s /\ is_ym s = true) month
    /\ len dff = 3.
Proof.
  destruct (add_month_of_filtered (H := Fixture.pandas)
              ["Groceries"; "Transport"; "Utility"] ["Not specified"]
              20093 20121 Fixture.sample_ledger Fixture.sample_ledger
              sample_ledger_ok sample_filtered)
    as (dff & date & month & Hm & _ & Hl & _ & _ & Hshape & Hlen & _).
  exists dff, month. split; [exact Hm|]. split; [exact Hl|].
  split; [exact Hshape | exact Hlen].
Defined.


Lemma monthly_trend_total_witness :
  exists dff recs gs cards,
    add_month Fixture.sample_ledger = Ok dff
    /\ monthly_trend dff = Ok (Some recs)
    /\ map snd recs = map whole gs
    /\ zsum gs = 3360%Z
    /\ kpis dff = Ok cards
    /\ kpi_total cards = whole (zsum gs).
Proof.
  destruct (monthly_trend_total (H := Fixture.pandas)
              ["Groceries"; "Transport"; "Utility"] ["Not specified"]
              20093 20121 Fixture.sample_ledger Fixture.sample_ledger
              [1200; 60; 2100]%Z
              sample_ledger_ok sample_filtered eq_refl eq_refl)
    as (dff & recs & gs & cards & Hm & Ht & Hs & Hz & Hk & Htot).
  - discriminate.
  - exists dff, recs, gs, cards. auto 7.
Defined.

Lemma top5_display_dates_witness :
  exists shown,
    top5_display Fixture.sample_ledger = Ok shown
    /\ columns shown = columns Fixture.sample_ledger
    /\ len shown = 3.
Proof.
  destruct (proj2 (top5_display_dates Fixture.sample_ledger) _ eq_refl
              sample_dates)
    as (shown & Hs & Hc & Hl & _).
  exists shown. split; [exact Hs|]. split; [exact Hc | exact Hl].
Defined.

Lemma raw_data_first_rows_witness :
  raw_data false Fixture.sample_ledger = Ok None
  /\ exists shown,
       raw_data true Fixture.sample_ledger = Ok (Some shown)
       /\ columns shown = columns Fixture.sample_ledger
       /\ len shown = 3.
Proof.
  destruct (raw_data_first_rows Fixture.sample_ledger _ eq_refl sample_dates)
    as (Hoff & shown & Hs & Hc & Hl & _).
  split; [exact Hoff|]. exists shown.
  split; [exact Hs|]. split; [exact Hc | exact Hl].
Defined.
